(** * TimeTable front end: configuration form, solver client, variant
    generator, timetable display and application shell.

    The development follows the source files, one module each:
    - [Form]      : TimetableInputForm (state, edit handlers, the
                    auto-sync effect, the teacher / lab-room rows it renders);
    - [Api]       : services/api.js (TimetableAPI);
    - [Generator] : MultipleTimetableGenerator (handlers, event loop,
                    export);
    - [Display]   : TimetableDisplay (grouping, lab-subject look-up, cell
                    filters, the tables);
    - [App]       : TimetableApp (import, validation, form mounting, the
                    store, event loop).

    JavaScript strings are [string]s whose characters are read as code
    units below 256.  Plain objects used as dictionaries are [gmap string _]
    for their own properties; a property read that misses falls through to
    [Object.prototype] (see [Js.getProp]).  Arrays held in the form's
    derived maps carry their identity ([Js.ref]) next to their contents:
    the form never mutates an array in place, it only builds new ones. *)

From Stdlib Require Import Ascii String.
From stdpp Require Import gmap strings list fin_maps pretty sorting.

Open Scope string_scope.
Open Scope list_scope.
Open Scope nat_scope.
Set Warnings "-clear-no-such-hyp".

(** ** JavaScript data *)

Module Js.

(** White space recognised by [String.prototype.trim], for code units
    below 256: TAB, LF, VT, FF, CR, SP and NBSP. *)
Definition isWhiteSpace (c : ascii) : bool :=
  let n := nat_of_ascii c in
  bool_decide (n ∈ [9; 10; 11; 12; 13; 32; 160]%nat).

Fixpoint trimStart (s : string) : string :=
  match s with
  | EmptyString => EmptyString
  | String c rest => if isWhiteSpace c then trimStart rest else s
  end.

Definition trimEnd (s : string) : string :=
  String.rev (trimStart (String.rev s)).

Definition trim (s : string) : string := trimEnd (trimStart s).

(** [new Set()] with [add]: insertion ordered, no duplicates;
    [Array.from] reads the elements back in insertion order. *)
Definition setAdd (x : string) (s : list string) : list string :=
  if decide (x ∈ s) then s else s ++ [x].

(** Property names every plain object inherits from [Object.prototype]. *)
Definition objectPrototype : list string :=
  [ "constructor"; "__defineGetter__"; "__defineSetter__"; "hasOwnProperty";
    "__lookupGetter__"; "__lookupSetter__"; "isPrototypeOf";
    "propertyIsEnumerable"; "toString"; "valueOf"; "__proto__";
    "toLocaleString" ].

(** Result of the property read [o[k]] on a plain object. *)
Inductive property (V : Type) : Type :=
| Own (v : V)      (* an own property of the object *)
| Inherited        (* a function or object found on Object.prototype *)
| Undefined.
Global Arguments Own {V} v.
Global Arguments Inherited {V}.
Global Arguments Undefined {V}.

Definition getProp {V} (o : gmap string V) (k : string) : property V :=
  match o !! k with
  | Some v => Own v
  | None => if decide (k ∈ objectPrototype) then Inherited else Undefined
  end.

(** Truthiness of a property whose own values are arrays (every array,
    the empty one included, is truthy; so are the inherited members). *)
Definition truthy {V} (p : property V) : bool :=
  match p with
  | Own _ => true
  | Inherited => true
  | Undefined => false
  end.

(** An array of strings together with its object identity. *)
Record array : Type := Array { ref : nat; items : list string }.

Global Instance array_eq_dec : EqDecision array.
Proof. solve_decision. Defined.

(** [Object.keys(o)]: the own keys (order is irrelevant to the callers). *)
Definition keys {V} (o : gmap string V) : list string :=
  (map_to_list o).*1.

(** [parseInt(text) || fallback], given the outcome of [parseInt]
    ([None] stands for NaN; both NaN and 0 are falsy). *)
Definition parsedOr (parsed : option Z) (fallback : Z) : Z :=
  match parsed with
  | Some n => if decide (n = 0%Z) then fallback else n
  | None => fallback
  end.

(** [s.replace(/\s+/g, replacement)] for a replacement without [$]:
    every maximal run of white space becomes one copy of it.  [inRun]
    tells that the previous character was white space. *)
Fixpoint replaceRuns (replacement : string) (inRun : bool) (s : string)
    : string :=
  match s with
  | EmptyString => EmptyString
  | String c rest =>
      if isWhiteSpace c
      then if inRun then replaceRuns replacement true rest
           else replacement +:+ replaceRuns replacement true rest
      else String c (replaceRuns replacement false rest)
  end.

Definition replaceWhiteSpace (replacement s : string) : string :=
  replaceRuns replacement false s.

(** No character of the string is white space. *)
Fixpoint noWhiteSpace (s : string) : bool :=
  match s with
  | EmptyString => true
  | String c rest => negb (isWhiteSpace c) && noWhiteSpace rest
  end.

End Js.

(** ** TimetableInputForm *)

Module Form.

Record SectionItem : Type :=
  { section_name : string; student_count : Z }.

Record ClassItem : Type :=
  { name : string;
    subjects : list string;
    lab_subjects : list string;
    sections : list SectionItem }.

Record Constraints : Type :=
  { max_lectures_per_day_teacher : Z;
    max_lectures_per_subject_per_day : Z;
    min_lectures_per_day_section : Z;
    max_lectures_per_day_section : Z;
    lab_session_duration : Z;
    distribute_across_week : bool }.

Record Unavailability : Type := { day : string; slot : string }.

Record InputData : Type :=
  { classes : list ClassItem;
    rooms : list string;
    labs : list string;
    lab_rooms : gmap string Js.array;
    days : list string;
    slots : list string;
    teachers : gmap string Js.array;
    lab_teachers : gmap string Js.array;
    teacher_unavailability : gmap string (list Unavailability);
    lecture_requirements : gmap string Z;
    lab_capacity : Z;
    constraints : Constraints }.

(** The component state: [inputData] and the identity the next array
    literal evaluated by a handler will receive. *)
Record State : Type := { inputData : InputData; nextRef : nat }.

Definition emptyClass : ClassItem :=
  {| name := ""; subjects := []; lab_subjects := [];
     sections := [ {| section_name := ""; student_count := 0 |} ] |}.

(** The argument of [useState]. *)
Definition initialInputData : InputData :=
  {| classes := [ emptyClass ];
     rooms := [];
     labs := [];
     lab_rooms := ∅;
     days := ["Monday"; "Tuesday"; "Wednesday"; "Thursday"; "Friday"];
     slots := ["9:00-9:55"; "9:55-10:50"; "10:50-11:45"; "11:45-12:40";
               "Lunch Break"; "2:00-2:55"; "2:55-3:50"; "3:50-4:45"];
     teachers := ∅;
     lab_teachers := ∅;
     teacher_unavailability := ∅;
     lecture_requirements := ∅;
     lab_capacity := 30;
     constraints :=
       {| max_lectures_per_day_teacher := 5;
          max_lectures_per_subject_per_day := 2;
          min_lectures_per_day_section := 4;
          max_lectures_per_day_section := 6;
          lab_session_duration := 2;
          distribute_across_week := true |} |}.

Definition initialState : State :=
  {| inputData := initialInputData; nextRef := 0 |}.

(** *** Canonical subject sets *)

Definition collect (field : ClassItem → list string)
    (cs : list ClassItem) : list string :=
  foldl (λ set classItem, foldl (λ set subject, Js.setAdd subject set)
                                set (field classItem))
        [] cs.

Definition getAllSubjects (d : InputData) : list string :=
  filter (λ subject, Js.trim subject ≠ "") (collect subjects (classes d)).

Definition getAllLabSubjects (d : InputData) : list string :=
  filter (λ subject, Js.trim subject ≠ "")
         (collect lab_subjects (classes d)).

(** *** The auto-sync effect *)

(** One object being filled: its own properties and the next identity. *)
Definition addMissing (fresh : list string) (subject : string)
    (acc : gmap string Js.array * nat) : gmap string Js.array * nat :=
  if Js.truthy (Js.getProp acc.1 subject) then acc
  else (<[subject := Js.Array acc.2 fresh]> acc.1, S acc.2).

Definition addTheory (theorySubjects : list string)
    (acc : gmap string Js.array * nat) : gmap string Js.array * nat :=
  foldl (λ acc subject, addMissing [""] subject acc) acc theorySubjects.

(** The lab loop fills [newLabTeachers] and [newLabRooms] side by side. *)
Definition addLab (labSubjects : list string)
    (acc : gmap string Js.array * gmap string Js.array * nat)
    : gmap string Js.array * gmap string Js.array * nat :=
  foldl (λ acc subject,
           let '(newLabTeachers, newLabRooms, n) := acc in
           let '(newLabTeachers, n) :=
             addMissing [""] subject (newLabTeachers, n) in
           let '(newLabRooms, n) := addMissing [] subject (newLabRooms, n) in
           (newLabTeachers, newLabRooms, n))
        acc labSubjects.

(** [Object.keys(o).forEach(k => { if (!canon.includes(k)) delete o[k] })] *)
Definition removeStale (canon : list string) (o : gmap string Js.array)
    : gmap string Js.array :=
  foldl (λ o subject, if decide (subject ∈ canon) then o
                      else delete subject o)
        o (Js.keys o).

(** The updater passed to [setInputData] by the effect. *)
Definition reconcile (theorySubjects labSubjects : list string)
    (prev : State) : State :=
  let d := inputData prev in
  let '(newTeachers, n) :=
    addTheory theorySubjects (teachers d, nextRef prev) in
  let '(newLabTeachers, newLabRooms, n) :=
    addLab labSubjects (lab_teachers d, lab_rooms d, n) in
  let newTeachers := removeStale theorySubjects newTeachers in
  let newLabTeachers := removeStale labSubjects newLabTeachers in
  let newLabRooms := removeStale labSubjects newLabRooms in
  {| inputData :=
       {| classes := classes d; rooms := rooms d; labs := labs d;
          lab_rooms := newLabRooms;
          days := days d; slots := slots d;
          teachers := newTeachers;
          lab_teachers := newLabTeachers;
          teacher_unavailability := teacher_unavailability d;
          lecture_requirements := lecture_requirements d;
          lab_capacity := lab_capacity d;
          constraints := constraints d |};
     nextRef := n |}.

(** The effect body, run after a render in which [inputData.classes]
    changed: the canonical sets come from the rendered state, which is
    also the [prev] the updater receives. *)
Definition syncEffect (st : State) : State :=
  reconcile (getAllSubjects (inputData st))
            (getAllLabSubjects (inputData st)) st.

(** *** Object spread: [{...prev, field: v}] for each field *)

Definition with_classes (v : list ClassItem) (prev : InputData)
    : InputData :=
  {| classes := v; rooms := rooms prev; labs := labs prev;
     lab_rooms := lab_rooms prev; days := days prev; slots := slots prev;
     teachers := teachers prev; lab_teachers := lab_teachers prev;
     teacher_unavailability := teacher_unavailability prev;
     lecture_requirements := lecture_requirements prev;
     lab_capacity := lab_capacity prev; constraints := constraints prev |}.

Definition with_rooms (v : list string) (prev : InputData)
    : InputData :=
  {| classes := classes prev; rooms := v; labs := labs prev;
     lab_rooms := lab_rooms prev; days := days prev; slots := slots prev;
     teachers := teachers prev; lab_teachers := lab_teachers prev;
     teacher_unavailability := teacher_unavailability prev;
     lecture_requirements := lecture_requirements prev;
     lab_capacity := lab_capacity prev; constraints := constraints prev |}.

Definition with_labs (v : list string) (prev : InputData)
    : InputData :=
  {| classes := classes prev; rooms := rooms prev; labs := v;
     lab_rooms := lab_rooms prev; days := days prev; slots := slots prev;
     teachers := teachers prev; lab_teachers := lab_teachers prev;
     teacher_unavailability := teacher_unavailability prev;
     lecture_requirements := lecture_requirements prev;
     lab_capacity := lab_capacity prev; constraints := constraints prev |}.

Definition with_lab_rooms (v : gmap string Js.array) (prev : InputData)
    : InputData :=
  {| classes := classes prev; rooms := rooms prev; labs := labs prev;
     lab_rooms := v; days := days prev; slots := slots prev;
     teachers := teachers prev; lab_teachers := lab_teachers prev;
     teacher_unavailability := teacher_unavailability prev;
     lecture_requirements := lecture_requirements prev;
     lab_capacity := lab_capacity prev; constraints := constraints prev |}.

Definition with_days (v : list string) (prev : InputData)
    : InputData :=
  {| classes := classes prev; rooms := rooms prev; labs := labs prev;
     lab_rooms := lab_rooms prev; days := v; slots := slots prev;
     teachers := teachers prev; lab_teachers := lab_teachers prev;
     teacher_unavailability := teacher_unavailability prev;
     lecture_requirements := lecture_requirements prev;
     lab_capacity := lab_capacity prev; constraints := constraints prev |}.

Definition with_slots (v : list string) (prev : InputData)
    : InputData :=
  {| classes := classes prev; rooms := rooms prev; labs := labs prev;
     lab_rooms := lab_rooms prev; days := days prev; slots := v;
     teachers := teachers prev; lab_teachers := lab_teachers prev;
     teacher_unavailability := teacher_unavailability prev;
     lecture_requirements := lecture_requirements prev;
     lab_capacity := lab_capacity prev; constraints := constraints prev |}.

Definition with_teachers (v : gmap string Js.array) (prev : InputData)
    : InputData :=
  {| classes := classes prev; rooms := rooms prev; labs := labs prev;
     lab_rooms := lab_rooms prev; days := days prev; slots := slots prev;
     teachers := v; lab_teachers := lab_teachers prev;
     teacher_unavailability := teacher_unavailability prev;
     lecture_requirements := lecture_requirements prev;
     lab_capacity := lab_capacity prev; constraints := constraints prev |}.

Definition with_lab_teachers (v : gmap string Js.array) (prev : InputData)
    : InputData :=
  {| classes := classes prev; rooms := rooms prev; labs := labs prev;
     lab_rooms := lab_rooms prev; days := days prev; slots := slots prev;
     teachers := teachers prev; lab_teachers := v;
     teacher_unavailability := teacher_unavailability prev;
     lecture_requirements := lecture_requirements prev;
     lab_capacity := lab_capacity prev; constraints := constraints prev |}.

Definition with_teacher_unavailability
    (v : gmap string (list Unavailability)) (prev : InputData) : InputData :=
  {| classes := classes prev; rooms := rooms prev; labs := labs prev;
     lab_rooms := lab_rooms prev; days := days prev; slots := slots prev;
     teachers := teachers prev; lab_teachers := lab_teachers prev;
     teacher_unavailability := v;
     lecture_requirements := lecture_requirements prev;
     lab_capacity := lab_capacity prev; constraints := constraints prev |}.

Definition with_lecture_requirements (v : gmap string Z) (prev : InputData)
    : InputData :=
  {| classes := classes prev; rooms := rooms prev; labs := labs prev;
     lab_rooms := lab_rooms prev; days := days prev; slots := slots prev;
     teachers := teachers prev; lab_teachers := lab_teachers prev;
     teacher_unavailability := teacher_unavailability prev;
     lecture_requirements := v; lab_capacity := lab_capacity prev;
     constraints := constraints prev |}.

Definition with_lab_capacity (v : Z) (prev : InputData)
    : InputData :=
  {| classes := classes prev; rooms := rooms prev; labs := labs prev;
     lab_rooms := lab_rooms prev; days := days prev; slots := slots prev;
     teachers := teachers prev; lab_teachers := lab_teachers prev;
     teacher_unavailability := teacher_unavailability prev;
     lecture_requirements := lecture_requirements prev; lab_capacity := v;
     constraints := constraints prev |}.

Definition with_constraints (v : Constraints) (prev : InputData)
    : InputData :=
  {| classes := classes prev; rooms := rooms prev; labs := labs prev;
     lab_rooms := lab_rooms prev; days := days prev; slots := slots prev;
     teachers := teachers prev; lab_teachers := lab_teachers prev;
     teacher_unavailability := teacher_unavailability prev;
     lecture_requirements := lecture_requirements prev;
     lab_capacity := lab_capacity prev; constraints := v |}.

(** [setInputData(prev => f(prev))] for an updater that evaluates no
    array literal kept in the derived maps. *)
Definition update (f : InputData → InputData) (st : State) : State :=
  {| inputData := f (inputData st); nextRef := nextRef st |}.

(** *** Class, subject and section handlers

    Every one of them builds a new [classes] array. *)

Definition setSubjectField (isLab : bool) (f : list string → list string)
    (c : ClassItem) : ClassItem :=
  if isLab
  then {| name := name c; subjects := subjects c;
          lab_subjects := f (lab_subjects c); sections := sections c |}
  else {| name := name c; subjects := f (subjects c);
          lab_subjects := lab_subjects c; sections := sections c |}.

Definition setSections (f : list SectionItem → list SectionItem)
    (c : ClassItem) : ClassItem :=
  {| name := name c; subjects := subjects c;
     lab_subjects := lab_subjects c; sections := f (sections c) |}.

Definition addClass : State → State :=
  update (λ prev, with_classes (classes prev ++ [emptyClass]) prev).

Definition removeClass (index : nat) : State → State :=
  update (λ prev, with_classes (delete index (classes prev)) prev).

(** [updateClass(index, 'name', value)], its only use. *)
Definition updateClass (index : nat) (value : string) : State → State :=
  update (λ prev,
    with_classes
      (alter (λ c, {| name := value; subjects := subjects c;
                      lab_subjects := lab_subjects c;
                      sections := sections c |}) index (classes prev))
      prev).

Definition addSubjectToClass (classIndex : nat) (isLab : bool)
    : State → State :=
  update (λ prev,
    with_classes
      (alter (setSubjectField isLab (λ l, l ++ [""])) classIndex
             (classes prev))
      prev).

Definition updateClassSubject (classIndex subjectIndex : nat)
    (value : string) (isLab : bool) : State → State :=
  update (λ prev,
    with_classes
      (alter (setSubjectField isLab (λ l, <[subjectIndex := value]> l))
             classIndex (classes prev))
      prev).

Definition removeSubjectFromClass (classIndex subjectIndex : nat)
    (isLab : bool) : State → State :=
  update (λ prev,
    with_classes
      (alter (setSubjectField isLab (λ l, delete subjectIndex l))
             classIndex (classes prev))
      prev).

Definition newSection : SectionItem :=
  {| section_name := ""; student_count := 0 |}.

Definition addSectionToClass (classIndex : nat) : State → State :=
  update (λ prev,
    with_classes
      (alter (setSections (λ l, l ++ [newSection])) classIndex
             (classes prev))
      prev).

Inductive SectionField : Type :=
| SectionName (value : string)
| StudentCount (parsed : option Z).   (* parseInt(e.target.value) || 0 *)

Definition setSectionField (field : SectionField) (s : SectionItem)
    : SectionItem :=
  match field with
  | SectionName v =>
      {| section_name := v; student_count := student_count s |}
  | StudentCount p =>
      {| section_name := section_name s;
         student_count := Js.parsedOr p 0 |}
  end.

Definition updateSection (classIndex sectionIndex : nat)
    (field : SectionField) : State → State :=
  update (λ prev,
    with_classes
      (alter (setSections (alter (setSectionField field) sectionIndex))
             classIndex (classes prev))
      prev).

Definition removeSectionFromClass (classIndex sectionIndex : nat)
    : State → State :=
  update (λ prev,
    with_classes
      (alter (setSections (λ l, delete sectionIndex l)) classIndex
             (classes prev))
      prev).

(** *** Rooms, days and time slots *)

Definition addRoom (isLab : bool) : State → State :=
  update (λ prev, if isLab then with_labs (labs prev ++ [""]) prev
                  else with_rooms (rooms prev ++ [""]) prev).

Definition updateRoom (index : nat) (value : string) (isLab : bool)
    : State → State :=
  update (λ prev,
    if isLab then with_labs (<[index := value]> (labs prev)) prev
    else with_rooms (<[index := value]> (rooms prev)) prev).

Definition removeRoom (index : nat) (isLab : bool) : State → State :=
  update (λ prev, if isLab then with_labs (delete index (labs prev)) prev
                  else with_rooms (delete index (rooms prev)) prev).

Definition updateDay (index : nat) (value : string) : State → State :=
  update (λ prev, with_days (<[index := value]> (days prev)) prev).

Definition addTimeSlot : State → State :=
  update (λ prev, with_slots (slots prev ++ [""]) prev).

Definition updateTimeSlot (index : nat) (value : string) : State → State :=
  update (λ prev, with_slots (<[index := value]> (slots prev)) prev).

Definition removeTimeSlot (index : nat) : State → State :=
  update (λ prev, with_slots (delete index (slots prev)) prev).

(** *** Lab-room assignment handlers *)

(** Store a newly built array under [subject] in a copy of [o]. *)
Definition storeNew (o : gmap string Js.array) (subject : string)
    (l : list string) (n : nat) : gmap string Js.array :=
  <[subject := Js.Array n l]> o.

Definition toggleLabRoomAssignment (labSubject labRoom : string)
    (st : State) : option State :=
  let prev := inputData st in
  currentRooms ←
    match Js.getProp (lab_rooms prev) labSubject with
    | Js.Own a => Some (Js.items a)
    | Js.Inherited => None            (* currentRooms.includes: TypeError *)
    | Js.Undefined => Some []
    end;
  let newRooms :=
    if decide (labRoom ∈ currentRooms)
    then filter (λ room, room ≠ labRoom) currentRooms
    else currentRooms ++ [labRoom] in
  Some {| inputData :=
            with_lab_rooms
              (storeNew (lab_rooms prev) labSubject newRooms (nextRef st))
              prev;
          nextRef := S (nextRef st) |}.

Definition selectAllLabRooms (labSubject : string) (st : State) : State :=
  let prev := inputData st in
  {| inputData :=
       with_lab_rooms
         (storeNew (lab_rooms prev) labSubject
                   (filter (λ room, Js.trim room ≠ "") (labs prev))
                   (nextRef st))
         prev;
     nextRef := S (nextRef st) |}.

Definition clearAllLabRooms (labSubject : string) (st : State) : State :=
  let prev := inputData st in
  {| inputData :=
       with_lab_rooms (storeNew (lab_rooms prev) labSubject [] (nextRef st))
                      prev;
     nextRef := S (nextRef st) |}.

Definition updateLabCapacity (parsed : option Z) : State → State :=
  update (λ prev, with_lab_capacity (Js.parsedOr parsed 30) prev).

(** *** Teacher handlers *)

Definition roster (isLab : bool) (d : InputData) : gmap string Js.array :=
  if isLab then lab_teachers d else teachers d.

Definition with_roster (isLab : bool) (v : gmap string Js.array)
    (prev : InputData) : InputData :=
  if isLab then with_lab_teachers v prev else with_teachers v prev.

Definition storeRoster (isLab : bool) (subject : string) (l : list string)
    (st : State) : State :=
  let prev := inputData st in
  {| inputData :=
       with_roster isLab
         (storeNew (roster isLab prev) subject l (nextRef st)) prev;
     nextRef := S (nextRef st) |}.

Definition addTeacher (subject : string) (isLab : bool) (st : State)
    : option State :=
  match Js.getProp (roster isLab (inputData st)) subject with
  | Js.Own a => Some (storeRoster isLab subject (Js.items a ++ [""]) st)
  | Js.Inherited => None              (* spread of a non-iterable *)
  | Js.Undefined => Some (storeRoster isLab subject [""] st)
  end.

Definition updateTeacher (subject : string) (teacherIndex : nat)
    (value : string) (isLab : bool) (st : State) : option State :=
  match Js.getProp (roster isLab (inputData st)) subject with
  | Js.Own a =>
      Some (storeRoster isLab subject
                        (<[teacherIndex := value]> (Js.items a)) st)
  | _ => None                         (* .map of a non-array *)
  end.

Definition removeTeacher (subject : string) (teacherIndex : nat)
    (isLab : bool) (st : State) : option State :=
  match Js.getProp (roster isLab (inputData st)) subject with
  | Js.Own a =>
      Some (storeRoster isLab subject (delete teacherIndex (Js.items a)) st)
  | _ => None                         (* .filter of a non-array *)
  end.

(** *** Teacher unavailability handlers *)

Definition newUnavailability : Unavailability := {| day := ""; slot := "" |}.

Definition setUnavailability (teacherName : string)
    (l : list Unavailability) : State → State :=
  update (λ prev,
    with_teacher_unavailability
      (<[teacherName := l]> (teacher_unavailability prev)) prev).

Definition addTeacherUnavailability (teacherName : string) (st : State)
    : option State :=
  match Js.getProp (teacher_unavailability (inputData st)) teacherName with
  | Js.Own l =>
      Some (setUnavailability teacherName (l ++ [newUnavailability]) st)
  | Js.Inherited => None
  | Js.Undefined =>
      Some (setUnavailability teacherName [newUnavailability] st)
  end.

Inductive UnavailabilityField : Type :=
| UnavailableDay (value : string)
| UnavailableSlot (value : string).

Definition setUnavailabilityField (field : UnavailabilityField)
    (u : Unavailability) : Unavailability :=
  match field with
  | UnavailableDay v => {| day := v; slot := slot u |}
  | UnavailableSlot v => {| day := day u; slot := v |}
  end.

Definition updateTeacherUnavailability (teacherName : string) (index : nat)
    (field : UnavailabilityField) (st : State) : option State :=
  match Js.getProp (teacher_unavailability (inputData st)) teacherName with
  | Js.Own l =>
      Some (setUnavailability teacherName
              (alter (setUnavailabilityField field) index l) st)
  | _ => None
  end.

Definition removeTeacherUnavailability (teacherName : string) (index : nat)
    (st : State) : option State :=
  match Js.getProp (teacher_unavailability (inputData st)) teacherName with
  | Js.Own l => Some (setUnavailability teacherName (delete index l) st)
  | _ => None
  end.

Definition removeTeacherFromUnavailability (teacherName : string)
    : State → State :=
  update (λ prev,
    with_teacher_unavailability
      (delete teacherName (teacher_unavailability prev)) prev).

(** *** Constraints and lecture requirements *)

(** The six uses of [updateNestedState('constraints.<key>', value)]. *)
Inductive ConstraintEdit : Type :=
| MaxLecturesPerDayTeacher (parsed : option Z)
| MaxLecturesPerSubjectPerDay (parsed : option Z)
| MinLecturesPerDaySection (parsed : option Z)
| MaxLecturesPerDaySection (parsed : option Z)
| LabSessionDuration (parsed : option Z)
| DistributeAcrossWeek (checked : bool).

Definition setConstraint (e : ConstraintEdit) (c : Constraints)
    : Constraints :=
  let '(a, b, c1, d, l, w) :=
    (max_lectures_per_day_teacher c, max_lectures_per_subject_per_day c,
     min_lectures_per_day_section c, max_lectures_per_day_section c,
     lab_session_duration c, distribute_across_week c) in
  let '(a, b, c1, d, l, w) :=
    match e with
    | MaxLecturesPerDayTeacher p => (Js.parsedOr p 5, b, c1, d, l, w)
    | MaxLecturesPerSubjectPerDay p => (a, Js.parsedOr p 2, c1, d, l, w)
    | MinLecturesPerDaySection p => (a, b, Js.parsedOr p 4, d, l, w)
    | MaxLecturesPerDaySection p => (a, b, c1, Js.parsedOr p 6, l, w)
    | LabSessionDuration p => (a, b, c1, d, Js.parsedOr p 2, w)
    | DistributeAcrossWeek checked => (a, b, c1, d, l, checked)
    end in
  {| max_lectures_per_day_teacher := a;
     max_lectures_per_subject_per_day := b;
     min_lectures_per_day_section := c1;
     max_lectures_per_day_section := d;
     lab_session_duration := l;
     distribute_across_week := w |}.

Definition updateNestedState (e : ConstraintEdit) : State → State :=
  update (λ prev, with_constraints (setConstraint e (constraints prev)) prev).

Definition updateLectureRequirement (subject : string) (parsed : option Z)
    : State → State :=
  update (λ prev,
    with_lecture_requirements
      (<[subject := Js.parsedOr parsed 0]> (lecture_requirements prev)) prev).

(** *** The rows rendered from the derived maps

    [(o[subject] || fallback).map(...)], and for lab rooms
    [(o[subject] || []).includes(room)]: a property inherited from
    [Object.prototype] is truthy and has no [map] / [includes], so the
    render throws ([None]).  The cards of the teacher-unavailability
    section read [teacher_unavailability] in the same way, by the names
    of [getAllTeachers]. *)

Definition rowsOf (fallback : list string) (o : gmap string Js.array)
    (subject : string) : option (list string) :=
  match Js.getProp o subject with
  | Js.Own a => Some (Js.items a)
  | Js.Inherited => None
  | Js.Undefined => Some fallback
  end.

(** The names one roster contributes to [getAllTeachers]: trimmed, the
    blank ones left out. *)
Definition teacherNames (o : gmap string Js.array) : list string :=
  Js.trim <$> filter (λ teacher, Js.trim teacher ≠ "")
                     (mjoin (Js.items <$> (map_to_list o).*2)).

(** [getAllTeachers], as a set: the order of the result, that of
    [Object.values], is not represented. *)
Definition getAllTeachers (d : InputData) : gset string :=
  list_to_set (teacherNames (teachers d) ++ teacherNames (lab_teachers d)).

(** [(inputData.teacher_unavailability[teacher] || []).map(...)] *)
Definition unavailabilityOf (o : gmap string (list Unavailability))
    (teacher : string) : option (list Unavailability) :=
  match Js.getProp o teacher with
  | Js.Own l => Some l
  | Js.Inherited => None
  | Js.Undefined => Some []
  end.

Record View : Type :=
  { teacherRows : list (string * list string);
    labTeacherRows : list (string * list string);
    labRoomRows : list (string * list (string * bool));
    unavailabilityCards : gmap string (list Unavailability) }.

Definition render (d : InputData) : option View :=
  let labRooms := filter (λ lab, Js.trim lab ≠ "") (labs d) in
  assignments ←
    (if bool_decide (getAllLabSubjects d ≠ [] ∧ labRooms ≠ [])
     then mapM (λ labSubject,
                  assigned ← rowsOf [] (lab_rooms d) labSubject;
                  Some (labSubject,
                        (λ labRoom, (labRoom, bool_decide (labRoom ∈ assigned)))
                          <$> labRooms))
               (getAllLabSubjects d)
     else Some []);
  theory ←
    mapM (λ subject, pair subject <$> rowsOf [""] (teachers d) subject)
         (getAllSubjects d);
  lab ←
    mapM (λ subject, pair subject <$> rowsOf [""] (lab_teachers d) subject)
         (getAllLabSubjects d);
  cards ←
    mapM (λ teacher,
            pair teacher
              <$> unavailabilityOf (teacher_unavailability d) teacher)
         (elements (getAllTeachers d));
  Some {| teacherRows := theory; labTeacherRows := lab;
          labRoomRows := assignments;
          unavailabilityCards := list_to_map cards |}.

(** *** Events and the component life cycle *)

(** Edits that replace [inputData.classes]. *)
Inductive ClassEdit : Type :=
| AddClass
| RemoveClass (index : nat)
| UpdateClass (index : nat) (value : string)
| AddSubjectToClass (classIndex : nat) (isLab : bool)
| UpdateClassSubject (classIndex subjectIndex : nat) (value : string)
                     (isLab : bool)
| RemoveSubjectFromClass (classIndex subjectIndex : nat) (isLab : bool)
| AddSectionToClass (classIndex : nat)
| UpdateSection (classIndex sectionIndex : nat) (field : SectionField)
| RemoveSectionFromClass (classIndex sectionIndex : nat).

(** Edits that keep the identity of [inputData.classes]. *)
Inductive OtherEdit : Type :=
| AddRoom (isLab : bool)
| UpdateRoom (index : nat) (value : string) (isLab : bool)
| RemoveRoom (index : nat) (isLab : bool)
| UpdateLabCapacity (parsed : option Z)
| ToggleLabRoomAssignment (labSubject labRoom : string)
| SelectAllLabRooms (labSubject : string)
| ClearAllLabRooms (labSubject : string)
| UpdateDay (index : nat) (value : string)
| AddTimeSlot
| UpdateTimeSlot (index : nat) (value : string)
| RemoveTimeSlot (index : nat)
| AddTeacher (subject : string) (isLab : bool)
| UpdateTeacher (subject : string) (teacherIndex : nat) (value : string)
                (isLab : bool)
| RemoveTeacher (subject : string) (teacherIndex : nat) (isLab : bool)
| AddTeacherUnavailability (teacherName : string)
| UpdateTeacherUnavailability (teacherName : string) (index : nat)
                              (field : UnavailabilityField)
| RemoveTeacherUnavailability (teacherName : string) (index : nat)
| RemoveTeacherFromUnavailability (teacherName : string)
| UpdateNestedState (e : ConstraintEdit)
| UpdateLectureRequirement (subject : string) (parsed : option Z)
| GenerateTimetable.                  (* the placeholder: console.log only *)

Inductive Event : Type :=
| Class (e : ClassEdit)
| Other (e : OtherEdit).

Definition applyClassEdit (e : ClassEdit) : State → State :=
  match e with
  | AddClass => addClass
  | RemoveClass i => removeClass i
  | UpdateClass i v => updateClass i v
  | AddSubjectToClass i isLab => addSubjectToClass i isLab
  | UpdateClassSubject i j v isLab => updateClassSubject i j v isLab
  | RemoveSubjectFromClass i j isLab => removeSubjectFromClass i j isLab
  | AddSectionToClass i => addSectionToClass i
  | UpdateSection i j field => updateSection i j field
  | RemoveSectionFromClass i j => removeSectionFromClass i j
  end.

Definition applyOtherEdit (e : OtherEdit) (st : State) : option State :=
  match e with
  | AddRoom isLab => Some (addRoom isLab st)
  | UpdateRoom i v isLab => Some (updateRoom i v isLab st)
  | RemoveRoom i isLab => Some (removeRoom i isLab st)
  | UpdateLabCapacity p => Some (updateLabCapacity p st)
  | ToggleLabRoomAssignment s r => toggleLabRoomAssignment s r st
  | SelectAllLabRooms s => Some (selectAllLabRooms s st)
  | ClearAllLabRooms s => Some (clearAllLabRooms s st)
  | UpdateDay i v => Some (updateDay i v st)
  | AddTimeSlot => Some (addTimeSlot st)
  | UpdateTimeSlot i v => Some (updateTimeSlot i v st)
  | RemoveTimeSlot i => Some (removeTimeSlot i st)
  | AddTeacher s isLab => addTeacher s isLab st
  | UpdateTeacher s i v isLab => updateTeacher s i v isLab st
  | RemoveTeacher s i isLab => removeTeacher s i isLab st
  | AddTeacherUnavailability t => addTeacherUnavailability t st
  | UpdateTeacherUnavailability t i f => updateTeacherUnavailability t i f st
  | RemoveTeacherUnavailability t i => removeTeacherUnavailability t i st
  | RemoveTeacherFromUnavailability t =>
      Some (removeTeacherFromUnavailability t st)
  | UpdateNestedState e => Some (updateNestedState e st)
  | UpdateLectureRequirement s p => Some (updateLectureRequirement s p st)
  | GenerateTimetable => Some st
  end.

(** A render of the state; [None] when it throws, which unmounts the
    component before any effect of that render can run. *)
Definition rendered (st : State) : option State :=
  _ ← render (inputData st); Some st.

(** Render, then the effect (its dependency [inputData.classes] is new),
    then the render of the state the effect set. *)
Definition settle (st : State) : option State :=
  st ← rendered st; rendered (syncEffect st).

(** The props the parent passes: a callback and a configuration. *)
Record Props (Callback Config : Type) : Type :=
  { onInputChange : Callback; initialData : Config }.
Global Arguments onInputChange {Callback Config} p.
Global Arguments initialData {Callback Config} p.

(** What one step of the component produces: its next state and the
    arguments with which it invoked the parent's [onInputChange]. *)
Record Outcome : Type :=
  { next : option State; notified : list InputData }.

(** [const TimetableInputForm = () => { ... }]: first render and effect,
    and the reaction to an event.  No handler and no effect of the
    component calls a prop. *)
Definition mount {Callback Config} (props : Props Callback Config)
    : Outcome :=
  {| next := settle initialState; notified := [] |}.

Definition step {Callback Config} (props : Props Callback Config)
    (e : Event) (st : State) : Outcome :=
  match e with
  | Class c => {| next := settle (applyClassEdit c st); notified := [] |}
  | Other o => {| next := applyOtherEdit o st ≫= rendered; notified := [] |}
  end.

(** A mounted component fed a sequence of events; the component is gone
    ([next = None]) from the first render that throws. *)
Fixpoint feed {Callback Config} (props : Props Callback Config)
    (es : list Event) (o : Outcome) : Outcome :=
  match es with
  | [] => o
  | e :: es =>
      match next o with
      | None => o
      | Some st =>
          let o' := step props e st in
          feed props es {| next := next o';
                           notified := notified o ++ notified o' |}
      end
  end.

Definition run {Callback Config} (props : Props Callback Config)
    (es : list Event) : Outcome :=
  feed props es (mount props).

(** *** Specification predicates for the derived maps *)

(** The own keys of the three maps are the canonical sets. *)
Definition Synced (d : InputData) : Prop :=
  dom (teachers d) = list_to_set (getAllSubjects d) ∧
  dom (lab_teachers d) = list_to_set (getAllLabSubjects d) ∧
  dom (lab_rooms d) = list_to_set (getAllLabSubjects d).



(** Entries present before and after are the same array object. *)
Definition Kept (old new : gmap string Js.array) : Prop :=
  ∀ k a, old !! k = Some a → is_Some (new !! k) → new !! k = Some a.

(** [new] extends [old] by entries for names of [canon] that read as
    undefined in [old], each a new array with contents [fresh] and an
    identity in [lo, hi). *)
Definition Fills (fresh canon : list string) (lo hi : nat)
    (old new : gmap string Js.array) : Prop :=
  (∀ k a, old !! k = Some a → new !! k = Some a) ∧
  (∀ k a, new !! k = Some a →
          old !! k = Some a ∨
          (Js.getProp old k = Js.Undefined ∧ k ∈ canon ∧
           Js.items a = fresh ∧ lo ≤ Js.ref a < hi)) ∧
  (∀ k, k ∈ canon → Js.getProp old k = Js.Undefined → is_Some (new !! k)).

(** Every array held in the derived maps has an identity already given
    out, so the next array literal is a new object. *)
Definition Allocated (st : State) : Prop :=
  ∀ k a, teachers (inputData st) !! k = Some a ∨
         lab_teachers (inputData st) !! k = Some a ∨
         lab_rooms (inputData st) !! k = Some a →
         Js.ref a < nextRef st.


(** *** Further predicates on the form's state *)

(** The lab capacity and the five numeric constraints are not 0. *)
Definition NonZero (d : InputData) : Prop :=
  lab_capacity d ≠ 0%Z ∧
  max_lectures_per_day_teacher (constraints d) ≠ 0%Z ∧
  max_lectures_per_subject_per_day (constraints d) ≠ 0%Z ∧
  min_lectures_per_day_section (constraints d) ≠ 0%Z ∧
  max_lectures_per_day_section (constraints d) ≠ 0%Z ∧
  lab_session_duration (constraints d) ≠ 0%Z.

(** The rooms stored for a lab subject, none when it has no entry. *)
Definition assignedRooms (d : InputData) (labSubject : string)
    : list string :=
  match lab_rooms d !! labSubject with
  | Some a => Js.items a
  | None => []
  end.

(** The teachers stored for a subject in one of the two rosters. *)
Definition teachersOf (isLab : bool) (d : InputData) (subject : string)
    : option (list string) :=
  Js.items <$> roster isLab d !! subject.

(** The three key sets. *)
Definition keySets (d : InputData) : gset string * gset string * gset string :=
  (dom (teachers d), dom (lab_teachers d), dom (lab_rooms d)).

(** No teacher of the rosters is named like a member of
    [Object.prototype] that [teacher_unavailability] does not own. *)
Definition TeachersClean (d : InputData) : Prop :=
  ∀ teacher, teacher ∈ getAllTeachers d →
             Js.getProp (teacher_unavailability d) teacher ≠ Js.Inherited.

(** Between [d] and [d'] nothing differs but one roster. *)
Definition OnlyRoster (isLab : bool) (d d' : InputData) : Prop :=
  roster (negb isLab) d' = roster (negb isLab) d ∧
  lab_rooms d' = lab_rooms d ∧
  classes d' = classes d ∧ rooms d' = rooms d ∧ labs d' = labs d ∧
  days d' = days d ∧ slots d' = slots d ∧
  teacher_unavailability d' = teacher_unavailability d ∧
  lecture_requirements d' = lecture_requirements d ∧
  lab_capacity d' = lab_capacity d ∧ constraints d' = constraints d.

(** The class edits that cannot change a non-blank subject name. *)
Definition keepsSubjectNames (e : ClassEdit) : bool :=
  match e with
  | AddClass | UpdateClass _ _ | AddSubjectToClass _ _
  | AddSectionToClass _ | UpdateSection _ _ _
  | RemoveSectionFromClass _ _ => true
  | RemoveClass _ | UpdateClassSubject _ _ _ _
  | RemoveSubjectFromClass _ _ _ => false
  end.

End Form.

(** ** Solver payloads *)

Module Schedule.

(** One scheduled lesson as the solver reports it.  [group], [moved]
    and [moved_from] are optional members. *)
Record Entry : Type :=
  { section : string;
    day : string;
    slot : string;
    subject : string;
    teacher : string;
    room : string;
    group : option string;
    moved : option bool;
    moved_from : option string }.

Global Instance entry_eq_dec : EqDecision Entry.
Proof. solve_decision. Defined.

End Schedule.

(** ** services/api.js *)

Module Api.
Section Payloads.

(** The configuration sent to the solver, the random seed
    ([Math.random() * 1000]) and the [statistics] / [unfulfilled]
    members of a response are carried around, never inspected. *)
Context {Config Seed Stats Unfulfilled : Type}.

(** The JSON body of a solver response. *)
Record TimetableData : Type :=
  { timetable : option (list Schedule.Entry);
    statistics : option Stats;
    unfulfilled : option Unfulfilled;
    validation_warnings : option (list string);
    error : option string }.

(** What [await fetch(...)] followed by [await response.json()] yields:
    [fetch] rejects with a message, or a response arrives whose body
    either yields no object (decoding it, or reading a member of what it
    decodes to, raises an error with the given message) or is a [Body]. *)
Inductive Reply (Body : Type) : Type :=
| Rejected (message : string)
| Responded (ok : bool) (status : nat) (statusText : string)
            (json : string + Body).
Global Arguments Rejected {Body} message.
Global Arguments Responded {Body} ok status statusText json.

(** [if (data.error)]: a present, non-empty string is truthy. *)
Definition errorOf (data : TimetableData) : option string :=
  match error data with
  | Some e => if decide (e = "") then None else Some e
  | None => None
  end.

(** Body of [generateTimetable] after the [fetch]: [inl message] is
    [throw new Error(message)] (logged and re-thrown by the [catch]). *)
Definition generateTimetable (reply : Reply TimetableData)
    : string + TimetableData :=
  match reply with
  | Rejected message => inl message
  | Responded false status statusText _ =>
      inl ("HTTP " +:+ pretty status +:+ ": " +:+ statusText)
  | Responded true _ _ (inl message) => inl message
  | Responded true _ _ (inr data) =>
      match errorOf data with
      | Some e => inl e
      | None => inr data
      end
  end.

(** Body of [resetTeacher] after the [fetch]; the same checks. *)
Definition resetTeacher (reply : Reply TimetableData)
    : string + TimetableData :=
  match reply with
  | Rejected message => inl message
  | Responded false status statusText _ =>
      inl ("HTTP " +:+ pretty status +:+ ": " +:+ statusText)
  | Responded true _ _ (inl message) => inl message
  | Responded true _ _ (inr data) =>
      match errorOf data with
      | Some e => inl e
      | None => inr data
      end
  end.

(** [{...inputData, _generation_seed, _variation}] *)
Record GenerateRequest : Type :=
  { g_inputData : Config; _generation_seed : Seed; _variation : nat }.

(** The JSON body posted to [/reset_teacher]. *)
Record ResetRequest : Type :=
  { r_teacher : string; r_day : string; r_slot : string;
    r_inputData : option Config;
    r_timetable : option (list Schedule.Entry) }.

(** Everything outside the client: the solver behind the two end
    points, the random source and the clock, the latter two indexed by
    the iteration that consults them. *)
Record Env : Type :=
  { solve : GenerateRequest → Reply TimetableData;
    repair : ResetRequest → Reply TimetableData;
    random : nat → Seed;
    now : nat → string }.

Record Variant : Type :=
  { id : nat; name : string; data : TimetableData; generated_at : string }.

Record Failure : Type := { variation : nat; message : string }.

Record Batch : Type := { results : list Variant; errors : list Failure }.

(** One iteration of the loop of [generateMultipleTimetables]: the
    request is awaited before the next one is issued. *)
Definition iteration (env : Env) (inputData : Config) (acc : Batch)
    (i : nat) : Batch :=
  let modifiedInputData :=
    {| g_inputData := inputData; _generation_seed := random env i;
       _variation := i + 1 |} in
  match generateTimetable (solve env modifiedInputData) with
  | inr result =>
      {| results := results acc ++
                    [ {| id := i + 1; name := "Version " +:+ pretty (i + 1);
                         data := result; generated_at := now env i |} ];
         errors := errors acc |}
  | inl msg =>
      {| results := results acc;
         errors := errors acc ++ [ {| variation := i + 1; message := msg |} ] |}
  end.

(** [for (let i = 0; i < count; i++) { ... }; return { results, errors }] *)
Definition generateMultipleTimetables (env : Env) (inputData : Config)
    (count : nat) : Batch :=
  foldl (iteration env inputData) {| results := []; errors := [] |}
        (seq 0 count).

(** Body of [validateInput] after the [fetch]: the status check only;
    the body is returned whatever members it has. *)
Definition validateInput {Body : Type} (reply : Reply Body) : string + Body :=
  match reply with
  | Rejected message => inl message
  | Responded false status statusText _ =>
      inl ("HTTP " +:+ pretty status +:+ ": " +:+ statusText)
  | Responded true _ _ (inl message) => inl message
  | Responded true _ _ (inr data) => inr data
  end.

(** *** What a batch should contain

    The request of iteration [i], and what its reply contributes. *)

Definition requestOf (env : Env) (inputData : Config) (i : nat)
    : GenerateRequest :=
  {| g_inputData := inputData; _generation_seed := random env i;
     _variation := i + 1 |}.

Definition variantOf (env : Env) (inputData : Config) (i : nat)
    : option Variant :=
  match generateTimetable (solve env (requestOf env inputData i)) with
  | inr result =>
      Some {| id := i + 1; name := "Version " +:+ pretty (i + 1);
              data := result; generated_at := now env i |}
  | inl _ => None
  end.

Definition failureOf (env : Env) (inputData : Config) (i : nat)
    : option Failure :=
  match generateTimetable (solve env (requestOf env inputData i)) with
  | inr _ => None
  | inl msg => Some {| variation := i + 1; message := msg |}
  end.

End Payloads.

Global Arguments TimetableData : clear implicits.
Global Arguments GenerateRequest : clear implicits.
Global Arguments ResetRequest : clear implicits.
Global Arguments Env : clear implicits.
Global Arguments Variant : clear implicits.
Global Arguments Batch : clear implicits.

End Api.

(** ** MultipleTimetableGenerator *)

Module Generator.
Section Component.

Context {Config Seed Stats Unfulfilled : Type}.

Local Abbreviation TimetableData := (Api.TimetableData Stats Unfulfilled).
Local Abbreviation Variant := (Api.Variant Stats Unfulfilled).
Local Abbreviation Batch := (Api.Batch Stats Unfulfilled).
Local Abbreviation Env := (Api.Env Config Seed Stats Unfulfilled).

(** The five [useState] cells. *)
Record State : Type :=
  { timetables : list Variant;
    currentTimetable : nat;
    loading : bool;
    error : option string;
    generationCount : nat }.

Definition initialState : State :=
  {| timetables := []; currentTimetable := 0; loading := false;
     error := None; generationCount := 3 |}.

(** *** generateMultipleTimetables *)

(** Up to the [await]: the guard on the prop, then the three setters.
    The second component is the batch handed to the API, if any. *)
Definition generateStart (inputData : option Config) (st : State)
    : State * option (Config * nat) :=
  match inputData with
  | None =>
      ({| timetables := timetables st;
          currentTimetable := currentTimetable st;
          loading := loading st;
          error := Some "No input data provided";
          generationCount := generationCount st |}, None)
  | Some config =>
      ({| timetables := [];
          currentTimetable := currentTimetable st;
          loading := true;
          error := None;
          generationCount := generationCount st |},
       Some (config, generationCount st))
  end.

(** After the [await]: the [throw] when no variant came back and its
    [catch], or the two setters; then the [finally]. *)
Definition generateFinish (batch : Batch) (st : State) : State :=
  match Api.results batch with
  | [] =>
      {| timetables := timetables st;
         currentTimetable := currentTimetable st;
         loading := false;
         error := Some "No timetables could be generated";
         generationCount := generationCount st |}
  | results =>
      {| timetables := results;
         currentTimetable := 0;
         loading := false;
         error := error st;
         generationCount := generationCount st |}
  end.

(** A whole call with nothing else happening during the [await]. *)
Definition generateMultipleTimetables (env : Env)
    (inputData : option Config) (st : State) : State :=
  match generateStart inputData st with
  | (st, Some (config, count)) =>
      generateFinish (Api.generateMultipleTimetables env config count) st
  | (st, None) => st
  end.

(** *** handleResetTeacher *)

(** What the handler's closure holds across its [await]: the
    [timetables] and [currentTimetable] of the render it belongs to. *)
Record Closure : Type :=
  { c_timetables : list Variant;
    c_currentTimetable : nat;
    c_currentTimetableData : Variant }.

(** Up to the [await]: the two early returns ([None]), [setLoading(true)]
    and the request. *)
Definition resetStart (inputData : option Config)
    (teacher day slot : string) (st : State)
    : option (State * Closure * Api.ResetRequest Config) :=
  match timetables st with
  | [] => None
  | _ =>
      currentTimetableData ← timetables st !! currentTimetable st;
      Some ({| timetables := timetables st;
               currentTimetable := currentTimetable st;
               loading := true;
               error := error st;
               generationCount := generationCount st |},
            {| c_timetables := timetables st;
               c_currentTimetable := currentTimetable st;
               c_currentTimetableData := currentTimetableData |},
            {| Api.r_teacher := teacher; Api.r_day := day;
               Api.r_slot := slot; Api.r_inputData := inputData;
               Api.r_timetable :=
                 Api.timetable (Api.data currentTimetableData) |})
  end.

(** [{...currentTimetableData, data: {...data, timetable}, name}] *)
Definition modified (currentTimetableData : Variant)
    (resetResult : TimetableData) : Variant :=
  let data := Api.data currentTimetableData in
  {| Api.id := Api.id currentTimetableData;
     Api.name := Api.name currentTimetableData +:+ " (Modified)";
     Api.data :=
       {| Api.timetable := Api.timetable resetResult;
          Api.statistics := Api.statistics data;
          Api.unfulfilled := Api.unfulfilled data;
          Api.validation_warnings := Api.validation_warnings data;
          Api.error := Api.error data |};
     Api.generated_at := Api.generated_at currentTimetableData |}.

(** After the [await]: the update of the copied list, or the [catch];
    then the [finally]. *)
Definition resetFinish (c : Closure) (outcome : string + TimetableData)
    (st : State) : State :=
  match outcome with
  | inr resetResult =>
      {| timetables :=
           <[c_currentTimetable c :=
               modified (c_currentTimetableData c) resetResult]>
             (c_timetables c);
         currentTimetable := currentTimetable st;
         loading := false;
         error := error st;
         generationCount := generationCount st |}
  | inl message =>
      {| timetables := timetables st;
         currentTimetable := currentTimetable st;
         loading := false;
         error := Some ("Failed to reset teacher: " +:+ message);
         generationCount := generationCount st |}
  end.

(** A whole call with nothing else happening during the [await]. *)
Definition handleResetTeacher (env : Env) (inputData : option Config)
    (teacher day slot : string) (st : State) : State :=
  match resetStart inputData teacher day slot st with
  | Some (st, c, request) =>
      resetFinish c (Api.resetTeacher (Api.repair env request)) st
  | None => st
  end.

(** *** The component as an event loop

    Handlers run to their [await]; what follows the [await] runs when
    the request settles, in any order relative to other events. *)

Inductive Pending : Type :=
| PendingGenerate (config : Config) (count : nat)
| PendingReset (c : Closure) (request : Api.ResetRequest Config).

Record System : Type := { ui : State; inFlight : list Pending }.

Definition start : System := {| ui := initialState; inFlight := [] |}.

Inductive Event : Type :=
| ClickGenerate                          (* the generate button *)
| ClickTeacher (teacher day slot : string) (* a teacher in the display *)
| SelectTab (index : nat)
| SelectCount (count : nat)
| Settles (k : nat).                     (* the k-th pending call returns *)

(** Whether the display of the current variant can offer a span for this
    teacher in this cell: the variant has entries and one of them is the
    teacher's at that day and slot. *)
Definition offersTeacher (st : State) (teacher day slot : string) : bool :=
  match timetables st !! currentTimetable st with
  | Some v =>
      match Api.timetable (Api.data v) with
      | Some entries =>
          bool_decide
            (Exists (λ e, Schedule.teacher e = teacher ∧
                          Schedule.day e = day ∧ Schedule.slot e = slot)
                    entries)
      | None => false
      end
  | None => false
  end.

(** One event; [None] when the control is disabled or not rendered. *)
Definition step (env : Env) (inputData : option Config) (e : Event)
    (s : System) : option System :=
  let st := ui s in
  match e with
  | ClickGenerate =>
      (* disabled={loading || !inputData} *)
      if loading st then None
      else match generateStart inputData st with
           | (st, Some (config, count)) =>
               Some {| ui := st;
                       inFlight := inFlight s ++
                                   [PendingGenerate config count] |}
           | (_, None) => None
           end
  | ClickTeacher teacher day slot =>
      if offersTeacher st teacher day slot
      then '(st, c, request) ← resetStart inputData teacher day slot st;
           Some {| ui := st;
                   inFlight := inFlight s ++ [PendingReset c request] |}
      else None
  | SelectTab index =>
      if bool_decide (index < length (timetables st))
      then Some {| ui := {| timetables := timetables st;
                            currentTimetable := index;
                            loading := loading st;
                            error := error st;
                            generationCount := generationCount st |};
                   inFlight := inFlight s |}
      else None
  | SelectCount count =>
      (* the select is disabled while loading; it offers 2 to 5 *)
      if loading st || negb (bool_decide (count ∈ [2; 3; 4; 5])) then None
      else Some {| ui := {| timetables := timetables st;
                            currentTimetable := currentTimetable st;
                            loading := loading st;
                            error := error st;
                            generationCount := count |};
                   inFlight := inFlight s |}
  | Settles k =>
      p ← inFlight s !! k;
      Some {| ui :=
                match p with
                | PendingGenerate config count =>
                    generateFinish
                      (Api.generateMultipleTimetables env config count) st
                | PendingReset c request =>
                    resetFinish c (Api.resetTeacher (Api.repair env request))
                                st
                end;
              inFlight := delete k (inFlight s) |}
  end.

Fixpoint run (env : Env) (inputData : option Config) (es : list Event)
    (s : System) : option System :=
  match es with
  | [] => Some s
  | e :: es => s ← step env inputData e s; run env inputData es s
  end.

Definition isGenerate (p : Pending) : bool :=
  match p with PendingGenerate _ _ => true | PendingReset _ _ => false end.

(** The generation batches awaiting their result. *)
Definition batchesInFlight (s : System) : nat :=
  length (filter (λ p, isGenerate p = true) (inFlight s)).

(** The [download] attribute [exportTimetable] gives its link:
    [`timetable_${timetableData.name.replace(/\s+/g, '_')}.${format}`]. *)
Definition downloadName (timetableData : Variant) (format : string)
    : string :=
  "timetable_" +:+ Js.replaceWhiteSpace "_" (Api.name timetableData)
    +:+ "." +:+ format.

(** [exportTimetable(timetables[currentTimetable])] up to the file name
    of the download; reading [name] of [undefined] throws ([None]). *)
Definition exportTimetable (timetableData : option Variant)
    (format : string) : option string :=
  v ← timetableData; Some (downloadName v format).

(** The Export button, rendered when [timetables.length > 0]; [None]
    when it is not rendered, [Some None] when its handler throws. *)
Definition clickExport (st : State) : option (option string) :=
  match timetables st with
  | [] => None
  | _ => Some (exportTimetable (timetables st !! currentTimetable st) "json")
  end.

(** The selected index points into the list whenever there is one. *)
Definition Selected (st : State) : Prop :=
  timetables st = [] ∨ currentTimetable st < length (timetables st).


(** The entries handed to [TimetableDisplay]:
    [timetables[currentTimetable]?.data] and its [timetable]. *)
Definition shownEntries (st : State) : list Schedule.Entry :=
  match timetables st !! currentTimetable st with
  | Some v => default [] (Api.timetable (Api.data v))
  | None => []
  end.

(** The annotation the specification describes: an entry of the teacher
    whose slot differs from the one the same lesson had before carries
    [moved = true] and the previous slot in [moved_from]. *)
Definition MovedAnnotated (teacher : string)
    (prior new : list Schedule.Entry) : Prop :=
  ∀ p e, p ∈ prior → e ∈ new →
         Schedule.teacher p = teacher → Schedule.teacher e = teacher →
         Schedule.section p = Schedule.section e →
         Schedule.day p = Schedule.day e →
         Schedule.subject p = Schedule.subject e →
         Schedule.slot p ≠ Schedule.slot e →
         Schedule.moved e = Some true ∧
         Schedule.moved_from e = Some (Schedule.slot p).

(** Nothing is pending, or one batch is and the loading flag is set. *)
Definition Guarded (s : System) : Prop :=
  inFlight s = [] ∨
  (loading (ui s) = true ∧
   ∃ config count, inFlight s = [PendingGenerate config count]).

(** No event of the list is a click on a teacher. *)
Definition NoRepair (es : list Event) : Prop :=
  Forall (λ e, match e with ClickTeacher _ _ _ => False | _ => True end) es.

End Component.

Global Arguments State : clear implicits.
Global Arguments System : clear implicits.
Global Arguments Closure : clear implicits.
Global Arguments Pending : clear implicits.

End Generator.

(** ** TimetableDisplay *)

Module Display.

(** The members of the configuration the display reads.  [classes],
    [sections] and [lab_subjects] may be missing; a missing section name
    is falsy like the empty one. *)
Record SectionInfo : Type := { section_name : string }.

Record ClassInfo : Type :=
  { name : string;
    sections : option (list SectionInfo);
    lab_subjects : option (list string) }.

Record InputData : Type := { classes : option (list ClassInfo) }.

(** [classInfo.sections?.map(section => section.name
      ? `${classInfo.name} - ${section.name}` : classInfo.name) || []] *)
Definition fullSectionNames (classInfo : ClassInfo) : list string :=
  match sections classInfo with
  | Some l =>
      (λ section, if decide (section_name section = "") then name classInfo
                  else name classInfo +:+ " - " +:+ section_name section)
        <$> l
  | None => []
  end.

(** The loop of [getSectionLabSubjects] over [inputData.classes || []]. *)
Fixpoint labSubjectsIn (cs : list ClassInfo) (sectionName : string)
    : list string :=
  match cs with
  | [] => []
  | classInfo :: cs =>
      if decide (sectionName ∈ fullSectionNames classInfo)
      then default [] (lab_subjects classInfo)
      else labSubjectsIn cs sectionName
  end.

Definition getSectionLabSubjects (inputData : InputData)
    (sectionName : string) : list string :=
  labSubjectsIn (default [] (classes inputData)) sectionName.

(** What [renderCell] returns. *)
Inductive Cell : Type :=
| Lunch
| Empty
| Entries (labs nonLabs workshops : list Schedule.Entry) (isMovedSlot : bool).

(** [renderCell(section, day, slot)], given the entries [slotItems] that
    [groupedData[section]?.[day]?.[slot] || []] holds for the cell. *)
Definition renderCell (inputData : InputData)
    (slotItems : list Schedule.Entry) (section day slot : string) : Cell :=
  if decide (slot = "Lunch Break") then Lunch
  else match slotItems with
       | [] => Empty
       | _ =>
           let sectionLabSubjects := getSectionLabSubjects inputData section in
           let labs :=
             filter (λ item, Schedule.subject item ∈ sectionLabSubjects)
                    slotItems in
           let nonLabs :=
             filter (λ item, (Schedule.subject item ∉ sectionLabSubjects) ∧
                             (Schedule.subject item ≠ "Workshop"))
                    slotItems in
           let workshops :=
             filter (λ item, Schedule.subject item = "Workshop") slotItems in
           let isMovedSlot :=
             bool_decide (Exists (λ item, Schedule.moved item = Some true)
                                 slotItems) in
           Entries labs nonLabs workshops isMovedSlot
       end.

(** The classification the specification describes: the workshop test
    first, then the lab-subject list, theory otherwise. *)
Inductive Category : Type := Workshop | Lab | Theory.

Global Instance category_eq_dec : EqDecision Category.
Proof. solve_decision. Defined.

Definition classify (labSubjects : list string) (item : Schedule.Entry)
    : Category :=
  if decide (Schedule.subject item = "Workshop") then Workshop
  else if decide (Schedule.subject item ∈ labSubjects) then Lab
  else Theory.

(** A cell shows the three categories of that classification. *)
Definition Partitioned (labSubjects : list string)
    (slotItems : list Schedule.Entry) (cell : Cell) : Prop :=
  match cell with
  | Entries labs nonLabs workshops _ =>
      labs = filter (λ item, classify labSubjects item = Lab) slotItems ∧
      nonLabs = filter (λ item, classify labSubjects item = Theory) slotItems ∧
      workshops
      = filter (λ item, classify labSubjects item = Workshop) slotItems
  | _ => True
  end.

(** *** The component around [renderCell] *)

(** The component indexes plain objects by section, day and slot names
    taken from the data.  What the model says of such a computation: *)
Inductive Outcome (A : Type) : Type :=
| Known (a : A)     (* it returns [a] *)
| Throws            (* it throws a TypeError *)
| Beyond.           (* it goes on through a member of [Object.prototype],
                       reading or writing an object that all plain
                       objects share and that outlives the render; what
                       the component then shows is not described here *)
Global Arguments Known {A} a.
Global Arguments Throws {A}.
Global Arguments Beyond {A}.

Global Instance outcome_ret : MRet Outcome := λ A a, Known a.

Global Instance outcome_bind : MBind Outcome := λ A B f o,
  match o with
  | Known a => f a
  | Throws => Throws
  | Beyond => Beyond
  end.

(** [groupedData]: section, then day, then slot, then the entries in
    the order of the timetable. *)
Definition Grouped : Type :=
  gmap string (gmap string (gmap string (list Schedule.Entry))).

(** [if (!o[k]) o[k] = {}] followed by the read of [o[k]]: an own member
    is kept, a missing one is created empty, and an inherited one, being
    truthy, is what the following statements work on. *)
Definition ensured {V} (empty : V) (o : gmap string V) (k : string)
    : Outcome V :=
  match Js.getProp o k with
  | Js.Own v => Known v
  | Js.Undefined => Known empty
  | Js.Inherited => Beyond
  end.

(** The callback of the [reduce], on an accumulator built by it while
    [Object.prototype] is as the engine provides it.  An inherited
    member in the place of the slot's array has no [push]. *)
Definition group (acc : Grouped) (item : Schedule.Entry) : Outcome Grouped :=
  bySection ← ensured ∅ acc (Schedule.section item);
  bySlot ← ensured ∅ bySection (Schedule.day item);
  items ← match Js.getProp bySlot (Schedule.slot item) with
          | Js.Own items => Known items
          | Js.Undefined => Known []
          | Js.Inherited => Throws
          end;
  Known (<[Schedule.section item :=
             <[Schedule.day item :=
                 <[Schedule.slot item := items ++ [item]]> bySlot]>
               bySection]> acc).

(** [timetableData.timetable.reduce(..., {})] *)
Definition groupedData (timetable : list Schedule.Entry) : Outcome Grouped :=
  foldl (λ acc item, acc ≫= λ acc, group acc item) (Known ∅) timetable.

(** Order of the default [sort()]: by code units, a prefix first. *)
Definition stringLe (a b : string) : Prop := String.leb a b = true.

Global Instance stringLe_dec : RelDecision stringLe.
Proof. intros a b. unfold stringLe. apply _. Defined.

(** [const sections = Object.keys(groupedData).sort()] *)
Definition sectionKeys (groupedData : Grouped) : list string :=
  merge_sort stringLe (Js.keys groupedData).

(** [selectedSection === 'all' ? sections : [selectedSection]] *)
Definition sectionsToDisplay (groupedData : Grouped)
    (selectedSection : string) : list string :=
  if decide (selectedSection = "all") then sectionKeys groupedData
  else [selectedSection].

(** [groupedData[section]?.[day]?.[slot] || []]: a missing member ends
    the chain with the empty list, an inherited one continues it on an
    object of the engine. *)
Definition slotItemsOf (groupedData : Grouped) (section day slot : string)
    : Outcome (list Schedule.Entry) :=
  match Js.getProp groupedData section with
  | Js.Undefined => Known []
  | Js.Inherited => Beyond
  | Js.Own byDay =>
      match Js.getProp byDay day with
      | Js.Undefined => Known []
      | Js.Inherited => Beyond
      | Js.Own bySlot =>
          match Js.getProp bySlot slot with
          | Js.Undefined => Known []
          | Js.Inherited => Beyond
          | Js.Own items => Known items
          end
      end
  end.

(** [renderCell(section, day, slot)] in the component. *)
Definition cellAt (inputData : InputData) (groupedData : Grouped)
    (section day slot : string) : Outcome Cell :=
  slotItems ← slotItemsOf groupedData section day slot;
  Known (renderCell inputData slotItems section day slot).

(** The tables of the component for a timetable that is present: one per
    displayed section, a row per day of [inputData.days || []], a cell
    per slot of [inputData.slots || []], each with its key. *)
Definition View : Type := list (string * list (string * list (string * Cell))).

Definition render (inputData : InputData) (days slots : list string)
    (selectedSection : string) (timetable : list Schedule.Entry)
    : Outcome View :=
  groupedData ← groupedData timetable;
  mapM (λ section,
          rows ← mapM (λ day,
                         cells ← mapM (λ slot,
                                         cell ← cellAt inputData groupedData
                                                  section day slot;
                                         Known (slot, cell))
                                      slots;
                         Known (day, cells))
                      days;
          Known (section, rows))
       (sectionsToDisplay groupedData selectedSection).

(** A name that is no member of [Object.prototype]. *)
Definition Plain (k : string) : Prop := k ∉ Js.objectPrototype.

(** The entries of the timetable that belong to a cell. *)
Definition InCell (section day slot : string) (item : Schedule.Entry)
    : Prop :=
  Schedule.section item = section ∧ Schedule.day item = day ∧
  Schedule.slot item = slot.

Global Instance InCell_dec section day slot item :
  Decision (InCell section day slot item).
Proof. unfold InCell. apply _. Defined.

(** Every name of the entry is plain. *)
Definition PlainEntry (item : Schedule.Entry) : Prop :=
  Plain (Schedule.section item) ∧ Plain (Schedule.day item) ∧
  Plain (Schedule.slot item).

Global Instance Plain_dec k : Decision (Plain k).
Proof. unfold Plain. apply _. Defined.

Global Instance PlainEntry_dec item : Decision (PlainEntry item).
Proof. unfold PlainEntry. apply _. Defined.

(** The slots under which a grouping holds entries have plain names. *)
Definition PlainKeys (g : Grouped) : Prop :=
  ∀ section byDay day bySlot slot items,
    g !! section = Some byDay → byDay !! day = Some bySlot →
    bySlot !! slot = Some items → Plain slot.

End Display.

(** ** TimetableApp *)

Module App.

(** A parsed JSON document.  Numbers are integers, the only numbers a
    configuration holds; nothing here computes with them. *)
#[warnings="-register-all"]
Inductive Json : Type :=
| JNull
| JBool (b : bool)
| JNumber (n : Z)
| JString (s : string)
| JArray (l : list Json)
| JObject (o : gmap string Json).

Definition member (k : string) (j : Json) : option Json :=
  match j with
  | JObject o => o !! k
  | _ => None
  end.

Definition strings (l : list string) : Json := JArray (JString <$> l).

Definition object (fields : list (string * Json)) : Json :=
  JObject (list_to_map fields).

(** The form's [inputData] as the parent would receive it. *)
Definition toJson (d : Form.InputData) : Json :=
  object
    [ ("classes",
       JArray ((λ c, object
                  [ ("name", JString (Form.name c));
                    ("subjects", strings (Form.subjects c));
                    ("lab_subjects", strings (Form.lab_subjects c));
                    ("sections",
                     JArray ((λ s, object
                                [ ("name", JString (Form.section_name s));
                                  ("student_count",
                                   JNumber (Form.student_count s)) ])
                             <$> Form.sections c)) ])
               <$> Form.classes d));
      ("rooms", strings (Form.rooms d));
      ("labs", strings (Form.labs d));
      ("lab_rooms", JObject ((λ a, strings (Js.items a)) <$> Form.lab_rooms d));
      ("days", strings (Form.days d));
      ("slots", strings (Form.slots d));
      ("teachers", JObject ((λ a, strings (Js.items a)) <$> Form.teachers d));
      ("lab_teachers",
       JObject ((λ a, strings (Js.items a)) <$> Form.lab_teachers d));
      ("teacher_unavailability",
       JObject ((λ l, JArray ((λ u, object [ ("day", JString (Form.day u));
                                             ("slot", JString (Form.slot u)) ])
                              <$> l))
                <$> Form.teacher_unavailability d));
      ("lecture_requirements",
       JObject (JNumber <$> Form.lecture_requirements d));
      ("lab_capacity", JNumber (Form.lab_capacity d));
      ("constraints",
       let c := Form.constraints d in
       object
         [ ("max_lectures_per_day_teacher",
            JNumber (Form.max_lectures_per_day_teacher c));
           ("max_lectures_per_subject_per_day",
            JNumber (Form.max_lectures_per_subject_per_day c));
           ("min_lectures_per_day_section",
            JNumber (Form.min_lectures_per_day_section c));
           ("max_lectures_per_day_section",
            JNumber (Form.max_lectures_per_day_section c));
           ("lab_session_duration", JNumber (Form.lab_session_duration c));
           ("distribute_across_week",
            JBool (Form.distribute_across_week c)) ]) ].

(** The initial default configuration values, as a document. *)
Definition defaults : Json := toJson Form.initialInputData.

(** [if (inputData)] / [!inputData] on a parsed document. *)
Definition truthy (j : Json) : bool :=
  match j with
  | JNull | JBool false | JNumber 0 | JString "" => false
  | _ => true
  end.

Inductive Step : Type := Input | Generate.

Record State : Type :=
  { inputData : Json;                (* null until something is loaded *)
    currentStep : Step;
    isValidInput : bool;
    form : option Form.State }.      (* the mounted form's own state *)

Section Shell.

(** The value [handleInputDataChange] computes for [setIsValidInput] from
    a document ([hasClasses && hasValidClasses && hasDaysAndSlots], as a
    boolean), or [None] when computing it throws a TypeError (for
    instance [classes.every] on a [classes] member that is not an array).
    The computation applies JavaScript's coercions to arbitrary
    documents; the results below hold whatever it yields. *)
Variable validity : Json → option bool.

(** [setInputData(newInputData)], then the validation.  The boolean tells
    whether the function returned ([false]: it threw after the first
    setter). *)
Definition handleInputDataChange (newInputData : Json) (st : State)
    : State * bool :=
  let st := {| inputData := newInputData; currentStep := currentStep st;
               isValidInput := isValidInput st; form := form st |} in
  match validity newInputData with
  | Some valid =>
      ({| inputData := inputData st; currentStep := currentStep st;
          isValidInput := valid; form := form st |}, true)
  | None => (st, false)
  end.

(** The props given to [TimetableInputForm]. *)
Definition formProps (st : State)
    : Form.Props (Json → State → State * bool) Json :=
  {| Form.onInputChange := handleInputDataChange;
     Form.initialData := inputData st |}.

(** The parent runs its callback on whatever the form passed to it. *)
Definition deliver (notified : list Form.InputData) (st : State) : State :=
  foldl (λ st d, (Form.onInputChange (formProps st) (toJson d) st).1)
        st notified.

(** Render with [currentStep = 'input']: the form is mounted if it is not
    yet; [None] when its render throws. *)
Definition showInput (st : State) : option State :=
  let st := {| inputData := inputData st; currentStep := Input;
               isValidInput := isValidInput st; form := form st |} in
  match form st with
  | Some _ => Some st
  | None =>
      let o := Form.mount (formProps st) in
      fs ← Form.next o;
      Some (deliver (Form.notified o)
                    {| inputData := inputData st; currentStep := Input;
                       isValidInput := isValidInput st; form := Some fs |})
  end.

(** First render of the application. *)
Definition start : option State :=
  showInput {| inputData := JNull; currentStep := Input;
               isValidInput := false; form := None |}.

(** The mount effect, given what [localStorage] held: nothing, a text
    that does not parse ([Some None]; logged), or a document. *)
Definition loadSaved (saved : option (option Json)) (st : State) : State :=
  match saved with
  | Some (Some parsedData) =>
      (handleInputDataChange parsedData
         {| inputData := parsedData; currentStep := currentStep st;
            isValidInput := isValidInput st; form := form st |}).1
  | _ => st
  end.

(** The [onload] handler of the import control, given the outcome of
    [JSON.parse] ([None]: it threw; the [catch] alerts). *)
Definition importConfig (parsed : option Json) (st : State) : option State :=
  match parsed with
  | Some importedData =>
      let '(st, returned) :=
        handleInputDataChange importedData
          {| inputData := importedData; currentStep := currentStep st;
             isValidInput := isValidInput st; form := form st |} in
      if returned then showInput st else Some st
  | None => Some st
  end.

Definition goToGeneration (st : State) : State :=
  if isValidInput st
  then {| inputData := inputData st; currentStep := Generate;
          isValidInput := isValidInput st; form := None |}
  else st.

Definition goToInput (st : State) : option State := showInput st.

Definition clearAll (st : State) : option State :=
  showInput {| inputData := JNull; currentStep := currentStep st;
               isValidInput := false; form := form st |}.

(** An event of the mounted form. *)
Definition formEvent (e : Form.Event) (st : State) : option State :=
  match currentStep st, form st with
  | Input, Some fs =>
      let o := Form.step (formProps st) e fs in
      fs' ← Form.next o;
      Some (deliver (Form.notified o)
                    {| inputData := inputData st; currentStep := currentStep st;
                       isValidInput := isValidInput st; form := Some fs' |})
  | _, _ => None
  end.

Fixpoint formEvents (es : list Form.Event) (st : State) : option State :=
  match es with
  | [] => Some st
  | e :: es => st ← formEvent e st; formEvents es st
  end.

(** The [inputData] prop handed to [MultipleTimetableGenerator]. *)
Definition generatorInput (st : State) : option Json :=
  if truthy (inputData st) then Some (inputData st) else None.

End Shell.

(** The import as the specification describes it: members of the
    defaults that the document lacks are filled in from the defaults. *)
Definition FallsBackToDefaults (document result : Json) : Prop :=
  ∀ k v, member k defaults = Some v → member k document = None →
         member k result = Some v.

(** *** The validation inside [handleInputDataChange] *)

Section Validation.

(** [v > 0] for a string or an array [v], which JavaScript first
    converts to a number; [None] when the conversion throws (an array
    is joined, and joining an element that is an object with an own
    [toString] member throws).  Only the [length] member of an object
    can be such a value.  The results hold whatever the conversion
    yields. *)
Variable positive : Json → option bool.

(** [v > 0]; the argument [None] is [undefined], the result [None] a
    TypeError: an object is converted by its [valueOf] and [toString],
    of which a parsed document can only own members that are not
    callable, and without a callable [toString] there is no primitive
    value. *)
Definition greaterThanZero (v : option Json) : option bool :=
  match v with
  | None => Some false
  | Some JNull => Some false
  | Some (JBool b) => Some b
  | Some (JNumber n) => Some (bool_decide (0 < n)%Z)
  | Some (JObject o) =>
      match o !! "toString" with
      | Some _ => None
      | None => Some false
      end
  | Some v => positive v
  end.

(** [v?.length]; [None] is [undefined]. *)
Definition lengthOf (v : option Json) : option Json :=
  match v with
  | None | Some JNull | Some (JBool _) | Some (JNumber _) => None
  | Some (JString s) => Some (JNumber (Z.of_nat (String.length s)))
  | Some (JArray l) => Some (JNumber (Z.of_nat (length l)))
  | Some (JObject o) => o !! "length"
  end.

(** The callback of [every] on one element, with the short circuits of
    [&&] and [||]; [None] when it throws (reading [name] of [null], or
    a comparison that throws). *)
Definition validClass (cls : Json) : option bool :=
  match cls with
  | JNull => None
  | _ =>
      if match member "name" cls with
         | Some name => truthy name
         | None => false
         end
      then
        sections ← greaterThanZero (lengthOf (member "sections" cls));
        if sections : bool
        then
          subjects ← greaterThanZero (lengthOf (member "subjects" cls));
          if subjects : bool then Some true
          else greaterThanZero (lengthOf (member "lab_subjects" cls))
        else Some false
      else Some false
  end.

(** [Array.prototype.every] with that callback: in order, up to the
    first element that fails. *)
Fixpoint every (classes : list Json) : option bool :=
  match classes with
  | [] => Some true
  | cls :: classes =>
      match validClass cls with
      | None => None
      | Some false => Some false
      | Some true => every classes
      end
  end.

(** The value given to [setIsValidInput], or [None] when computing it
    throws: [classes?.every] is called on anything that is not
    [undefined] or [null], and only arrays have it. *)
Definition validate (newInputData : Json) : option bool :=
  hasClasses ← greaterThanZero (lengthOf (member "classes" newInputData));
  hasValidClasses ←
    match member "classes" newInputData with
    | None | Some JNull => Some false
    | Some (JArray classes) => every classes
    | Some _ => None
    end;
  hasDaysAndSlots ←
    (days ← greaterThanZero (lengthOf (member "days" newInputData));
     if days : bool
     then greaterThanZero (lengthOf (member "slots" newInputData))
     else Some false);
  Some (hasClasses && hasValidClasses && hasDaysAndSlots).

End Validation.

(** A [classes] member on which the validation throws: neither absent
    nor [null] nor an array, or an array that starts with [null]. *)
Definition Throwing (classes : Json) : Prop :=
  match classes with
  | JNull => False
  | JArray (JNull :: _) => True
  | JArray _ => False
  | _ => True
  end.

(** What the validation asks of a configuration of the form. *)
Definition Complete (d : Form.InputData) : Prop :=
  Form.classes d ≠ [] ∧
  Forall (λ c, Form.name c ≠ "" ∧ Form.sections c ≠ [] ∧
               (Form.subjects c ≠ [] ∨ Form.lab_subjects c ≠ []))
         (Form.classes d) ∧
  Form.days d ≠ [] ∧ Form.slots d ≠ [].

Global Instance Complete_dec d : Decision (Complete d).
Proof. unfold Complete. apply _. Defined.

(** *** The application as an event loop *)

Section Session.

Variable validity : Json → option bool.

(** The application and the entry of [localStorage] it uses: absent, a
    text that does not parse, or a document. *)
Record Session : Type :=
  { app : State; stored : option (option Json) }.

(** [Object.is] on two parsed values, of which the second is fresh from
    [JSON.parse]: arrays and objects are never the same. *)
Definition sameValue (a b : Json) : bool :=
  match a, b with
  | JNull, JNull => true
  | JBool x, JBool y => bool_decide (x = y)
  | JNumber x, JNumber y => bool_decide (x = y)
  | JString x, JString y => bool_decide (x = y)
  | _, _ => false
  end.

(** The autosave effect after a render: it runs when [inputData] is
    another value than at the previous render, and stores what is
    truthy. *)
Definition autosave (previous current : Json)
    (stored : option (option Json)) : option (option Json) :=
  if sameValue previous current then stored
  else if truthy current then Some (Some current) else stored.

(** First render and the two mount effects, given what the store holds. *)
Definition open (saved : option (option Json)) : option Session :=
  st ← start validity;
  let st' := loadSaved validity saved st in
  Some {| app := st';
          stored := autosave (inputData st) (inputData st') saved |}.

Inductive Event : Type :=
| Import (parsed : option Json)   (* a file was chosen and read *)
| Proceed                         (* "Proceed to Generation" *)
| Back                            (* "Back to Configuration" *)
| ClearAll
| InForm (e : Form.Event).

(** One event; [None] when the control is disabled or not rendered, or
    the form's render throws. *)
Definition step (e : Event) (s : Session) : option Session :=
  let st := app s in
  match e with
  | Import None => Some s          (* the [catch]: an alert *)
  | Import (Some importedData) =>
      st' ← importConfig validity (Some importedData) st;
      Some {| app := st';
              stored := autosave (inputData st) importedData (stored s) |}
  | Proceed =>
      match currentStep st with
      | Input =>
          if isValidInput st
          then Some {| app := goToGeneration st; stored := stored s |}
          else None
      | Generate => None
      end
  | Back =>
      match currentStep st with
      | Generate =>
          st' ← goToInput validity st;
          Some {| app := st'; stored := stored s |}
      | Input => None
      end
  | ClearAll =>
      st' ← clearAll validity st;
      Some {| app := st'; stored := None |}
  | InForm e =>
      st' ← formEvent validity e st;
      Some {| app := st'; stored := stored s |}
  end.

Fixpoint run (es : list Event) (s : Session) : option Session :=
  match es with
  | [] => Some s
  | e :: es => s ← step e s; run es s
  end.

(** The generation screen is shown only with the flag set and the form
    unmounted; the configuration screen has the form mounted. *)
Definition Screens (st : State) : Prop :=
  match currentStep st with
  | Generate => isValidInput st = true ∧ form st = None
  | Input => is_Some (form st)
  end.


End Session.

End App.

(** ** Sample data *)

Module Sample.

(** A solver whose payloads beyond the entries are trivial. *)
Definition entryAt (slot : string) : Schedule.Entry :=
  {| Schedule.section := "CS-A"; Schedule.day := "Monday";
     Schedule.slot := slot; Schedule.subject := "Maths";
     Schedule.teacher := "Dr.X"; Schedule.room := "R1";
     Schedule.group := None; Schedule.moved := None;
     Schedule.moved_from := None |}.

Definition dataWith (entries : list Schedule.Entry)
    : Api.TimetableData unit unit :=
  {| Api.timetable := Some entries; Api.statistics := None;
     Api.unfulfilled := None; Api.validation_warnings := None;
     Api.error := None |}.

(** Every generation succeeds with Dr.X at 9:00; every repair moves
    Dr.X to 9:55 and says nothing about the move. *)
Definition solver : Api.Env unit unit unit unit :=
  {| Api.solve := λ _, Api.Responded true 200 "OK"
                         (inr (dataWith [entryAt "9:00-9:55"]));
     Api.repair := λ _, Api.Responded true 200 "OK"
                          (inr (dataWith [entryAt "9:55-10:50"]));
     Api.random := λ _, tt;
     Api.now := λ _, "2025-01-01T00:00:00.000Z" |}.

(** As [solver], but the second request of a batch gets a 500. *)
Definition flaky : Api.Env unit unit unit unit :=
  {| Api.solve := λ request,
       if decide (Api._variation request = 2)
       then Api.Responded false 500 "INTERNAL SERVER ERROR" (inl "")
       else Api.Responded true 200 "OK" (inr (dataWith [entryAt "9:00-9:55"]));
     Api.repair := Api.repair solver;
     Api.random := λ _, tt;
     Api.now := λ _, "2025-01-01T00:00:00.000Z" |}.

Definition version1 : Api.Variant unit unit :=
  {| Api.id := 1; Api.name := "Version 1";
     Api.data := dataWith [entryAt "9:00-9:55"];
     Api.generated_at := "2025-01-01T00:00:00.000Z" |}.

(** As [solver], but every repair is answered with an [error] member. *)
Definition refusing : Api.Env unit unit unit unit :=
  {| Api.solve := Api.solve solver;
     Api.repair := λ _, Api.Responded true 200 "OK"
                          (inr {| Api.timetable := None;
                                  Api.statistics := None;
                                  Api.unfulfilled := None;
                                  Api.validation_warnings := None;
                                  Api.error := Some "Teacher not found" |});
     Api.random := λ _, tt;
     Api.now := λ _, "2025-01-01T00:00:00.000Z" |}.

(** A generator showing what a batch of two returned. *)
Definition oneVariant : Generator.State unit unit :=
  Generator.generateMultipleTimetables solver (Some tt)
    {| Generator.timetables := []; Generator.currentTimetable := 0;
       Generator.loading := false; Generator.error := None;
       Generator.generationCount := 2 |}.

(** Two overlapping repairs, the first of which returns before a
    generation is started and the second during it. *)
Definition overlappingRepairs : list Generator.Event :=
  [ Generator.ClickGenerate; Generator.Settles 0;
    Generator.ClickTeacher "Dr.X" "Monday" "9:00-9:55";
    Generator.ClickTeacher "Dr.X" "Monday" "9:00-9:55";
    Generator.Settles 0;
    Generator.ClickGenerate;
    Generator.Settles 0;
    Generator.ClickGenerate ].

(** Two repairs that cross: the first is started on the first tab, the
    second on the second tab before the first has returned; then the
    first returns. *)
Definition crossedRepairs : list Generator.Event :=
  [ Generator.SelectCount 2; Generator.ClickGenerate; Generator.Settles 0;
    Generator.ClickTeacher "Dr.X" "Monday" "9:00-9:55";
    Generator.SelectTab 1;
    Generator.ClickTeacher "Dr.X" "Monday" "9:00-9:55";
    Generator.Settles 0 ].

(** A repair started on a list of two variants that returns after a
    batch of five has replaced the list and the fifth tab was chosen. *)
Definition staleRepair : list Generator.Event :=
  [ Generator.SelectCount 2; Generator.ClickGenerate; Generator.Settles 0;
    Generator.ClickTeacher "Dr.X" "Monday" "9:00-9:55";
    Generator.ClickTeacher "Dr.X" "Monday" "9:00-9:55";
    Generator.Settles 0;
    Generator.SelectCount 5; Generator.ClickGenerate; Generator.Settles 1;
    Generator.SelectTab 4;
    Generator.Settles 0 ].



(** A class CSE with section A that lists "Workshop" among its labs. *)
Definition workshopAsLab : Display.InputData :=
  {| Display.classes :=
       Some [ {| Display.name := "CSE";
                 Display.sections := Some [ {| Display.section_name := "A" |} ];
                 Display.lab_subjects := Some ["Workshop"] |} ] |}.

Definition workshopEntry : Schedule.Entry :=
  {| Schedule.section := "CSE - A"; Schedule.day := "Monday";
     Schedule.slot := "9:00-9:55"; Schedule.subject := "Workshop";
     Schedule.teacher := "Dr.X"; Schedule.room := "Lab1";
     Schedule.group := None; Schedule.moved := None;
     Schedule.moved_from := None |}.

(** A timetable of two sections with a lesson during the lunch break. *)
Definition week : list Schedule.Entry :=
  [ workshopEntry; entryAt "9:00-9:55"; entryAt "Lunch Break";
    entryAt "9:00-9:55" ].

Definition grouped : Display.Grouped :=
  match Display.groupedData week with
  | Display.Known g => g
  | _ => ∅
  end.

Definition tables : Display.View :=
  match Display.render workshopAsLab ["Monday"]
          ["9:00-9:55"; "Lunch Break"] "all" week with
  | Display.Known view => view
  | _ => []
  end.

(** The form edited to hold one theory subject with a teacher. *)
Definition edits : list Form.Event :=
  [ Form.Class (Form.AddSubjectToClass 0 false);
    Form.Class (Form.UpdateClassSubject 0 0 "Maths" false);
    Form.Other (Form.UpdateTeacher "Maths" 0 "Dr.X" false) ].

Definition props : Form.Props unit unit :=
  {| Form.onInputChange := tt; Form.initialData := tt |}.

Definition edited : Form.State :=
  default Form.initialState (Form.next (Form.run props edits)).

(** The same form after 0 and an empty text were typed into numeric
    fields and the first day was renamed. *)
Definition settings : list Form.Event :=
  edits ++
  [ Form.Other (Form.UpdateLabCapacity (Some 0%Z));
    Form.Other (Form.UpdateNestedState (Form.MaxLecturesPerDayTeacher None));
    Form.Other (Form.UpdateNestedState (Form.LabSessionDuration (Some 3%Z)));
    Form.Other (Form.UpdateDay 0 "Mon") ].

Definition configured : Form.State :=
  default Form.initialState (Form.next (Form.run props settings)).

(** A validation verdict that accepts every document. *)
Definition accepting (_ : App.Json) : option bool := Some true.

Definition shell : App.State :=
  default {| App.inputData := App.JNull; App.currentStep := App.Input;
             App.isValidInput := false; App.form := None |}
          (App.start accepting).

(** A document on whose [classes] member the validation throws. *)
Definition nullClass : App.Json :=
  App.object [ ("classes", App.JArray [App.JNull]) ].

(** The application on its generation screen. *)
Definition generating : App.State :=
  {| App.inputData := App.defaults; App.currentStep := App.Generate;
     App.isValidInput := true; App.form := None |}.

(** A session that starts with an empty store, imports the default
    configuration and proceeds to the generation screen. *)
Definition opened : App.Session :=
  default {| App.app := shell; App.stored := None |}
          (App.open accepting None).

Definition visit : list App.Event :=
  [ App.Import (Some App.defaults); App.Proceed ].

Definition visited : App.Session :=
  default opened (App.run accepting visit opened).

End Sample.

(** * Verification *)

(** ** Canonical subject sets *)

Section CanonicalSets.

Lemma setAdd_elem x y (s : list string) :
  y ∈ Js.setAdd x s ↔ y = x ∨ y ∈ s.
Proof.
  unfold Js.setAdd. case_decide; set_solver.
Qed.

Lemma setAdd_NoDup x (s : list string) : NoDup s → NoDup (Js.setAdd x s).
Proof.
  intros Hs. unfold Js.setAdd. case_decide; [done|].
  apply NoDup_app. repeat split; [done| |apply NoDup_singleton].
  intros y Hy ->%list_elem_of_singleton. done.
Qed.

Lemma addAll_elem (l s : list string) y :
  y ∈ foldl (λ set subject, Js.setAdd subject set) s l ↔ y ∈ l ∨ y ∈ s.
Proof.
  revert s. induction l as [|x l IH]; intros s; simpl.
  - set_solver.
  - rewrite IH, setAdd_elem. set_solver.
Qed.

Lemma addAll_NoDup (l s : list string) :
  NoDup s → NoDup (foldl (λ set subject, Js.setAdd subject set) s l).
Proof.
  revert s. induction l as [|x l IH]; intros s Hs; simpl; [done|].
  apply IH, setAdd_NoDup, Hs.
Qed.

Lemma collect_from_elem field (cs : list Form.ClassItem) (s : list string) y :
  y ∈ foldl (λ set classItem,
               foldl (λ set subject, Js.setAdd subject set) set
                     (field classItem)) s cs
  ↔ (∃ c, c ∈ cs ∧ y ∈ field c) ∨ y ∈ s.
Proof.
  revert s. induction cs as [|c cs IH]; intros s; simpl.
  - split; [auto|]. intros [(c & Hc & _)|?]; [inversion Hc|done].
  - rewrite IH, addAll_elem. split.
    + intros [(c' & ? & ?)|[?|?]]; [left; exists c'|left; exists c|right];
        set_solver.
    + intros [(c' & [->|?]%elem_of_cons & ?)|?]; [| left; exists c'|];
        set_solver.
Qed.

Lemma collect_from_NoDup field (cs : list Form.ClassItem) (s : list string) :
  NoDup s →
  NoDup (foldl (λ set classItem,
                  foldl (λ set subject, Js.setAdd subject set) set
                        (field classItem)) s cs).
Proof.
  revert s. induction cs as [|c cs IH]; intros s Hs; simpl; [done|].
  apply IH, addAll_NoDup, Hs.
Qed.

(** The canonical theory set: the non-blank names listed by some class,
    each once. *)
Lemma getAllSubjects_elem d y :
  y ∈ Form.getAllSubjects d ↔
  Js.trim y ≠ "" ∧ ∃ c, c ∈ Form.classes d ∧ y ∈ Form.subjects c.
Proof.
  unfold Form.getAllSubjects, Form.collect.
  rewrite list_elem_of_filter, collect_from_elem. set_solver.
Qed.

Lemma getAllLabSubjects_elem d y :
  y ∈ Form.getAllLabSubjects d ↔
  Js.trim y ≠ "" ∧ ∃ c, c ∈ Form.classes d ∧ y ∈ Form.lab_subjects c.
Proof.
  unfold Form.getAllLabSubjects, Form.collect.
  rewrite list_elem_of_filter, collect_from_elem. set_solver.
Qed.

Lemma getAllSubjects_NoDup d : NoDup (Form.getAllSubjects d).
Proof.
  apply NoDup_filter, collect_from_NoDup, NoDup_nil_2.
Qed.

Lemma getAllLabSubjects_NoDup d : NoDup (Form.getAllLabSubjects d).
Proof.
  apply NoDup_filter, collect_from_NoDup, NoDup_nil_2.
Qed.

End CanonicalSets.

(** ** The auto-sync effect *)

Section Reconcile.

Implicit Types (m o : gmap string Js.array) (canon : list string).

Lemma getProp_Undefined {V} (o : gmap string V) k :
  Js.getProp o k = Js.Undefined ↔ o !! k = None ∧ k ∉ Js.objectPrototype.
Proof.
  unfold Js.getProp. destruct (o !! k); [naive_solver|].
  case_decide; naive_solver.
Qed.


Lemma Fills_refl fresh lo hi m : Form.Fills fresh [] lo hi m m.
Proof.
  repeat split; [auto..|]. intros k Hk. inversion Hk.
Qed.

Lemma Fills_weaken fresh canon lo hi lo' hi' m m' :
  lo' ≤ lo → hi ≤ hi' →
  Form.Fills fresh canon lo hi m m' → Form.Fills fresh canon lo' hi' m m'.
Proof.
  intros ?? (H1 & H2 & H3). repeat split; [done| |done].
  intros k a Hk. destruct (H2 k a Hk) as [?|(?&?&?&?)]; [by left|right].
  split_and!; [done..|lia|lia].
Qed.

Lemma Fills_trans fresh c1 c2 lo hi m m1 m2 :
  Form.Fills fresh c1 lo hi m m1 → Form.Fills fresh c2 lo hi m1 m2 →
  Form.Fills fresh (c1 ++ c2) lo hi m m2.
Proof.
  intros (A1 & A2 & A3) (B1 & B2 & B3). repeat split.
  - intros k a Hk. by apply B1, A1.
  - intros k a Hk. destruct (B2 k a Hk) as [Hk1|(Hu & Hc & Hi & Hr)].
    + destruct (A2 k a Hk1) as [?|(?&?&?&?)]; [by left|right].
      split_and!; [done|set_solver|done|lia|lia].
    + right. apply getProp_Undefined in Hu as [Hn Hp].
      split_and!; [|set_solver|done|lia|lia].
      apply getProp_Undefined. split; [|done].
      destruct (m !! k) as [b|] eqn:Hb; [|done].
      apply A1 in Hb. congruence.
  - intros k [Hk|Hk]%elem_of_app Hu.
    + destruct (A3 k Hk Hu) as [a Ha]. exists a. by apply B1.
    + apply getProp_Undefined in Hu as [Hn Hp].
      destruct (m1 !! k) as [b|] eqn:Hb; [exists b; by apply B1|].
      apply B3; [done|]. by apply getProp_Undefined.
Qed.

Lemma addMissing_Fills fresh s m n :
  let acc := Form.addMissing fresh s (m, n) in
  n ≤ acc.2 ∧ Form.Fills fresh [s] n acc.2 m acc.1.
Proof.
  unfold Form.addMissing; simpl.
  destruct (Js.getProp m s) as [a| |] eqn:Hp; simpl.
  - split; [done|]. repeat split; [auto..|].
    intros k ->%list_elem_of_singleton. congruence.
  - split; [done|]. repeat split; [auto..|].
    intros k ->%list_elem_of_singleton. congruence.
  - pose proof Hp as [Hn Hproto]%getProp_Undefined.
    split; [lia|]. repeat split.
    + intros k a Hk. rewrite lookup_insert_ne; [done|congruence].
    + intros k a. rewrite lookup_insert. case_decide as Hd.
      * intros [= <-]. subst k. right. simpl.
        split_and!; [done|set_solver|done|lia|lia].
      * by left.
    + intros k ->%list_elem_of_singleton _. rewrite lookup_insert_eq. eauto.
Qed.

Lemma addTheory_Fills canon m n :
  let acc := Form.addTheory canon (m, n) in
  n ≤ acc.2 ∧ Form.Fills [""] canon n acc.2 m acc.1.
Proof.
  unfold Form.addTheory. revert m n.
  induction canon as [|s canon IH]; intros m n; simpl.
  - split; [done|apply Fills_refl].
  - destruct (addMissing_Fills [""] s m n) as [Hle HF].
    destruct (Form.addMissing [""] s (m, n)) as [m1 n1]; simpl in *.
    destruct (IH m1 n1) as [Hle' HF'].
    split; [lia|].
    change (s :: canon) with ([s] ++ canon).
    eapply Fills_trans; (eapply Fills_weaken; [| |eassumption]; lia).
Qed.

Lemma addLab_Fills canon t r n :
  let acc := Form.addLab canon (t, r, n) in
  n ≤ acc.2 ∧
  Form.Fills [""] canon n acc.2 t acc.1.1 ∧
  Form.Fills [] canon n acc.2 r acc.1.2.
Proof.
  unfold Form.addLab. revert t r n.
  induction canon as [|s canon IH]; intros t r n; simpl.
  - split; [done|split; apply Fills_refl].
  - destruct (addMissing_Fills [""] s t n) as [Hle1 HF1].
    destruct (Form.addMissing [""] s (t, n)) as [t1 n1]; simpl in *.
    destruct (addMissing_Fills [] s r n1) as [Hle2 HF2].
    destruct (Form.addMissing [] s (r, n1)) as [r1 n2]; simpl in *.
    destruct (IH t1 r1 n2) as (Hle & HFt & HFr).
    split; [lia|].
    change (s :: canon) with ([s] ++ canon).
    split; eapply Fills_trans;
      (eapply Fills_weaken; [| |eassumption]; lia).
Qed.

(** Deleting the stale keys one by one keeps exactly the canonical ones. *)
Lemma removeStale_from_lookup canon (ks : list string) o k :
  foldl (λ o subject, if decide (subject ∈ canon) then o
                      else delete subject o) o ks !! k
  = if decide (k ∈ ks ∧ k ∉ canon) then None else o !! k.
Proof.
  revert o. induction ks as [|x ks IH]; intros o; cbn [foldl].
  - destruct (decide (k ∈ [] ∧ k ∉ canon)) as [[H _]|]; [|done].
    inversion H.
  - rewrite IH. destruct (decide (x ∈ canon)) as [Hx|Hx].
    + destruct (decide (k ∈ ks ∧ k ∉ canon)),
        (decide (k ∈ x :: ks ∧ k ∉ canon)); set_solver.
    + rewrite lookup_delete.
      destruct (decide (k ∈ ks ∧ k ∉ canon)),
        (decide (k ∈ x :: ks ∧ k ∉ canon)), (decide (x = k)); set_solver.
Qed.

Lemma removeStale_lookup canon o k :
  Form.removeStale canon o !! k
  = if decide (k ∈ canon) then o !! k else None.
Proof.
  unfold Form.removeStale. rewrite removeStale_from_lookup.
  destruct (decide (k ∈ canon)) as [Hk|Hk].
  - case_decide; [tauto|done].
  - case_decide as Hd; [done|].
    destruct (o !! k) as [a|] eqn:Ha; [|done].
    exfalso. apply Hd. split; [|done].
    unfold Js.keys. apply list_elem_of_fmap. exists (k, a).
    split; [done|]. by apply elem_of_map_to_list.
Qed.

(** One derived map: fill, then delete. *)
Section OneMap.
Context (fresh canon : list string) (lo hi : nat).
Context (old mid : gmap string Js.array).
Hypothesis HF : Form.Fills fresh canon lo hi old mid.

Lemma sync_Kept : Form.Kept old (Form.removeStale canon mid).
Proof.
  destruct HF as (H1 & _ & _). intros k a Hk.
  rewrite removeStale_lookup. case_decide; [|by intros [? ?]].
  intros _. by apply H1.
Qed.


Lemma sync_truthy s :
  s ∈ canon → Js.truthy (Js.getProp (Form.removeStale canon mid) s) = true.
Proof.
  destruct HF as (H1 & _ & H3). intros Hs.
  destruct (Js.getProp (Form.removeStale canon mid) s) eqn:Hp; [done..|].
  exfalso. apply getProp_Undefined in Hp as [Hn Hproto].
  rewrite removeStale_lookup in Hn. case_decide; [|done].
  destruct (old !! s) as [a|] eqn:Ha.
  - apply H1 in Ha. congruence.
  - destruct (H3 s Hs) as [a Hm]; [by apply getProp_Undefined|congruence].
Qed.

Lemma sync_dom_sub : dom (Form.removeStale canon mid) ⊆ list_to_set canon.
Proof.
  intros k [a Hk]%elem_of_dom. rewrite removeStale_lookup in Hk.
  case_decide; [|done]. by apply elem_of_list_to_set.
Qed.

(** No canonical name is shadowed by a member of [Object.prototype]. *)
Hypothesis Hclear : ∀ s, s ∈ canon → Js.getProp old s ≠ Js.Inherited.



End OneMap.

(** Nothing is added to a map in which every canonical name is truthy. *)
Lemma addMissing_truthy fresh s m n :
  Js.truthy (Js.getProp m s) = true →
  Form.addMissing fresh s (m, n) = (m, n).
Proof. unfold Form.addMissing; simpl. by intros ->. Qed.

Lemma addTheory_truthy canon m n :
  (∀ s, s ∈ canon → Js.truthy (Js.getProp m s) = true) →
  Form.addTheory canon (m, n) = (m, n).
Proof.
  unfold Form.addTheory. induction canon as [|s canon IH]; intros H; [done|].
  simpl. rewrite addMissing_truthy by (apply H; set_solver).
  apply IH. intros ??. apply H. set_solver.
Qed.

Lemma addLab_truthy canon t r n :
  (∀ s, s ∈ canon → Js.truthy (Js.getProp t s) = true) →
  (∀ s, s ∈ canon → Js.truthy (Js.getProp r s) = true) →
  Form.addLab canon (t, r, n) = (t, r, n).
Proof.
  unfold Form.addLab. induction canon as [|s canon IH]; intros Ht Hr; [done|].
  simpl. rewrite !addMissing_truthy by (first [apply Ht|apply Hr]; set_solver).
  apply IH; intros ??; [apply Ht|apply Hr]; set_solver.
Qed.

Lemma removeStale_id canon o :
  dom o ⊆ list_to_set canon → Form.removeStale canon o = o.
Proof.
  intros Hsub. apply map_eq. intros k. rewrite removeStale_lookup.
  case_decide as Hk; [done|]. symmetry. apply not_elem_of_dom.
  intros Hd. apply Hk. apply Hsub in Hd. by apply elem_of_list_to_set in Hd.
Qed.

(** The three maps of the reconciled state, each as fill-then-delete. *)
Lemma reconcile_unfold theorySubjects labSubjects prev :
  let d := Form.inputData prev in
  let st := Form.reconcile theorySubjects labSubjects prev in
  ∃ m t r n1,
    Form.nextRef prev ≤ n1 ≤ Form.nextRef st ∧
    Form.Fills [""] theorySubjects (Form.nextRef prev) n1 (Form.teachers d) m ∧
    Form.Fills [""] labSubjects n1 (Form.nextRef st) (Form.lab_teachers d) t ∧
    Form.Fills [] labSubjects n1 (Form.nextRef st) (Form.lab_rooms d) r ∧
    Form.inputData st =
      Form.with_teachers (Form.removeStale theorySubjects m)
        (Form.with_lab_teachers (Form.removeStale labSubjects t)
           (Form.with_lab_rooms (Form.removeStale labSubjects r) d)).
Proof.
  intros d st. subst st. unfold Form.reconcile. fold d.
  pose proof (addTheory_Fills theorySubjects (Form.teachers d)
                (Form.nextRef prev)) as [Hle HF].
  destruct (Form.addTheory theorySubjects _) as [m n1]; simpl in *.
  pose proof (addLab_Fills labSubjects (Form.lab_teachers d)
                (Form.lab_rooms d) n1) as (Hle' & HFt & HFr).
  destruct (Form.addLab labSubjects _) as [[t r] n2]; simpl in *.
  exists m, t, r, n1. split_and!; try done.
Qed.

End Reconcile.

(** ** The form's life cycle *)

Section FormLifeCycle.

Context {Callback Config : Type} (props : Form.Props Callback Config).

Lemma applyClassEdit_frame e st :
  let st1 := Form.applyClassEdit e st in
  Form.teachers (Form.inputData st1) = Form.teachers (Form.inputData st) ∧
  Form.lab_teachers (Form.inputData st1)
    = Form.lab_teachers (Form.inputData st) ∧
  Form.lab_rooms (Form.inputData st1) = Form.lab_rooms (Form.inputData st) ∧
  Form.nextRef st1 = Form.nextRef st.
Proof. by destruct e. Qed.



Lemma getAllSubjects_classes d d' :
  Form.classes d = Form.classes d' →
  Form.getAllSubjects d = Form.getAllSubjects d' ∧
  Form.getAllLabSubjects d = Form.getAllLabSubjects d'.
Proof.
  unfold Form.getAllSubjects, Form.getAllLabSubjects. by intros ->.
Qed.





Lemma rendered_Some st st' : Form.rendered st = Some st' →
  st' = st ∧ is_Some (Form.render (Form.inputData st)).
Proof.
  unfold Form.rendered. intros (v & Hv & [= <-])%bind_Some. eauto.
Qed.

Lemma settle_Some st st' : Form.settle st = Some st' →
  st' = Form.syncEffect st ∧ is_Some (Form.render (Form.inputData st)).
Proof.
  unfold Form.settle. intros (st1 & [-> Hr]%rendered_Some & H)%bind_Some.
  by apply rendered_Some in H as [-> _].
Qed.


(** Induction along the events fed to a mounted component. *)
Lemma feed_invariant (P : Form.State → Prop) :
  (∀ e st st', P st → Form.next (Form.step props e st) = Some st' → P st') →
  ∀ es o st, (∀ s, Form.next o = Some s → P s) →
             Form.next (Form.feed props es o) = Some st → P st.
Proof.
  intros Hstep es. induction es as [|e es IH]; intros o st Ho; simpl.
  - apply Ho.
  - destruct (Form.next o) as [s|] eqn:Hs; [|by rewrite Hs].
    apply IH. simpl. intros s'. apply Hstep. by apply Ho.
Qed.

Lemma mount_state : Form.next (Form.mount props) = Some Form.initialState.
Proof. by vm_compute. Qed.


Lemma syncEffect_Allocated st :
  Form.Allocated st → Form.Allocated (Form.syncEffect st).
Proof.
  intros Hst k a. unfold Form.syncEffect.
  destruct (reconcile_unfold (Form.getAllSubjects (Form.inputData st))
              (Form.getAllLabSubjects (Form.inputData st)) st)
    as (m & t & r & n1 & Hn & (_ & Hm & _) & (_ & Ht & _) & (_ & Hr & _) & ->).
  simpl. rewrite !removeStale_lookup.
  intros [H|[H|H]]; case_decide; try done.
  - destruct (Hm k a H) as [?|(_ & _ & _ & ?)]; [|lia].
    specialize (Hst k a). naive_solver lia.
  - destruct (Ht k a H) as [?|(_ & _ & _ & ?)]; [|lia].
    specialize (Hst k a). naive_solver lia.
  - destruct (Hr k a H) as [?|(_ & _ & _ & ?)]; [|lia].
    specialize (Hst k a). naive_solver lia.
Qed.

Lemma storeNew_Allocated (f : gmap string Js.array → Form.InputData)
    o subject l st :
  Form.Allocated st →
  (f (Form.storeNew o subject l (Form.nextRef st))
   = Form.with_teachers (Form.storeNew o subject l (Form.nextRef st))
       (Form.inputData st) ∧ o = Form.teachers (Form.inputData st)) ∨
  (f (Form.storeNew o subject l (Form.nextRef st))
   = Form.with_lab_teachers (Form.storeNew o subject l (Form.nextRef st))
       (Form.inputData st) ∧ o = Form.lab_teachers (Form.inputData st)) ∨
  (f (Form.storeNew o subject l (Form.nextRef st))
   = Form.with_lab_rooms (Form.storeNew o subject l (Form.nextRef st))
       (Form.inputData st) ∧ o = Form.lab_rooms (Form.inputData st)) →
  Form.Allocated
    {| Form.inputData := f (Form.storeNew o subject l (Form.nextRef st));
       Form.nextRef := S (Form.nextRef st) |}.
Proof.
  intros Hst Hf k a. simpl. unfold Form.storeNew in *.
  destruct Hf as [[-> ->]|[[-> ->]|[-> ->]]]; simpl;
    rewrite lookup_insert; case_decide;
    intros [Hk|[Hk|Hk]]; simplify_eq; simpl; try lia;
    specialize (Hst k a); naive_solver lia.
Qed.

Lemma storeRoster_Allocated isLab subject l st :
  Form.Allocated st → Form.Allocated (Form.storeRoster isLab subject l st).
Proof.
  intros Hst. unfold Form.storeRoster.
  destruct isLab; simpl.
  - apply (storeNew_Allocated
             (λ m, Form.with_lab_teachers m (Form.inputData st))); auto.
  - apply (storeNew_Allocated
             (λ m, Form.with_teachers m (Form.inputData st))); auto.
Qed.

Lemma applyOtherEdit_Allocated e st st' :
  Form.Allocated st → Form.applyOtherEdit e st = Some st' →
  Form.Allocated st'.
Proof.
  intros Hst H.
  destruct e; simpl in H;
    try (injection H as <-; try destruct isLab; exact Hst).
  - unfold Form.toggleLabRoomAssignment in H.
    apply bind_Some in H as (rooms & _ & [= <-]).
    apply (storeNew_Allocated
             (λ m, Form.with_lab_rooms m (Form.inputData st))); auto.
  - injection H as <-.
    apply (storeNew_Allocated
             (λ m, Form.with_lab_rooms m (Form.inputData st))); auto.
  - injection H as <-.
    apply (storeNew_Allocated
             (λ m, Form.with_lab_rooms m (Form.inputData st))); auto.
  - unfold Form.addTeacher in H.
    destruct (Js.getProp _ subject); [|done|];
      injection H as <-; by apply storeRoster_Allocated.
  - unfold Form.updateTeacher in H.
    destruct (Js.getProp _ subject); [|done..].
    injection H as <-. by apply storeRoster_Allocated.
  - unfold Form.removeTeacher in H.
    destruct (Js.getProp _ subject); [|done..].
    injection H as <-. by apply storeRoster_Allocated.
  - unfold Form.addTeacherUnavailability in H.
    destruct (Js.getProp _ teacherName); [|done|]; by injection H as <-.
  - unfold Form.updateTeacherUnavailability in H.
    destruct (Js.getProp _ teacherName); [|done..]; by injection H as <-.
  - unfold Form.removeTeacherUnavailability in H.
    destruct (Js.getProp _ teacherName); [|done..]; by injection H as <-.
Qed.

Lemma step_Allocated e st st' :
  Form.Allocated st → Form.next (Form.step props e st) = Some st' →
  Form.Allocated st'.
Proof.
  intros Hst. destruct e as [c|o]; simpl.
  - intros [-> _]%settle_Some. apply syncEffect_Allocated.
    intros k a. destruct (applyClassEdit_frame c st) as (-> & -> & -> & ->).
    apply Hst.
  - intros (st1 & H1 & [-> _]%rendered_Some)%bind_Some.
    by eapply applyOtherEdit_Allocated.
Qed.

(** At every state the form reaches, the arrays of the derived maps carry
    identities below the next one to be given out. *)
Lemma run_Allocated es st :
  Form.next (Form.run props es) = Some st → Form.Allocated st.
Proof.
  unfold Form.run. apply (feed_invariant Form.Allocated).
  - intros e s s'. apply step_Allocated.
  - intros s. rewrite mount_state. intros [= <-] k a.
    simpl. rewrite !lookup_empty. naive_solver.
Qed.

End FormLifeCycle.

(** ** Reconciliation of the derived maps *)

Section SyncEngine.

Context {Callback Config : Type} (props : Form.Props Callback Config).


Lemma reconcile_twice (theorySubjects labSubjects : list string)
    (prev : Form.State) :
  let st := Form.reconcile theorySubjects labSubjects prev in
  Form.reconcile theorySubjects labSubjects st = st.
Proof.
  intros st.
  destruct (reconcile_unfold theorySubjects labSubjects prev)
    as (m & t & r & n1 & Hn & HFm & HFt & HFr & Hd).
  fold st in Hn, HFt, HFr, Hd. clearbody st.
  destruct st as [d n]. simpl in *. subst d.
  unfold Form.reconcile; simpl.
  rewrite addTheory_truthy by (intros; by eapply sync_truthy).
  rewrite addLab_truthy by (intros; by eapply sync_truthy).
  rewrite (removeStale_id _ (Form.removeStale theorySubjects m)),
    (removeStale_id _ (Form.removeStale labSubjects t)),
    (removeStale_id _ (Form.removeStale labSubjects r))
    by apply sync_dom_sub.
  done.
Qed.

(** Running the effect again on the state it produced changes nothing. *)
Lemma syncEffect_idempotent (st : Form.State) :
  Form.syncEffect (Form.syncEffect st) = Form.syncEffect st.
Proof.
  unfold Form.syncEffect at 1.
  destruct (getAllSubjects_classes (Form.inputData (Form.syncEffect st))
              (Form.inputData st)) as [-> ->].
  - unfold Form.syncEffect.
    destruct (reconcile_unfold (Form.getAllSubjects (Form.inputData st))
                (Form.getAllLabSubjects (Form.inputData st)) st)
      as (m & t & r & n1 & _ & _ & _ & _ & ->). done.
  - apply reconcile_twice.
Qed.

(** C2.  Reconciling again with the same canonical sets returns its
    input unchanged, and an entry present before and after a
    reconciliation is the same array object (same identity, same
    contents) in each of the three maps. *)
Theorem reconcile_idempotent_stable (theorySubjects labSubjects : list string)
    (prev : Form.State) :
  let st := Form.reconcile theorySubjects labSubjects prev in
  Form.reconcile theorySubjects labSubjects st = st ∧
  Form.Kept (Form.teachers (Form.inputData prev))
            (Form.teachers (Form.inputData st)) ∧
  Form.Kept (Form.lab_teachers (Form.inputData prev))
            (Form.lab_teachers (Form.inputData st)) ∧
  Form.Kept (Form.lab_rooms (Form.inputData prev))
            (Form.lab_rooms (Form.inputData st)).
Proof.
  intros st. split; [apply reconcile_twice|].
  destruct (reconcile_unfold theorySubjects labSubjects prev)
    as (m & t & r & n1 & Hn & HFm & HFt & HFr & Hd).
  fold st in Hd. rewrite Hd. simpl.
  split_and!; by eapply sync_Kept.
Qed.

(** More generally, a state whose keys already are the canonical sets is
    a fixed point: whatever values the user entered stay in place. *)
Lemma reconcile_fixed_point (theorySubjects labSubjects : list string)
    (prev : Form.State) :
  let d := Form.inputData prev in
  dom (Form.teachers d) = list_to_set theorySubjects →
  dom (Form.lab_teachers d) = list_to_set labSubjects →
  dom (Form.lab_rooms d) = list_to_set labSubjects →
  Form.reconcile theorySubjects labSubjects prev = prev.
Proof.
  intros d Ht Hl Hr.
  assert (Hown : ∀ (o : gmap string Js.array) canon s,
             dom o = list_to_set canon → s ∈ canon →
             Js.truthy (Js.getProp o s) = true).
  { intros o canon s Ho Hs. unfold Js.getProp.
    destruct (o !! s) eqn:Hos; [done|].
    apply not_elem_of_dom in Hos. rewrite Ho in Hos. set_solver. }
  unfold Form.reconcile. fold d.
  rewrite addTheory_truthy by (intros; by eapply Hown).
  rewrite addLab_truthy by (intros; by eapply Hown).
  rewrite !removeStale_id by (by rewrite ?Ht, ?Hl, ?Hr).
  subst d. by destruct prev as [[] ?].
Qed.

Lemma rowsOf_is_Some fallback (o : gmap string Js.array) s :
  s ∉ Js.objectPrototype → is_Some (Form.rowsOf fallback o s).
Proof.
  intros Hs. unfold Form.rowsOf, Js.getProp.
  destruct (o !! s); [eauto|]. case_decide; [done|eauto].
Qed.

Lemma teacherNames_elem (o : gmap string Js.array) (x : string) :
  x ∈ Form.teacherNames o ↔
  ∃ k a t, o !! k = Some a ∧ t ∈ Js.items a ∧ Js.trim t ≠ "" ∧
           x = Js.trim t.
Proof.
  unfold Form.teacherNames. rewrite list_elem_of_fmap. split.
  - intros (t & -> & [Ht Hin]%list_elem_of_filter).
    apply list_elem_of_join in Hin as (l & Hl & Hin).
    apply list_elem_of_fmap in Hin as (a & -> & Ha).
    apply list_elem_of_fmap in Ha as ([k a'] & -> & Hk%elem_of_map_to_list).
    by exists k, a', t.
  - intros (k & a & t & Hk & Ht & Hb & ->). exists t. split; [done|].
    apply list_elem_of_filter. split; [done|].
    apply list_elem_of_join. exists (Js.items a). split; [done|].
    apply list_elem_of_fmap. exists a. split; [done|].
    apply list_elem_of_fmap. exists (k, a). split; [done|].
    by apply elem_of_map_to_list.
Qed.

Lemma getAllTeachers_elem (d : Form.InputData) (x : string) :
  x ∈ Form.getAllTeachers d ↔
  x ∈ Form.teacherNames (Form.teachers d) ∨
  x ∈ Form.teacherNames (Form.lab_teachers d).
Proof.
  unfold Form.getAllTeachers. by rewrite elem_of_list_to_set, elem_of_app.
Qed.

(** The reconciliation brings no teacher: the arrays it creates hold the
    blank placeholder only. *)
Lemma sync_teacherNames canon lo hi (old new : gmap string Js.array) x :
  Form.Fills [""] canon lo hi old new →
  x ∈ Form.teacherNames (Form.removeStale canon new) →
  x ∈ Form.teacherNames old.
Proof.
  intros (_ & Hnew & _) (k & a & t & Hk & Ht & Hb & ->)%teacherNames_elem.
  apply teacherNames_elem. exists k, a, t. split_and!; try done.
  rewrite removeStale_lookup in Hk. case_decide; [|done].
  destruct (Hnew k a Hk) as [?|(_ & _ & Hitems & _)]; [done|].
  rewrite Hitems in Ht. apply list_elem_of_singleton in Ht as ->.
  by destruct Hb.
Qed.

Lemma syncEffect_TeachersClean (st : Form.State) :
  Form.TeachersClean (Form.inputData st) →
  Form.TeachersClean (Form.inputData (Form.syncEffect st)).
Proof.
  unfold Form.TeachersClean, Form.syncEffect. intros Hclean teacher.
  destruct (reconcile_unfold (Form.getAllSubjects (Form.inputData st))
              (Form.getAllLabSubjects (Form.inputData st)) st)
    as (m & t & r & n1 & _ & Hm & Ht & _ & ->).
  rewrite getAllTeachers_elem. simpl. intros Hin. apply Hclean.
  apply getAllTeachers_elem.
  destruct Hin as [Hin|Hin]; [left|right]; by eapply sync_teacherNames.
Qed.

Lemma unavailabilityOf_is_Some (o : gmap string (list Form.Unavailability))
    (teacher : string) :
  Js.getProp o teacher ≠ Js.Inherited →
  is_Some (Form.unavailabilityOf o teacher).
Proof.
  unfold Form.unavailabilityOf. destruct (Js.getProp o teacher); by eauto.
Qed.

Lemma render_is_Some d :
  (∀ s, s ∈ Form.getAllSubjects d ∨ s ∈ Form.getAllLabSubjects d →
        s ∉ Js.objectPrototype) →
  Form.TeachersClean d →
  is_Some (Form.render d).
Proof.
  intros Hs Hclean. unfold Form.render.
  assert (Hrooms : is_Some
            (mapM (λ labSubject,
                     assigned ← Form.rowsOf [] (Form.lab_rooms d) labSubject;
                     Some (labSubject,
                           (λ labRoom,
                              (labRoom, bool_decide (labRoom ∈ assigned)))
                             <$> filter (λ lab, Js.trim lab ≠ "")
                                        (Form.labs d)))
                  (Form.getAllLabSubjects d))).
  { apply mapM_is_Some_2, Forall_forall. intros s Hin. simpl.
    destruct (rowsOf_is_Some [] (Form.lab_rooms d) s) as [l ->]; [auto|].
    by eexists. }
  assert (Htheory : is_Some
            (mapM (λ subject,
                     pair subject <$> Form.rowsOf [""] (Form.teachers d) subject)
                  (Form.getAllSubjects d))).
  { apply mapM_is_Some_2, Forall_forall. intros s Hin. simpl.
    destruct (rowsOf_is_Some [""] (Form.teachers d) s) as [l ->]; [auto|].
    by eexists. }
  assert (Hlab : is_Some
            (mapM (λ subject,
                     pair subject
                       <$> Form.rowsOf [""] (Form.lab_teachers d) subject)
                  (Form.getAllLabSubjects d))).
  { apply mapM_is_Some_2, Forall_forall. intros s Hin. simpl.
    destruct (rowsOf_is_Some [""] (Form.lab_teachers d) s) as [l ->]; [auto|].
    by eexists. }
  assert (Hcards : is_Some
            (mapM (λ teacher,
                     pair teacher
                       <$> Form.unavailabilityOf
                             (Form.teacher_unavailability d) teacher)
                  (elements (Form.getAllTeachers d)))).
  { apply mapM_is_Some_2, Forall_forall. intros teacher Hin%elem_of_elements.
    simpl.
    destruct (unavailabilityOf_is_Some (Form.teacher_unavailability d)
                teacher) as [l ->]; [by apply Hclean|].
    by eexists. }
  destruct Hrooms as [rooms Hrooms], Htheory as [theory ->], Hlab as [lab ->],
    Hcards as [cards ->].
  case_bool_decide; [rewrite Hrooms|]; by eexists.
Qed.

(** The form survives every class, subject or section edit after which
    no canonical name is a member of [Object.prototype], provided no
    teacher is named like one either; the reconciliation then settles. *)
Lemma class_edit_settles (e : Form.ClassEdit) (st : Form.State) :
  let d1 := Form.inputData (Form.applyClassEdit e st) in
  (∀ s, s ∈ Form.getAllSubjects d1 ∨ s ∈ Form.getAllLabSubjects d1 →
        s ∉ Js.objectPrototype) →
  Form.TeachersClean d1 →
  is_Some (Form.next (Form.step props (Form.Class e) st)).
Proof.
  intros d1 Hs Hclean. simpl. unfold Form.settle, Form.rendered.
  destruct (render_is_Some d1 Hs Hclean) as [v Hv]. fold d1. rewrite Hv.
  simpl.
  destruct (render_is_Some (Form.inputData (Form.syncEffect
                                              (Form.applyClassEdit e st))))
    as [v' ->]; [| |by eexists].
  - unfold Form.syncEffect. fold d1.
    destruct (reconcile_unfold (Form.getAllSubjects d1)
                (Form.getAllLabSubjects d1) (Form.applyClassEdit e st))
      as (m & t & r & n1 & _ & _ & _ & _ & Hd).
    destruct (getAllSubjects_classes
                (Form.inputData
                   (Form.reconcile (Form.getAllSubjects d1)
                      (Form.getAllLabSubjects d1) (Form.applyClassEdit e st)))
                d1) as [-> ->]; [by rewrite Hd|done].
  - by apply syncEffect_TeachersClean.
Qed.

End SyncEngine.

(** Typing a subject that is named like a member of [Object.prototype]
    makes the next render throw: the teacher rows read
    [inputData.teachers["toString"]], find the inherited function and call
    its missing [map].  The form is gone and no effect runs. *)
Lemma prototype_name_unmounts_the_form :
  Form.next
    (Form.run Sample.props
       [ Form.Class (Form.AddSubjectToClass 0 false);
         Form.Class (Form.UpdateClassSubject 0 0 "toString" false) ])
  = None.
Proof. by vm_compute. Qed.

(** ** Batches of solver requests *)

Section Batches.

Context {Config Seed Stats Unfulfilled : Type}.
Context (env : Api.Env Config Seed Stats Unfulfilled) (inputData : Config).

Lemma iteration_spec acc i :
  Api.iteration env inputData acc i
  = {| Api.results :=
         Api.results acc ++ option_list (Api.variantOf env inputData i);
       Api.errors :=
         Api.errors acc ++ option_list (Api.failureOf env inputData i) |}.
Proof.
  unfold Api.iteration, Api.variantOf, Api.failureOf, Api.requestOf.
  destruct (Api.generateTimetable _); simpl; by rewrite app_nil_r.
Qed.

Lemma loop_spec (l : list nat) acc :
  foldl (Api.iteration env inputData) acc l
  = {| Api.results := Api.results acc ++ omap (Api.variantOf env inputData) l;
       Api.errors := Api.errors acc ++ omap (Api.failureOf env inputData) l |}.
Proof.
  revert acc. induction l as [|i l IH]; intros acc; simpl.
  - destruct acc. by rewrite !app_nil_r.
  - rewrite IH, iteration_spec. simpl. rewrite <- !app_assoc. f_equal.
    + f_equal. by destruct (Api.variantOf env inputData i).
    + f_equal. by destruct (Api.failureOf env inputData i).
Qed.

(** The batch holds, in submission order, one variant per request that
    succeeded and one failure per request that did not. *)
Lemma batch_spec count :
  Api.generateMultipleTimetables env inputData count
  = {| Api.results := omap (Api.variantOf env inputData) (seq 0 count);
       Api.errors := omap (Api.failureOf env inputData) (seq 0 count) |}.
Proof. unfold Api.generateMultipleTimetables. by rewrite loop_spec. Qed.

Lemma variant_xor_failure i :
  is_Some (Api.variantOf env inputData i) ↔
  Api.failureOf env inputData i = None.
Proof.
  unfold Api.variantOf, Api.failureOf.
  destruct (Api.generateTimetable _); split; try done; by intros [? ?].
Qed.

Lemma omap_split_length {A B C} (f : A → option B) (g : A → option C)
    (l : list A) :
  (∀ x, is_Some (f x) ↔ g x = None) →
  length (omap f l) + length (omap g l) = length l.
Proof.
  intros H. unfold omap. induction l as [|x l IH]; [done|]. simpl.
  destruct (H x) as [H1 H2].
  destruct (f x) eqn:Hf, (g x) eqn:Hg; simpl; try lia.
  - by specialize (H1 (mk_is_Some _ _ eq_refl)).
  - by destruct (H2 eq_refl).
Qed.

Lemma omap_total {A B} (f : A → option B) (g : A → B) (l : list A) :
  (∀ x, x ∈ l → f x = Some (g x)) → omap f l = g <$> l.
Proof.
  induction l as [|x l IH]; intros H; [done|]. simpl.
  rewrite H by set_solver. simpl. f_equal. apply IH. intros; apply H.
  set_solver.
Qed.

Lemma omap_none {A B} (f : A → option B) (l : list A) :
  (∀ x, x ∈ l → f x = None) → omap f l = [].
Proof.
  induction l as [|x l IH]; intros H; [done|]. simpl.
  rewrite H by set_solver. apply IH. intros; apply H. set_solver.
Qed.

(** C3.  With a solver that succeeds on every request, a batch of
    [count ≥ 1] requests yields exactly [count] variants and no failure;
    the variant at position [i] has id [i + 1] and name "Version (i + 1)",
    whatever the seeds, the completion times and the payloads are. *)
Theorem generate_names_in_submission_order (count : nat) :
  1 ≤ count →
  (∀ request, ∃ data,
     Api.generateTimetable (Api.solve env request) = inr data) →
  let batch := Api.generateMultipleTimetables env inputData count in
  length (Api.results batch) = count ∧
  Api.errors batch = [] ∧
  ∀ i, i < count →
       ∃ v, Api.results batch !! i = Some v ∧
            Api.id v = i + 1 ∧
            Api.name v = "Version " +:+ pretty (i + 1).
Proof.
  intros _ Hok batch. subst batch. rewrite batch_spec. simpl.
  set (mk i := match Api.generateTimetable
                       (Api.solve env (Api.requestOf env inputData i)) with
               | inr result =>
                   {| Api.id := i + 1;
                      Api.name := "Version " +:+ pretty (i + 1);
                      Api.data := result;
                      Api.generated_at := Api.now env i |}
               | inl _ =>
                   {| Api.id := 0; Api.name := "";
                      Api.data := {| Api.timetable := None;
                                     Api.statistics := None;
                                     Api.unfulfilled := None;
                                     Api.validation_warnings := None;
                                     Api.error := None |};
                      Api.generated_at := "" |}
               end).
  assert (Hv : ∀ i, Api.variantOf env inputData i = Some (mk i)).
  { intros i. unfold Api.variantOf, mk.
    destruct (Hok (Api.requestOf env inputData i)) as [data ->]. done. }
  assert (Hf : ∀ i, Api.failureOf env inputData i = None).
  { intros i. apply variant_xor_failure. rewrite Hv. eauto. }
  rewrite (omap_total _ mk) by (intros; apply Hv).
  rewrite omap_none by (intros; apply Hf).
  split_and!; [by rewrite length_fmap, length_seq|done|].
  intros i Hi. exists (mk i).
  rewrite list_lookup_fmap, lookup_seq_lt by done. simpl.
  split; [done|]. unfold mk.
  destruct (Hok (Api.requestOf env inputData i)) as [data ->]. done.
Qed.

End Batches.

(** Witness for C3: three requests to the sample solver. *)
Lemma generate_names_in_submission_order_witness :
  let batch := Api.generateMultipleTimetables Sample.solver tt 3 in
  length (Api.results batch) = 3 ∧
  Api.errors batch = [] ∧
  ∀ i, i < 3 →
       ∃ v, Api.results batch !! i = Some v ∧
            Api.id v = i + 1 ∧
            Api.name v = "Version " +:+ pretty (i + 1).
Proof.
  apply (generate_names_in_submission_order Sample.solver tt 3).
  - lia.
  - intros request. eexists. reflexivity.
Defined.

(** ** The variant generator *)

Section Variants.

Context {Config Seed Stats Unfulfilled : Type}.
Context (env : Api.Env Config Seed Stats Unfulfilled).

Local Abbreviation State := (Generator.State Stats Unfulfilled).
Local Abbreviation System := (Generator.System Config Stats Unfulfilled).

(** C4.  In a batch every request contributes exactly one thing: a
    variant when it succeeds, a recorded failure (with its number and
    message) when it does not, and the later requests are issued all the
    same; the component reports the failure of the batch exactly when no
    variant came back, and otherwise shows the variants that did. *)
Theorem failures_are_isolated (inputData : Config) (st : State) :
  let count := Generator.generationCount st in
  let batch := Api.generateMultipleTimetables env inputData count in
  let st' := Generator.generateMultipleTimetables env (Some inputData) st in
  Api.results batch = omap (Api.variantOf env inputData) (seq 0 count) ∧
  Api.errors batch = omap (Api.failureOf env inputData) (seq 0 count) ∧
  (∀ i, is_Some (Api.variantOf env inputData i) ↔
        Api.failureOf env inputData i = None) ∧
  length (Api.results batch) + length (Api.errors batch) = count ∧
  (Generator.error st' = Some "No timetables could be generated" ↔
   Api.results batch = []) ∧
  (Api.results batch ≠ [] →
   Generator.error st' = None ∧
   Generator.timetables st' = Api.results batch ∧
   Generator.loading st' = false).
Proof.
  intros count batch st'. subst batch st'.
  unfold Generator.generateMultipleTimetables; simpl. fold count.
  rewrite batch_spec; simpl.
  split_and!; try done.
  - apply variant_xor_failure.
  - rewrite omap_split_length, length_seq; [done|].
    apply variant_xor_failure.
  - unfold Generator.generateFinish; simpl.
    destruct (omap _ _); simpl; split; done.
  - unfold Generator.generateFinish; simpl.
    destruct (omap _ _); simpl; done.
Qed.

Lemma resetStart_Some (inputData : option Config) (teacher day slot : string)
    (st : State) (v : Api.Variant Stats Unfulfilled) :
  Generator.timetables st !! Generator.currentTimetable st = Some v →
  Generator.resetStart inputData teacher day slot st
  = Some ({| Generator.timetables := Generator.timetables st;
             Generator.currentTimetable := Generator.currentTimetable st;
             Generator.loading := true;
             Generator.error := Generator.error st;
             Generator.generationCount := Generator.generationCount st |},
          {| Generator.c_timetables := Generator.timetables st;
             Generator.c_currentTimetable := Generator.currentTimetable st;
             Generator.c_currentTimetableData := v |},
          {| Api.r_teacher := teacher; Api.r_day := day; Api.r_slot := slot;
             Api.r_inputData := inputData;
             Api.r_timetable := Api.timetable (Api.data v) |}).
Proof.
  intros Hv. unfold Generator.resetStart. rewrite Hv.
  destruct (Generator.timetables st) eqn:E; [|done].
  by rewrite lookup_nil in Hv.
Qed.

(** A repair that succeeds rewrites one position of the list the
    handler was invoked on: the selected variant gets the returned
    entries and " (Modified)" after its name and keeps its id, time
    stamp, statistics and unfulfilled members; that list keeps its
    length and every other position.  This is the state after a call
    during whose [await] nothing else settles; when the request returns
    in a later state, the list set is still the one of the invocation. *)
Theorem reset_replaces_only_the_selected (inputData : option Config)
    (teacher day slot : string) (st : State)
    (v : Api.Variant Stats Unfulfilled)
    (resetResult : Api.TimetableData Stats Unfulfilled) :
  Generator.timetables st !! Generator.currentTimetable st = Some v →
  Api.resetTeacher
    (Api.repair env
       {| Api.r_teacher := teacher; Api.r_day := day; Api.r_slot := slot;
          Api.r_inputData := inputData;
          Api.r_timetable := Api.timetable (Api.data v) |})
  = inr resetResult →
  let st' := Generator.handleResetTeacher env inputData teacher day slot st in
  let current := Generator.currentTimetable st in
  ∃ v', Generator.timetables st' = <[current := v']> (Generator.timetables st) ∧
        Generator.timetables st' !! current = Some v' ∧
        Api.name v' = Api.name v +:+ " (Modified)" ∧
        Api.timetable (Api.data v') = Api.timetable resetResult ∧
        Api.id v' = Api.id v ∧
        Api.generated_at v' = Api.generated_at v ∧
        Api.statistics (Api.data v') = Api.statistics (Api.data v) ∧
        Api.unfulfilled (Api.data v') = Api.unfulfilled (Api.data v) ∧
        length (Generator.timetables st') = length (Generator.timetables st) ∧
        (∀ j, j ≠ current →
              Generator.timetables st' !! j = Generator.timetables st !! j) ∧
        (∀ started c request later,
           Generator.resetStart inputData teacher day slot st
           = Some (started, c, request) →
           Generator.timetables
             (Generator.resetFinish c
                (Api.resetTeacher (Api.repair env request)) later)
           = <[current := v']> (Generator.timetables st)).
Proof.
  intros Hv Hreply st' current. subst st'.
  unfold Generator.handleResetTeacher.
  rewrite (resetStart_Some _ _ _ _ _ v Hv), Hreply. simpl.
  exists (Generator.modified v resetResult). fold current.
  split_and!; try done.
  - apply list_lookup_insert_eq. by eapply lookup_lt_Some.
  - by rewrite length_insert.
  - intros j Hj. by apply list_lookup_insert_ne.
  - intros started c request later [= _ <- <-]. by rewrite Hreply.
Qed.

(** The amended C5.  After a repair that succeeds, the entries of the
    selected variant are the list the solver returned, entry for entry;
    in particular an entry carries [moved] and [moved_from] exactly as
    the solver's response does, the client adding nothing. *)
Theorem reset_entries_are_the_solvers (inputData : option Config)
    (teacher day slot : string) (st : State)
    (v : Api.Variant Stats Unfulfilled)
    (resetResult : Api.TimetableData Stats Unfulfilled)
    (returned : list Schedule.Entry) :
  Generator.timetables st !! Generator.currentTimetable st = Some v →
  Api.resetTeacher
    (Api.repair env
       {| Api.r_teacher := teacher; Api.r_day := day; Api.r_slot := slot;
          Api.r_inputData := inputData;
          Api.r_timetable := Api.timetable (Api.data v) |})
  = inr resetResult →
  Api.timetable resetResult = Some returned →
  let st' := Generator.handleResetTeacher env inputData teacher day slot st in
  Generator.shownEntries st' = returned ∧
  ∀ i e, Generator.shownEntries st' !! i = Some e →
         ∃ r, returned !! i = Some r ∧
              Schedule.moved e = Schedule.moved r ∧
              Schedule.moved_from e = Schedule.moved_from r ∧
              Schedule.slot e = Schedule.slot r.
Proof.
  intros Hv Hreply Hret st'.
  assert (Generator.shownEntries st' = returned) as ->.
  { subst st'. unfold Generator.shownEntries, Generator.handleResetTeacher.
    rewrite (resetStart_Some _ _ _ _ _ v Hv), Hreply. simpl.
    rewrite list_lookup_insert_eq by (by eapply lookup_lt_Some).
    simpl. by rewrite Hret. }
  split; [done|]. intros i e He. by exists e.
Qed.

End Variants.

(** An instance: repairing the first of two variants. *)
Lemma reset_replaces_only_the_selected_witness :
  ∃ v', Generator.timetables
          (Generator.handleResetTeacher Sample.solver (Some tt)
             "Dr.X" "Monday" "9:00-9:55" Sample.oneVariant)
        = <[0 := v']> (Generator.timetables Sample.oneVariant) ∧
        Api.name v' = "Version 1 (Modified)" ∧
        Api.id v' = 1.
Proof.
  destruct (reset_replaces_only_the_selected Sample.solver (Some tt)
              "Dr.X" "Monday" "9:00-9:55" Sample.oneVariant Sample.version1
              (Sample.dataWith [Sample.entryAt "9:55-10:50"])
              eq_refl eq_refl)
    as (v' & H1 & _ & H2 & _ & H3 & _).
  exists v'. split; [exact H1|]. split; [exact H2|exact H3].
Defined.

(** Witness for the amended C5: the same repair. *)
Lemma reset_entries_are_the_solvers_witness :
  Generator.shownEntries
    (Generator.handleResetTeacher Sample.solver (Some tt)
       "Dr.X" "Monday" "9:00-9:55" Sample.oneVariant)
  = [Sample.entryAt "9:55-10:50"].
Proof.
  exact (proj1 (reset_entries_are_the_solvers Sample.solver (Some tt)
                  "Dr.X" "Monday" "9:00-9:55" Sample.oneVariant
                  Sample.version1
                  (Sample.dataWith [Sample.entryAt "9:55-10:50"])
                  [Sample.entryAt "9:55-10:50"] eq_refl eq_refl eq_refl)).
Defined.

(** C9 fails on the code when repairs overlap.  After the events of
    [crossedRepairs] the second tab is selected, the first variant has
    been repaired and the repair of the second is still awaited.  When
    it returns and succeeds, the list set is the one its handler was
    invoked on with the second position replaced: the first variant,
    which is not the selected one, loses its repaired entries and its
    " (Modified)". *)
Theorem repair_overwrites_other_variant :
  ∃ before after,
    Generator.run Sample.solver (Some tt) Sample.crossedRepairs
      Generator.start = Some before ∧
    Generator.step Sample.solver (Some tt) (Generator.Settles 0) before
    = Some after ∧
    Generator.currentTimetable (Generator.ui before) = 1 ∧
    Generator.currentTimetable (Generator.ui after) = 1 ∧
    Api.name <$> Generator.timetables (Generator.ui before)
    = ["Version 1 (Modified)"; "Version 2"] ∧
    Api.name <$> Generator.timetables (Generator.ui after)
    = ["Version 1"; "Version 2 (Modified)"] ∧
    (Api.timetable ∘ Api.data) <$> Generator.timetables (Generator.ui before)
    = [Some [Sample.entryAt "9:55-10:50"]; Some [Sample.entryAt "9:00-9:55"]] ∧
    (Api.timetable ∘ Api.data) <$> Generator.timetables (Generator.ui after)
    = [Some [Sample.entryAt "9:00-9:55"]; Some [Sample.entryAt "9:55-10:50"]].
Proof.
  do 2 eexists. split; [by vm_compute|]. split; [by vm_compute|].
  by vm_compute.
Qed.

(** C5 as stated fails: the variant holds Dr.X at 9:00-9:55, the solver
    returns Dr.X's lesson at 9:55-10:50, and the entry then shown has
    neither [moved] nor [moved_from]. *)
Lemma reset_leaves_moved_unset :
  ¬ Generator.MovedAnnotated "Dr.X"
      (Generator.shownEntries Sample.oneVariant)
      (Generator.shownEntries
         (Generator.handleResetTeacher Sample.solver (Some tt)
            "Dr.X" "Monday" "9:00-9:55" Sample.oneVariant)).
Proof.
  intros H.
  destruct (H (Sample.entryAt "9:00-9:55") (Sample.entryAt "9:55-10:50"))
    as [Hmoved _]; try done.
  - vm_compute. apply list_elem_of_here.
  - vm_compute. apply list_elem_of_here.
Qed.

(** The example of C4: three requests, the second answered with a 500.
    Two variants (the first and the third) are shown, one failure is
    recorded, and the component reports no error. *)
Lemma second_request_failing :
  let st := {| Generator.timetables := []; Generator.currentTimetable := 0;
               Generator.loading := false; Generator.error := None;
               Generator.generationCount := 3 |} in
  let batch := Api.generateMultipleTimetables Sample.flaky tt 3 in
  let st' := Generator.generateMultipleTimetables Sample.flaky (Some tt) st in
  Api.id <$> Api.results batch = [1; 3] ∧
  Api.errors batch
  = [ {| Api.variation := 2;
         Api.message := "HTTP 500: INTERNAL SERVER ERROR" |} ] ∧
  Generator.timetables st' = Api.results batch ∧
  Generator.error st' = None.
Proof. by vm_compute. Qed.

(** ** The in-flight guard *)

Section InFlight.

Context {Config Seed Stats Unfulfilled : Type}.
Context (env : Api.Env Config Seed Stats Unfulfilled).
Context (inputData : option Config).

Local Abbreviation System := (Generator.System Config Stats Unfulfilled).

Lemma step_Guarded e s s' :
  match e with Generator.ClickTeacher _ _ _ => False | _ => True end →
  Generator.Guarded s → Generator.step env inputData e s = Some s' →
  Generator.Guarded s'.
Proof.
  intros He HG. destruct e; simpl; try done.
  - destruct (Generator.loading (Generator.ui s)) eqn:Hl.
    + done.
    + destruct HG as [Hnil|[Hl' _]]; [|congruence].
      destruct inputData as [config|]; simpl; [|done].
      intros [= <-]. right. simpl. rewrite Hnil. eauto.
  - case_bool_decide; [|done]. intros [= <-]. exact HG.
  - destruct (_ || _); [done|]. intros [= <-]. exact HG.
  - intros (p & Hp & [= <-])%bind_Some. left. simpl.
    destruct HG as [Hnil|(_ & config & count & Hin)].
    + by rewrite Hnil in Hp.
    + rewrite Hin in *. destruct k; [done|].
      by rewrite lookup_cons_ne_0, lookup_nil in Hp.
Qed.

(** Without overlapping repairs the guard works: in a run that contains
    no click on a teacher at most one batch is ever in flight. *)
Lemma single_batch_without_repairs es s :
  Generator.NoRepair es →
  Generator.run env inputData es Generator.start = Some s →
  Generator.batchesInFlight s ≤ 1.
Proof.
  intros Hes Hrun.
  assert (HG : Generator.Guarded s).
  { assert (H0 : Generator.Guarded (Generator.start : System)) by (by left).
    revert Hrun H0. generalize (Generator.start : System).
    induction Hes as [|e es He _ IH]; intros s0; simpl.
    - by intros [= <-].
    - intros (s1 & H1 & Hrun)%bind_Some HG0.
      eapply IH; [done|]. by eapply step_Guarded. }
  unfold Generator.batchesInFlight.
  destruct HG as [->|(_ & config & count & ->)]; simpl; lia.
Qed.

End InFlight.

(** C7 fails on the code: after a batch has produced variants, two
    repairs are started one after the other; the first returns and
    clears the loading flag, a generation is started, the second repair
    returns and clears the flag again, and a second generation is
    started while the first is still awaited. *)
Theorem two_batches_in_flight :
  Generator.batchesInFlight
    <$> Generator.run Sample.solver (Some tt) Sample.overlappingRepairs
                      Generator.start
  = Some 2.
Proof. by vm_compute. Qed.

(** ** Classification of a cell's entries *)

Section Cells.

Context (inputData : Display.InputData).

(** When "Workshop" is not among the section's lab subjects, the three
    lists of a cell are the three classes of the fixed-order
    classification, so every entry is shown exactly once. *)
Lemma cell_partitioned (slotItems : list Schedule.Entry)
    (section day slot : string) :
  "Workshop" ∉ Display.getSectionLabSubjects inputData section →
  Display.Partitioned (Display.getSectionLabSubjects inputData section)
    slotItems (Display.renderCell inputData slotItems section day slot).
Proof.
  intros Hw. unfold Display.renderCell.
  case_decide; [done|]. destruct slotItems as [|item rest]; [done|].
  set (labs := Display.getSectionLabSubjects inputData section) in *.
  generalize (item :: rest). intros l. simpl.
  split_and!; apply list_filter_iff; intros x; unfold Display.classify;
    repeat case_decide; split; try done; try tauto; try congruence.
Qed.

(** The theory and workshop lists always are those classes; the lab list
    holds every entry whose subject is a lab subject. *)
Lemma cell_always (slotItems : list Schedule.Entry)
    (section day slot : string) labs nonLabs workshops moved :
  Display.renderCell inputData slotItems section day slot
  = Display.Entries labs nonLabs workshops moved →
  let labSubjects := Display.getSectionLabSubjects inputData section in
  labs = filter (λ item, Schedule.subject item ∈ labSubjects) slotItems ∧
  nonLabs = filter (λ item, Display.classify labSubjects item = Display.Theory)
                   slotItems ∧
  workshops = filter (λ item, Display.classify labSubjects item
                              = Display.Workshop) slotItems.
Proof.
  unfold Display.renderCell. case_decide; [done|].
  destruct slotItems as [|item rest]; [done|]. cbv beta iota zeta.
  generalize (item :: rest). intros l [= <- <- <- _].
  split_and!; [done| |]; apply list_filter_iff; intros x;
    unfold Display.classify; repeat case_decide; split; try done;
    try tauto; try congruence.
Qed.

End Cells.

(** C6 fails on the code: for a class that lists "Workshop" among its lab
    subjects, a "Workshop" entry of one of its sections is put both in
    the lab list and in the workshop list of its cell. *)
Theorem workshop_entry_shown_twice :
  let cell := Display.renderCell Sample.workshopAsLab [Sample.workshopEntry]
                                 "CSE - A" "Monday" "9:00-9:55" in
  cell
  = Display.Entries [Sample.workshopEntry] [] [Sample.workshopEntry] false ∧
  ¬ Display.Partitioned
      (Display.getSectionLabSubjects Sample.workshopAsLab "CSE - A")
      [Sample.workshopEntry] cell.
Proof.
  split; [by vm_compute|].
  intros [H _]. vm_compute in H. discriminate H.
Qed.

(** ** The application shell *)

Section Shell.

Context (validity : App.Json → option bool).

Lemma step_notifies_nobody {Callback Config}
    (props : Form.Props Callback Config) e fs :
  Form.notified (Form.step props e fs) = [].
Proof. by destruct e. Qed.

Lemma step_ignores_props {Cb1 Cf1 Cb2 Cf2}
    (p1 : Form.Props Cb1 Cf1) (p2 : Form.Props Cb2 Cf2) e fs :
  Form.step p1 e fs = Form.step p2 e fs.
Proof. by destruct e. Qed.

Lemma feed_ignores_props {Cb1 Cf1 Cb2 Cf2}
    (p1 : Form.Props Cb1 Cf1) (p2 : Form.Props Cb2 Cf2) es o :
  Form.feed p1 es o = Form.feed p2 es o.
Proof.
  revert o. induction es as [|e es IH]; intros o; simpl; [done|].
  destruct (Form.next o); [|done].
  by rewrite IH, (step_ignores_props p1 p2).
Qed.

Lemma feed_notifies_nobody {Callback Config}
    (props : Form.Props Callback Config) es o :
  Form.notified (Form.feed props es o) = Form.notified o.
Proof.
  revert o. induction es as [|e es IH]; intros o; simpl; [done|].
  destruct (Form.next o); [|done].
  rewrite IH. simpl. by rewrite step_notifies_nobody, app_nil_r.
Qed.

Lemma showInput_form st :
  ∃ st', App.showInput validity st = Some st' ∧
         App.inputData st' = App.inputData st ∧
         App.isValidInput st' = App.isValidInput st ∧
         App.currentStep st' = App.Input ∧
         (App.form st' = App.form st ∨ App.form st' = Some Form.initialState).
Proof.
  unfold App.showInput; simpl. destruct (App.form st) as [fs|] eqn:Hf.
  - eexists. split; [done|]. simpl. auto.
  - eexists. split; [done|]. simpl. auto.
Qed.

Lemma importConfig_Some doc st :
  ∃ st', App.importConfig validity (Some doc) st = Some st' ∧
         App.inputData st' = doc ∧
         (App.form st' = App.form st ∨ App.form st' = Some Form.initialState).
Proof.
  unfold App.importConfig, App.handleInputDataChange; simpl.
  destruct (validity doc) as [valid|]; simpl.
  - destruct (showInput_form
                {| App.inputData := doc; App.currentStep := App.currentStep st;
                   App.isValidInput := valid; App.form := App.form st |})
      as (st' & -> & Hd & _ & _ & Hform).
    exists st'. split; [done|]. split; [exact Hd|exact Hform].
  - eexists. split; [done|]. simpl. auto.
Qed.

Lemma formEvent_frame e st st' :
  App.formEvent validity e st = Some st' →
  App.inputData st' = App.inputData st ∧
  App.isValidInput st' = App.isValidInput st ∧
  App.currentStep st' = App.currentStep st.
Proof.
  unfold App.formEvent.
  destruct (App.currentStep st) eqn:Hs; [|done].
  destruct (App.form st) as [fs|]; [|done].
  intros (fs' & _ & [= <-])%bind_Some.
  rewrite step_notifies_nobody. done.
Qed.

Lemma formEvents_frame es st st' :
  App.formEvents validity es st = Some st' →
  App.inputData st' = App.inputData st ∧
  App.isValidInput st' = App.isValidInput st ∧
  App.currentStep st' = App.currentStep st.
Proof.
  revert st. induction es as [|e es IH]; intros st; simpl.
  - by intros [= <-].
  - intros (st1 & H1 & H)%bind_Some.
    apply formEvent_frame in H1 as (E1 & E2 & E3).
    apply IH in H as (F1 & F2 & F3). split_and!; congruence.
Qed.

(** The amended C8.  Importing a document that parses sets the
    configuration to that document as it is: a member the document lacks
    stays absent, a member it has is kept whatever its name, and no
    default value is filled in (the defaults are the initial state of the
    form only). *)
Theorem import_is_verbatim (doc : App.Json) (st : App.State) :
  ∃ st', App.importConfig validity (Some doc) st = Some st' ∧
         App.inputData st' = doc ∧
         ∀ k, App.member k (App.inputData st') = App.member k doc.
Proof.
  destruct (importConfig_Some doc st) as (st' & H & Hd & _).
  exists st'. split; [done|]. split; [done|]. intros k. by rewrite Hd.
Qed.

(** A text that does not parse leaves the state as it was. *)
Lemma import_of_malformed_text (st : App.State) :
  App.importConfig validity None st = Some st.
Proof. done. Qed.

(** C10.  The form behaves the same under any two sets of props (its
    mount, every step, hence every run), and it never calls its parent:
    form events leave the parent's configuration, and the configuration
    handed to the generator, as they were; conversely the form's state
    after an import or a load from the store is the state it had, or the
    initial state of a fresh mount, never a function of the document. *)
Theorem form_is_constant_in_its_props {Cb1 Cf1 Cb2 Cf2}
    (p1 : Form.Props Cb1 Cf1) (p2 : Form.Props Cb2 Cf2)
    (es : list Form.Event) (st st' st'' : App.State) (doc : App.Json) :
  (Form.mount p1 = Form.mount p2 ∧
   (∀ e fs, Form.step p1 e fs = Form.step p2 e fs) ∧
   Form.run p1 es = Form.run p2 es ∧
   Form.notified (Form.run p1 es) = []) ∧
  (App.formEvents validity es st = Some st' →
   App.inputData st' = App.inputData st ∧
   App.generatorInput st' = App.generatorInput st ∧
   App.isValidInput st' = App.isValidInput st) ∧
  (App.importConfig validity (Some doc) st = Some st'' →
   App.form st'' = App.form st ∨ App.form st'' = Some Form.initialState) ∧
  (∀ saved, App.form (App.loadSaved validity saved st) = App.form st).
Proof.
  split_and!.
  - done.
  - intros e fs. apply step_ignores_props.
  - unfold Form.run. apply feed_ignores_props.
  - unfold Form.run. by rewrite feed_notifies_nobody.
  - intros (Hd & Hv & _)%formEvents_frame.
    unfold App.generatorInput. by rewrite Hd.
  - intros H. destruct (importConfig_Some doc st) as (s & Hs & _ & Hf).
    rewrite Hs in H. by injection H as <-.
  - intros [[parsed|]|]; try done.
    unfold App.loadSaved, App.handleInputDataChange; simpl.
    by destruct (validity parsed).
Qed.

End Shell.

(** C8 as stated fails: importing the empty object gives a configuration
    that has no [days] member, where the defaults have five. *)
Lemma import_of_empty_object_has_no_defaults :
  ∃ st', App.importConfig Sample.accepting (Some (App.JObject ∅)) Sample.shell
         = Some st' ∧
         ¬ App.FallsBackToDefaults (App.JObject ∅) (App.inputData st').
Proof.
  destruct (importConfig_Some Sample.accepting (App.JObject ∅) Sample.shell)
    as (st' & H & Hd & _).
  exists st'. split; [done|]. rewrite Hd. intros Hfall.
  specialize (Hfall "days"
                (App.strings ["Monday"; "Tuesday"; "Wednesday"; "Thursday";
                              "Friday"])).
  discriminate Hfall; by vm_compute.
Qed.

(** Witness for C10: the sample edits in the freshly started shell, then
    an import. *)
Lemma form_is_constant_in_its_props_witness :
  let st' := default Sample.shell
               (App.formEvents Sample.accepting Sample.edits Sample.shell) in
  App.formEvents Sample.accepting Sample.edits Sample.shell = Some st' ∧
  App.inputData st' = App.JNull ∧
  App.generatorInput st' = None.
Proof.
  intros st'. split; [by vm_compute|].
  destruct (form_is_constant_in_its_props Sample.accepting
              Sample.props Sample.props Sample.edits Sample.shell st'
              (default Sample.shell
                 (App.importConfig Sample.accepting (Some (App.JObject ∅))
                                   Sample.shell))
              (App.JObject ∅))
    as (_ & Hedit & Himport & _).
  assert (Hi : App.importConfig Sample.accepting (Some (App.JObject ∅))
                 Sample.shell
               = Some (default Sample.shell
                         (App.importConfig Sample.accepting
                            (Some (App.JObject ∅)) Sample.shell)))
    by (by vm_compute).
  pose proof (Himport Hi) as _.
  destruct Hedit as (Hd & Hg & _); [by vm_compute|].
  split; [exact Hd|exact Hg].
Defined.


(** * Further properties of the code *)

(** ** The configuration form *)

Section FormProperties.

Context {Callback Config : Type} (props : Form.Props Callback Config).

(** X1.  [getAllSubjects] and [getAllLabSubjects] list, without
    repetition, exactly the names that some class lists and that are not
    blank after trimming (the names themselves are not trimmed). *)
Theorem canonical_subjects_spec (d : Form.InputData) :
  NoDup (Form.getAllSubjects d) ∧
  NoDup (Form.getAllLabSubjects d) ∧
  (∀ y, y ∈ Form.getAllSubjects d ↔
        Js.trim y ≠ "" ∧ ∃ c, c ∈ Form.classes d ∧ y ∈ Form.subjects c) ∧
  (∀ y, y ∈ Form.getAllLabSubjects d ↔
        Js.trim y ≠ "" ∧ ∃ c, c ∈ Form.classes d ∧ y ∈ Form.lab_subjects c).
Proof.
  split_and!.
  - apply getAllSubjects_NoDup.
  - apply getAllLabSubjects_NoDup.
  - apply getAllSubjects_elem.
  - apply getAllLabSubjects_elem.
Qed.

Lemma syncEffect_rest (st : Form.State) :
  let d := Form.inputData st in
  let d' := Form.inputData (Form.syncEffect st) in
  Form.classes d' = Form.classes d ∧
  Form.rooms d' = Form.rooms d ∧
  Form.labs d' = Form.labs d ∧
  Form.days d' = Form.days d ∧
  Form.slots d' = Form.slots d ∧
  Form.lecture_requirements d' = Form.lecture_requirements d ∧
  Form.teacher_unavailability d' = Form.teacher_unavailability d ∧
  Form.lab_capacity d' = Form.lab_capacity d ∧
  Form.constraints d' = Form.constraints d.
Proof.
  intros d d'. subst d'. unfold Form.syncEffect. fold d.
  destruct (reconcile_unfold (Form.getAllSubjects d)
              (Form.getAllLabSubjects d) st)
    as (m & t & r & n1 & _ & _ & _ & _ & ->).
  by split_and!.
Qed.

(** X2.  The auto-sync effect rewrites the three derived maps and nothing
    else: classes, rooms, labs, days, slots, the lab capacity and the
    constraints are kept, and so are the lecture requirements and the
    teacher unavailability, whose keys it never reconciles. *)
Theorem sync_touches_only_derived_maps (st : Form.State) :
  let d := Form.inputData st in
  let d' := Form.inputData (Form.syncEffect st) in
  Form.classes d' = Form.classes d ∧
  Form.rooms d' = Form.rooms d ∧
  Form.labs d' = Form.labs d ∧
  Form.days d' = Form.days d ∧
  Form.slots d' = Form.slots d ∧
  Form.lecture_requirements d' = Form.lecture_requirements d ∧
  Form.teacher_unavailability d' = Form.teacher_unavailability d ∧
  Form.lab_capacity d' = Form.lab_capacity d ∧
  Form.constraints d' = Form.constraints d.
Proof. apply syncEffect_rest. Qed.

Lemma parsedOr_nonzero parsed fallback :
  fallback ≠ 0%Z → Js.parsedOr parsed fallback ≠ 0%Z.
Proof.
  intros Hf. unfold Js.parsedOr. destruct parsed as [n|]; [|done].
  by case_decide.
Qed.

Lemma applyOtherEdit_NonZero e st st' :
  Form.NonZero (Form.inputData st) → Form.applyOtherEdit e st = Some st' →
  Form.NonZero (Form.inputData st').
Proof.
  intros Hst H.
  destruct e; simpl in H;
    try (injection H as <-; try destruct isLab; exact Hst).
  - injection H as <-. destruct Hst as (_ & Hrest).
    split; [|exact Hrest]. simpl. by apply parsedOr_nonzero.
  - unfold Form.toggleLabRoomAssignment in H.
    apply bind_Some in H as (rooms & _ & [= <-]). exact Hst.
  - unfold Form.addTeacher in H.
    destruct (Js.getProp _ subject); [|done|];
      injection H as <-; destruct isLab; exact Hst.
  - unfold Form.updateTeacher in H.
    destruct (Js.getProp _ subject); [|done..].
    injection H as <-. destruct isLab; exact Hst.
  - unfold Form.removeTeacher in H.
    destruct (Js.getProp _ subject); [|done..].
    injection H as <-. destruct isLab; exact Hst.
  - unfold Form.addTeacherUnavailability in H.
    destruct (Js.getProp _ teacherName); [|done|]; by injection H as <-.
  - unfold Form.updateTeacherUnavailability in H.
    destruct (Js.getProp _ teacherName); [|done..]; by injection H as <-.
  - unfold Form.removeTeacherUnavailability in H.
    destruct (Js.getProp _ teacherName); [|done..]; by injection H as <-.
  - injection H as <-. destruct Hst as (H0 & H1 & H2 & H3 & H4 & H5).
    unfold Form.NonZero. simpl.
    destruct e; simpl; split_and!; try done; by apply parsedOr_nonzero.
Qed.

Lemma applyClassEdit_rest e st :
  let d := Form.inputData st in
  let d1 := Form.inputData (Form.applyClassEdit e st) in
  Form.rooms d1 = Form.rooms d ∧ Form.labs d1 = Form.labs d ∧
  Form.days d1 = Form.days d ∧ Form.slots d1 = Form.slots d ∧
  Form.lecture_requirements d1 = Form.lecture_requirements d ∧
  Form.teacher_unavailability d1 = Form.teacher_unavailability d ∧
  Form.lab_capacity d1 = Form.lab_capacity d ∧
  Form.constraints d1 = Form.constraints d.
Proof. by destruct e. Qed.

(** X3.  Whatever is typed into the numeric fields, the lab capacity and
    the five numeric constraints of the form are never 0: an empty or
    non-numeric text and the number 0 all fall back to the field's
    default ([parseInt(...) || default]). *)
Theorem numeric_settings_never_zero (es : list Form.Event) (st : Form.State) :
  Form.next (Form.run props es) = Some st →
  Form.NonZero (Form.inputData st).
Proof.
  unfold Form.run.
  apply (feed_invariant props (λ st, Form.NonZero (Form.inputData st))).
  - intros e s s' Hs. destruct e as [c|o]; simpl.
    + intros [-> _]%settle_Some.
      destruct (syncEffect_rest (Form.applyClassEdit c s))
        as (_ & _ & _ & _ & _ & _ & _ & Hcap & Hcon).
      destruct (applyClassEdit_rest c s)
        as (_ & _ & _ & _ & _ & _ & Hcap1 & Hcon1).
      unfold Form.NonZero. rewrite Hcap, Hcon, Hcap1, Hcon1. exact Hs.
    + intros (s1 & H1 & [-> _]%rendered_Some)%bind_Some.
      by eapply applyOtherEdit_NonZero.
  - intros s. rewrite mount_state. intros [= <-]. by vm_compute.
Qed.

Lemma applyOtherEdit_days e st st' :
  Form.applyOtherEdit e st = Some st' →
  length (Form.days (Form.inputData st'))
  = length (Form.days (Form.inputData st)).
Proof.
  intros H.
  destruct e; simpl in H;
    try (injection H as <-; try destruct isLab; done).
  - unfold Form.toggleLabRoomAssignment in H.
    by apply bind_Some in H as (rooms & _ & [= <-]).
  - injection H as <-. simpl. by rewrite length_insert.
  - unfold Form.addTeacher in H.
    destruct (Js.getProp _ subject); [|done|];
      injection H as <-; by destruct isLab.
  - unfold Form.updateTeacher in H.
    destruct (Js.getProp _ subject); [|done..].
    injection H as <-. by destruct isLab.
  - unfold Form.removeTeacher in H.
    destruct (Js.getProp _ subject); [|done..].
    injection H as <-. by destruct isLab.
  - unfold Form.addTeacherUnavailability in H.
    destruct (Js.getProp _ teacherName); [|done|]; by injection H as <-.
  - unfold Form.updateTeacherUnavailability in H.
    destruct (Js.getProp _ teacherName); [|done..]; by injection H as <-.
  - unfold Form.removeTeacherUnavailability in H.
    destruct (Js.getProp _ teacherName); [|done..]; by injection H as <-.
Qed.

(** X4.  The form always has exactly five working days: a day can be
    renamed, but no handler adds or removes one. *)
Theorem five_days_always (es : list Form.Event) (st : Form.State) :
  Form.next (Form.run props es) = Some st →
  length (Form.days (Form.inputData st)) = 5.
Proof.
  unfold Form.run.
  apply (feed_invariant props
           (λ st, length (Form.days (Form.inputData st)) = 5)).
  - intros e s s' Hs. destruct e as [c|o]; simpl.
    + intros [-> _]%settle_Some.
      destruct (syncEffect_rest (Form.applyClassEdit c s))
        as (_ & _ & _ & -> & _).
      by destruct (applyClassEdit_rest c s) as (_ & _ & -> & _).
    + intros (s1 & H1 & [-> _]%rendered_Some)%bind_Some.
      by rewrite (applyOtherEdit_days _ _ _ H1).
  - intros s. rewrite mount_state. by intros [= <-].
Qed.

End FormProperties.

(** Witness for X3: 0 and an empty text typed into numeric fields. *)
Lemma numeric_settings_never_zero_witness :
  Form.NonZero (Form.inputData Sample.configured).
Proof.
  apply (numeric_settings_never_zero Sample.props Sample.settings
           Sample.configured).
  by vm_compute.
Defined.

(** Witness for X4: a run that renames the first day. *)
Lemma five_days_always_witness :
  length (Form.days (Form.inputData Sample.configured)) = 5.
Proof.
  apply (five_days_always Sample.props Sample.settings Sample.configured).
  by vm_compute.
Defined.

(** ** Lab-room and teacher handlers *)

Section Handlers.

Context {Callback Config : Type} (props : Form.Props Callback Config).

Lemma filter_all {A} (P : A → Prop) `{!∀ x, Decision (P x)} (l : list A) :
  (∀ x, x ∈ l → P x) → filter P l = l.
Proof.
  induction l as [|x l IH]; intros Hall; [done|].
  rewrite filter_cons_True by (apply Hall; set_solver).
  f_equal. apply IH. intros; apply Hall. set_solver.
Qed.

Lemma toggle_Some labSubject labRoom st st' :
  Form.toggleLabRoomAssignment labSubject labRoom st = Some st' →
  let old := Form.assignedRooms (Form.inputData st) labSubject in
  let new := if decide (labRoom ∈ old)
             then filter (λ room, room ≠ labRoom) old
             else old ++ [labRoom] in
  st' = {| Form.inputData :=
             Form.with_lab_rooms
               (<[labSubject := Js.Array (Form.nextRef st) new]>
                  (Form.lab_rooms (Form.inputData st)))
               (Form.inputData st);
           Form.nextRef := S (Form.nextRef st) |}.
Proof.
  unfold Form.toggleLabRoomAssignment, Form.assignedRooms, Js.getProp.
  intros H. apply bind_Some in H as (rooms & Hrooms & [= <-]).
  destruct (Form.lab_rooms (Form.inputData st) !! labSubject) as [a|].
  - by injection Hrooms as <-.
  - case_decide; [done|]. by injection Hrooms as <-.
Qed.

(** X5.  Ticking a lab room for a lab subject flips that room and no
    other: afterwards the room is assigned exactly if it was not before,
    every other room is assigned exactly if it was, the other subjects'
    assignments are the same objects, and the subject's list is a new
    array.  Ticking twice a room that was not assigned gives back the
    original list. *)
Theorem toggle_flips_one_room (labSubject labRoom : string)
    (st st' : Form.State) :
  Form.toggleLabRoomAssignment labSubject labRoom st = Some st' →
  let d := Form.inputData st in
  let d' := Form.inputData st' in
  let old := Form.assignedRooms d labSubject in
  let new := Form.assignedRooms d' labSubject in
  (labRoom ∈ new ↔ labRoom ∉ old) ∧
  (∀ room, room ≠ labRoom → (room ∈ new ↔ room ∈ old)) ∧
  (∀ other, other ≠ labSubject →
            Form.lab_rooms d' !! other = Form.lab_rooms d !! other) ∧
  Form.lab_rooms d' !! labSubject = Some (Js.Array (Form.nextRef st) new) ∧
  (labRoom ∉ old →
   ∀ st'', Form.toggleLabRoomAssignment labSubject labRoom st' = Some st'' →
           Form.assignedRooms (Form.inputData st'') labSubject = old).
Proof.
  intros Htog d d' old new. apply toggle_Some in Htog. fold d old in Htog.
  assert (Hnew : new = if decide (labRoom ∈ old)
                       then filter (λ room, room ≠ labRoom) old
                       else old ++ [labRoom]).
  { subst new d'. rewrite Htog. unfold Form.assignedRooms. simpl.
    by rewrite lookup_insert_eq. }
  split_and!.
  - rewrite Hnew. case_decide.
    + rewrite list_elem_of_filter. naive_solver.
    + set_solver.
  - intros room Hroom. rewrite Hnew. case_decide.
    + rewrite list_elem_of_filter. naive_solver.
    + set_solver.
  - intros other Ho. subst d'. rewrite Htog. simpl.
    by rewrite lookup_insert_ne.
  - subst d'. rewrite Htog at 1. simpl. rewrite lookup_insert_eq.
    by rewrite Hnew.
  - intros Hold st'' H2. apply toggle_Some in H2. rewrite H2.
    unfold Form.assignedRooms at 1. simpl. rewrite lookup_insert_eq. simpl.
    fold d' new.
    assert (Hn : new = old ++ [labRoom]) by (by rewrite Hnew, decide_False).
    rewrite Hn, decide_True by set_solver.
    rewrite filter_app, filter_all by (by intros x Hx ->).
    rewrite filter_cons_False by naive_solver. by rewrite app_nil_r.
Qed.

Lemma storeRoster_lookup isLab subject l st :
  Form.teachersOf isLab
    (Form.inputData (Form.storeRoster isLab subject l st)) subject = Some l.
Proof.
  unfold Form.teachersOf, Form.storeRoster, Form.storeNew.
  destruct isLab; simpl; by rewrite lookup_insert_eq.
Qed.

Lemma storeRoster_keys isLab subject l st :
  is_Some (Form.roster isLab (Form.inputData st) !! subject) →
  Form.keySets (Form.inputData (Form.storeRoster isLab subject l st))
  = Form.keySets (Form.inputData st) ∧
  Form.classes (Form.inputData (Form.storeRoster isLab subject l st))
  = Form.classes (Form.inputData st).
Proof.
  intros Hs%elem_of_dom.
  unfold Form.keySets, Form.storeRoster, Form.storeNew.
  destruct isLab; simpl in *; split; try done;
    rewrite dom_insert_L; repeat f_equal; set_solver.
Qed.

Lemma Synced_same_keys d d' :
  Form.keySets d' = Form.keySets d → Form.classes d' = Form.classes d →
  Form.Synced d → Form.Synced d'.
Proof.
  unfold Form.keySets, Form.Synced. intros [= -> -> ->] Hc.
  by destruct (getAllSubjects_classes d' d Hc) as [-> ->].
Qed.

Lemma storeRoster_spec isLab subject l st :
  let d := Form.inputData st in
  let d' := Form.inputData (Form.storeRoster isLab subject l st) in
  Form.roster isLab d'
  = <[subject := Js.Array (Form.nextRef st) l]> (Form.roster isLab d) ∧
  Form.OnlyRoster isLab d d' ∧
  Form.nextRef (Form.storeRoster isLab subject l st) = S (Form.nextRef st).
Proof.
  unfold Form.OnlyRoster, Form.storeRoster, Form.storeNew.
  by destruct isLab.
Qed.

Lemma blank_is_no_member : "" ∉ Js.objectPrototype.
Proof. apply (bool_decide_unpack _). by vm_compute. Qed.

Lemma render_of_inherited_teacher (d : Form.InputData) (teacher : string) :
  teacher ∈ Form.getAllTeachers d →
  Js.getProp (Form.teacher_unavailability d) teacher = Js.Inherited →
  Form.render d = None.
Proof.
  intros Hin Hp. unfold Form.render.
  destruct (if bool_decide _ then _ else _); [simpl|done].
  destruct (mapM _ (Form.getAllSubjects d)); [simpl|done].
  destruct (mapM _ (Form.getAllLabSubjects d)); [simpl|done].
  rewrite (mapM_None_2 _ (elements (Form.getAllTeachers d))); [done|].
  apply Exists_exists. exists teacher. split; [by apply elem_of_elements|].
  unfold Form.unavailabilityOf. by rewrite Hp.
Qed.

(** X6.  For a subject that has an entry in the roster, the updates of
    [addTeacher], [updateTeacher] and [removeTeacher] return and replace
    that entry by a new array: the old list with a trailing placeholder,
    with the value at the index, or without the index (an index out of
    range changes nothing).  Every other entry of that roster is the
    array it was, the other roster, the lab rooms and all other fields
    are unchanged; so the key sets of the three maps stay as they are,
    and the maps stay consistent with the classes if they were.  The
    render that follows may still throw: it does when the value typed,
    trimmed, is a member of [Object.prototype] of which
    [teacher_unavailability] has no entry. *)
Theorem teacher_edits_keep_keys (subject : string) (isLab : bool)
    (st : Form.State) (l : list string) :
  Form.teachersOf isLab (Form.inputData st) subject = Some l →
  let d := Form.inputData st in
  let ok (result : option Form.State) (l' : list string) : Prop :=
    ∃ st', result = Some st' ∧
           Form.teachersOf isLab (Form.inputData st') subject = Some l' ∧
           Form.roster isLab (Form.inputData st')
           = <[subject := Js.Array (Form.nextRef st) l']>
               (Form.roster isLab d) ∧
           (∀ k, k ≠ subject →
                 Form.roster isLab (Form.inputData st') !! k
                 = Form.roster isLab d !! k) ∧
           Form.OnlyRoster isLab d (Form.inputData st') ∧
           Form.nextRef st' = S (Form.nextRef st) ∧
           Form.keySets (Form.inputData st') = Form.keySets d ∧
           (Form.Synced d → Form.Synced (Form.inputData st')) in
  ok (Form.addTeacher subject isLab st) (l ++ [""]) ∧
  (∀ i v, ok (Form.updateTeacher subject i v isLab st) (<[i := v]> l)) ∧
  (∀ i, ok (Form.removeTeacher subject i isLab st) (delete i l)) ∧
  (∀ i v, i < length l → Js.trim v ∈ Js.objectPrototype →
          Form.teacher_unavailability d !! Js.trim v = None →
          Form.next
            (Form.step props
               (Form.Other (Form.UpdateTeacher subject i v isLab)) st)
          = None).
Proof.
  intros Hl d ok. unfold Form.teachersOf in Hl.
  apply fmap_Some in Hl as (a & Ha & ->). fold d in Ha.
  assert (Hp : Js.getProp (Form.roster isLab d) subject = Js.Own a).
  { unfold Js.getProp. by rewrite Ha. }
  assert (Hok : ∀ l', ok (Some (Form.storeRoster isLab subject l' st)) l').
  { intros l'. eexists. split; [done|].
    destruct (storeRoster_keys isLab subject l' st) as [Hk Hc]; [by eexists|].
    destruct (storeRoster_spec isLab subject l' st) as (Hr & Ho & Hn).
    split_and!; [apply storeRoster_lookup|done| |done|done|done|].
    - intros k Hk'. rewrite Hr. by apply lookup_insert_ne.
    - by apply Synced_same_keys. }
  split_and!.
  - unfold Form.addTeacher. fold d. rewrite Hp. apply Hok.
  - intros i v. unfold Form.updateTeacher. fold d. rewrite Hp. apply Hok.
  - intros i. unfold Form.removeTeacher. fold d. rewrite Hp. apply Hok.
  - intros i v Hi Hv Hnone. simpl. unfold Form.updateTeacher. fold d.
    rewrite Hp. simpl. unfold Form.rendered.
    destruct (storeRoster_spec isLab subject (<[i := v]> (Js.items a)) st)
      as (Hr & Ho & _).
    rewrite (render_of_inherited_teacher _ (Js.trim v)); [done| |].
    + apply getAllTeachers_elem.
      assert (Hin : Js.trim v ∈ Form.teacherNames
                      (Form.roster isLab
                         (Form.inputData
                            (Form.storeRoster isLab subject
                               (<[i := v]> (Js.items a)) st)))).
      { apply teacherNames_elem.
        exists subject, (Js.Array (Form.nextRef st) (<[i := v]> (Js.items a))), v.
        split_and!;
          [|simpl|by intros E; rewrite E in Hv; apply blank_is_no_member|done].
        - rewrite Hr. apply lookup_insert_eq.
        - eapply list_elem_of_lookup_2. by apply list_lookup_insert_eq. }
      by destruct isLab; [right|left].
    + destruct Ho as (_ & _ & _ & _ & _ & _ & _ & -> & _).
      unfold Js.getProp. fold d. rewrite Hnone. by rewrite decide_True.
Qed.

(** X7.  For a subject without an entry in the roster, changing or
    removing a teacher throws (the handler calls [map] / [filter] on
    what is not an array), and adding one creates the entry [""] unless
    the subject name is a member of [Object.prototype], in which case
    it throws too. *)
Theorem teacher_edit_without_entry (subject : string) (isLab : bool)
    (st : Form.State) :
  Form.roster isLab (Form.inputData st) !! subject = None →
  (∀ i v, Form.updateTeacher subject i v isLab st = None) ∧
  (∀ i, Form.removeTeacher subject i isLab st = None) ∧
  (subject ∈ Js.objectPrototype → Form.addTeacher subject isLab st = None) ∧
  (subject ∉ Js.objectPrototype →
   ∃ st', Form.addTeacher subject isLab st = Some st' ∧
          Form.teachersOf isLab (Form.inputData st') subject = Some [""]).
Proof.
  intros Hn.
  unfold Form.updateTeacher, Form.removeTeacher, Form.addTeacher, Js.getProp.
  rewrite Hn. split_and!.
  - intros i v. by case_decide.
  - intros i. by case_decide.
  - intros Hs. by rewrite decide_True.
  - intros Hs. rewrite decide_False by done. eexists. split; [done|].
    apply storeRoster_lookup.
Qed.

(** X8.  Removing the subject row that was just added to a class gives
    back the state as it was. *)
Theorem add_then_remove_subject_row (classIndex : nat) (isLab : bool)
    (st : Form.State) (c : Form.ClassItem) :
  Form.classes (Form.inputData st) !! classIndex = Some c →
  let field := if isLab then Form.lab_subjects c else Form.subjects c in
  Form.removeSubjectFromClass classIndex (length field) isLab
    (Form.addSubjectToClass classIndex isLab st) = st.
Proof.
  intros Hc field.
  unfold Form.removeSubjectFromClass, Form.addSubjectToClass, Form.update.
  simpl. rewrite list_alter_alter_eq.
  assert (Hid : alter (Form.setSubjectField isLab
                         (λ l, delete (length field) l)
                       ∘ Form.setSubjectField isLab (λ l, l ++ [""]))
                      classIndex (Form.classes (Form.inputData st))
                = Form.classes (Form.inputData st)).
  { apply list_eq. intros j. rewrite list_lookup_alter.
    case_decide as Hj; [subst j|done]. rewrite Hc. simpl. f_equal.
    subst field. destruct c as [n subs labs secs], isLab; simpl;
      f_equal; rewrite delete_take_drop, take_app_length,
        drop_ge by (rewrite length_app; simpl; lia); by rewrite app_nil_r. }
  rewrite Hid. by destruct st as [[] ?].
Qed.

Lemma alter_keeps_names (f : Form.ClassItem → Form.ClassItem) (i : nat)
    (cs : list Form.ClassItem) (y : string)
    (field : Form.ClassItem → list string) :
  (∀ c, y ∈ field (f c) ↔ y ∈ field c) →
  (∃ c, c ∈ alter f i cs ∧ y ∈ field c) ↔ (∃ c, c ∈ cs ∧ y ∈ field c).
Proof.
  intros Hf. split.
  - intros (c & [j Hj]%list_elem_of_lookup & Hy).
    rewrite list_lookup_alter in Hj. case_decide.
    + apply fmap_Some in Hj as (c0 & Hc0 & ->). exists c0.
      split; [by eapply list_elem_of_lookup_2|by apply Hf].
    + exists c. split; [by eapply list_elem_of_lookup_2|done].
  - intros (c & [j Hj]%list_elem_of_lookup & Hy).
    destruct (decide (i = j)) as [->|Hij].
    + exists (f c). split; [|by apply Hf].
      apply list_elem_of_lookup. exists j.
      by rewrite list_lookup_alter_eq, Hj.
    + exists c. split; [|done]. apply list_elem_of_lookup. exists j.
      by rewrite list_lookup_alter_ne.
Qed.

Lemma keepsSubjectNames_canonical e st :
  Form.keepsSubjectNames e = true →
  let d := Form.inputData st in
  let d1 := Form.inputData (Form.applyClassEdit e st) in
  (∀ y, y ∈ Form.getAllSubjects d1 ↔ y ∈ Form.getAllSubjects d) ∧
  (∀ y, y ∈ Form.getAllLabSubjects d1 ↔ y ∈ Form.getAllLabSubjects d).
Proof.
  intros He d d1. subst d1.
  split; intros y; rewrite ?getAllSubjects_elem, ?getAllLabSubjects_elem;
    (split; intros [Hy Hc]; (split; [done|]); revert Hc);
    destruct e; try done; simpl;
    rewrite ?alter_keeps_names; try done;
    try (by intros c; destruct isLab; simpl; set_solver);
    try (intros (c & [Hc| ->%list_elem_of_singleton]%elem_of_app & Hin);
         [by exists c|by inversion Hin]);
    try (intros (c & Hc & Hin); exists c; split; [|done]; set_solver).
Qed.

(** X9.  A class edit that cannot change a subject name (adding a class,
    renaming one, adding a blank subject row, editing sections) leaves
    the three derived maps exactly as they are, teachers entered and
    array identities included, when their keys were consistent with the
    classes. *)
Theorem other_class_edits_keep_rosters (e : Form.ClassEdit)
    (st st' : Form.State) :
  Form.keepsSubjectNames e = true →
  Form.Synced (Form.inputData st) →
  Form.next (Form.step props (Form.Class e) st) = Some st' →
  Form.teachers (Form.inputData st') = Form.teachers (Form.inputData st) ∧
  Form.lab_teachers (Form.inputData st')
  = Form.lab_teachers (Form.inputData st) ∧
  Form.lab_rooms (Form.inputData st') = Form.lab_rooms (Form.inputData st) ∧
  Form.nextRef st' = Form.nextRef st.
Proof.
  intros He (Ht & Hl & Hr) Hstep. simpl in Hstep.
  apply settle_Some in Hstep as [-> _].
  destruct (applyClassEdit_frame e st) as (Et & El & Er & En).
  destruct (keepsSubjectNames_canonical e st He) as [Hc Hcl].
  unfold Form.syncEffect. rewrite reconcile_fixed_point.
  - done.
  - rewrite Et, Ht. apply set_eq. intros y.
    rewrite !elem_of_list_to_set. symmetry. apply Hc.
  - rewrite El, Hl. apply set_eq. intros y.
    rewrite !elem_of_list_to_set. symmetry. apply Hcl.
  - rewrite Er, Hr. apply set_eq. intros y.
    rewrite !elem_of_list_to_set. symmetry. apply Hcl.
Qed.

End Handlers.

(** Witness for X5: a first room is ticked for a lab subject. *)
Lemma toggle_flips_one_room_witness :
  let st' := default Sample.edited
               (Form.toggleLabRoomAssignment "Chemistry Lab" "L1"
                  Sample.edited) in
  "L1" ∈ Form.assignedRooms (Form.inputData st') "Chemistry Lab".
Proof.
  intros st'.
  destruct (toggle_flips_one_room "Chemistry Lab" "L1" Sample.edited st')
    as (Hflip & _); [by vm_compute|].
  apply Hflip. vm_compute. intros Hin. inversion Hin.
Defined.

(** Witness for X6: a second teacher for Maths. *)
Lemma teacher_edits_keep_keys_witness :
  (∃ st', Form.addTeacher "Maths" false Sample.edited = Some st' ∧
          Form.teachersOf false (Form.inputData st') "Maths"
          = Some ["Dr.X"; ""]) ∧
  Form.next
    (Form.step Sample.props
       (Form.Other (Form.UpdateTeacher "Maths" 0 "toString" false))
       Sample.edited)
  = None.
Proof.
  destruct (teacher_edits_keep_keys Sample.props "Maths" false Sample.edited
              ["Dr.X"])
    as ((st' & Hadd & Hl & _) & _ & _ & Hthrow); [by vm_compute|].
  split.
  - exists st'. split; [exact Hadd|exact Hl].
  - apply Hthrow.
    + simpl. lia.
    + apply (bool_decide_unpack _). by vm_compute.
    + by vm_compute.
Defined.

(** Witness for X7: a subject the form does not know. *)
Lemma teacher_edit_without_entry_witness :
  Form.updateTeacher "Ghost" 0 "Dr.Y" false Sample.edited = None.
Proof.
  destruct (teacher_edit_without_entry "Ghost" false Sample.edited)
    as (Hupdate & _); [by vm_compute|].
  apply Hupdate.
Defined.

(** Witness for X8: a row added to and removed from the first class. *)
Lemma add_then_remove_subject_row_witness :
  Form.removeSubjectFromClass 0 1 false
    (Form.addSubjectToClass 0 false Sample.edited) = Sample.edited.
Proof.
  apply (add_then_remove_subject_row 0 false Sample.edited
           {| Form.name := ""; Form.subjects := ["Maths"];
              Form.lab_subjects := [];
              Form.sections := [Form.newSection] |}).
  by vm_compute.
Defined.

(** Witness for X9: a second class is added to the edited form. *)
Lemma other_class_edits_keep_rosters_witness :
  let st' := default Sample.edited
               (Form.next (Form.step Sample.props (Form.Class Form.AddClass)
                                     Sample.edited)) in
  Form.teachers (Form.inputData st')
  = Form.teachers (Form.inputData Sample.edited).
Proof.
  intros st'.
  destruct (other_class_edits_keep_rosters Sample.props Form.AddClass
              Sample.edited st') as (Ht & _); [done|by vm_compute..|].
  exact Ht.
Defined.

(** ** The solver client *)

Section Client.

Context {Config Seed Stats Unfulfilled : Type}.
Context (env : Api.Env Config Seed Stats Unfulfilled) (inputData : Config).

Lemma variantOf_Some i v :
  Api.variantOf env inputData i = Some v →
  Api.id v = i + 1 ∧ Api.name v = "Version " +:+ pretty (i + 1) ∧
  Api.failureOf env inputData i = None.
Proof.
  unfold Api.variantOf, Api.failureOf.
  destruct (Api.generateTimetable _); [done|]. by intros [= <-].
Qed.

Lemma variantOf_None i :
  Api.variantOf env inputData i = None →
  ∃ f, Api.failureOf env inputData i = Some f ∧ Api.variation f = i + 1.
Proof.
  unfold Api.variantOf, Api.failureOf.
  destruct (Api.generateTimetable _); [|done]. intros _. by eexists.
Qed.

Lemma numbers_of_omap (l : list nat) :
  (Api.id <$> omap (Api.variantOf env inputData) l) ++
  (Api.variation <$> omap (Api.failureOf env inputData) l)
  ≡ₚ (λ i, i + 1) <$> l.
Proof.
  induction l as [|i l IH]; [done|]. cbn [omap list_omap fmap list_fmap].
  destruct (Api.variantOf env inputData i) as [v|] eqn:Hv.
  - destruct (variantOf_Some i v Hv) as (Hid & _ & ->). simpl.
    rewrite Hid. by f_equiv.
  - destruct (variantOf_None i Hv) as (f & -> & Hf). simpl.
    rewrite Hf, <- Permutation_middle. by f_equiv.
Qed.

Lemma ids_increasing (a n : nat) :
  StronglySorted lt (Api.id <$> omap (Api.variantOf env inputData) (seq a n)) ∧
  Forall (lt a) (Api.id <$> omap (Api.variantOf env inputData) (seq a n)).
Proof.
  revert a. induction n as [|n IH]; intros a; [by split; constructor|].
  cbn [seq omap list_omap].
  destruct (IH (S a)) as [Hs Hf].
  assert (Hf' : Forall (lt (a + 1))
                  (Api.id <$> omap (Api.variantOf env inputData)
                                   (seq (S a) n))).
  { eapply Forall_impl; [exact Hf|]. simpl. lia. }
  destruct (Api.variantOf env inputData a) as [v|] eqn:Hv; simpl.
  - destruct (variantOf_Some a v Hv) as (Hid & _). rewrite Hid.
    split; [by constructor|]. constructor; [lia|].
    eapply Forall_impl; [exact Hf|]. simpl. lia.
  - split; [done|]. eapply Forall_impl; [exact Hf|]. simpl. lia.
Qed.

Lemma variations_increasing (a n : nat) :
  StronglySorted lt
    (Api.variation <$> omap (Api.failureOf env inputData) (seq a n)) ∧
  Forall (lt a)
    (Api.variation <$> omap (Api.failureOf env inputData) (seq a n)).
Proof.
  revert a. induction n as [|n IH]; intros a; [by split; constructor|].
  cbn [seq omap list_omap].
  destruct (IH (S a)) as [Hs Hf].
  destruct (Api.variantOf env inputData a) as [v|] eqn:Hv; simpl.
  - destruct (variantOf_Some a v Hv) as (_ & _ & ->).
    split; [done|]. eapply Forall_impl; [exact Hf|]. simpl. lia.
  - destruct (variantOf_None a Hv) as (f & -> & Hfa). simpl. rewrite Hfa.
    split.
    + constructor; [done|]. eapply Forall_impl; [exact Hf|]. simpl. lia.
    + constructor; [lia|]. eapply Forall_impl; [exact Hf|]. simpl. lia.
Qed.

Lemma version_name_inj : Inj (=) (=) (λ k : nat, "Version " +:+ pretty k).
Proof.
  intros x y Hxy. apply (inj (String.app "Version ")) in Hxy.
  by apply (inj pretty) in Hxy.
Qed.

(** X10.  In every batch, failures or not, the ids of the variants and
    the numbers of the recorded failures together are 1, ..., count, each
    once; both lists are increasing; every variant is named "Version"
    followed by its id, so no two variants of a batch share a name. *)
Theorem batch_numbers_partition (count : nat) :
  (Api.id <$> Api.results
     (Api.generateMultipleTimetables env inputData count)) ++
  (Api.variation <$> Api.errors
     (Api.generateMultipleTimetables env inputData count))
  ≡ₚ seq 1 count ∧
  StronglySorted lt
    (Api.id <$> Api.results
       (Api.generateMultipleTimetables env inputData count)) ∧
  StronglySorted lt
    (Api.variation <$> Api.errors
       (Api.generateMultipleTimetables env inputData count)) ∧
  Forall (λ v, Api.name v = "Version " +:+ pretty (Api.id v))
         (Api.results (Api.generateMultipleTimetables env inputData count)) ∧
  NoDup (Api.name <$> Api.results
           (Api.generateMultipleTimetables env inputData count)).
Proof.
  rewrite batch_spec. simpl.
  assert (Hnames : Forall (λ v, Api.name v = "Version " +:+ pretty (Api.id v))
                     (omap (Api.variantOf env inputData) (seq 0 count))).
  { apply Forall_forall. intros v (i & _ & Hi)%list_elem_of_omap.
    destruct (variantOf_Some i v Hi) as (Hid & Hname & _).
    by rewrite Hid, Hname. }
  split_and!.
  - rewrite numbers_of_omap.
    assert (Hseq : (λ i, i + 1) <$> seq 0 count = seq 1 count).
    { rewrite <- fmap_S_seq. apply list_fmap_ext. intros _ i _. lia. }
    by rewrite Hseq.
  - apply ids_increasing.
  - apply variations_increasing.
  - exact Hnames.
  - set (vs := omap (M := list) (Api.variantOf env inputData) (seq 0 count))
      in *.
    assert (Hext : Api.name <$> vs =
                   ((λ k : nat, "Version " +:+ pretty k) ∘ Api.id) <$> vs).
    { apply list_fmap_ext. intros i v Hv. simpl.
      rewrite Forall_forall in Hnames.
      apply Hnames. by eapply list_elem_of_lookup_2. }
    rewrite Hext, list_fmap_compose.
    apply (@NoDup_fmap_2 _ _ _ version_name_inj).
    destruct (ids_increasing 0 count) as [Hs _]. fold vs in Hs.
    clear Hnames Hext. induction Hs as [|x l Hs IH Hx]; constructor; [|done].
    intros Hin. rewrite Forall_forall in Hx. specialize (Hx x Hin). lia.
Qed.

(** X11.  [generateTimetable] returns the body of a reply exactly when
    the status is OK, the body decodes and its [error] member is absent
    or the empty string; [validateInput] returns every body
    [generateTimetable] returns and also the bodies that report an error. *)
Theorem client_accepts (reply : Api.Reply (Api.TimetableData Stats Unfulfilled))
    (data : Api.TimetableData Stats Unfulfilled) :
  (Api.generateTimetable reply = inr data ↔
   ∃ status statusText,
     reply = Api.Responded true status statusText (inr data) ∧
     (Api.error data = None ∨ Api.error data = Some "")) ∧
  (Api.validateInput reply = inr data ↔
   ∃ status statusText,
     reply = Api.Responded true status statusText (inr data)) ∧
  (Api.generateTimetable reply = inr data →
   Api.validateInput reply = inr data).
Proof.
  assert (Hg : Api.generateTimetable reply = inr data ↔
               ∃ status statusText,
                 reply = Api.Responded true status statusText (inr data) ∧
                 (Api.error data = None ∨ Api.error data = Some "")).
  { unfold Api.generateTimetable, Api.errorOf.
    destruct reply as [m|[] status text [m|d]];
      try (split; [done|by intros (? & ? & ? & _)]).
    destruct (Api.error d) as [e|] eqn:He.
    - case_decide as Hempty.
      + subst e. split.
        * intros [= ->]. eauto 6.
        * intros (? & ? & ? & _). by simplify_eq.
      + split; [done|]. intros (? & ? & ? & [?|?]); simplify_eq; congruence.
    - split.
      + intros [= ->]. eauto 6.
      + intros (? & ? & ? & _). by simplify_eq. }
  assert (Hv : Api.validateInput reply = inr data ↔
               ∃ status statusText,
                 reply = Api.Responded true status statusText (inr data)).
  { unfold Api.validateInput.
    destruct reply as [m|[] status text [m|d]];
      try (split; [done|by intros (? & ? & ?)]).
    split.
    - intros [= ->]. eauto.
    - intros (? & ? & ?). by simplify_eq. }
  split_and!; [exact Hg|exact Hv|].
  intros (status & text & -> & _)%Hg. apply Hv. eauto.
Qed.

End Client.

(** ** The generator's handlers *)

Section GeneratorHandlers.

Context {Config Seed Stats Unfulfilled : Type}.
Context (env : Api.Env Config Seed Stats Unfulfilled).
Context (inputData : option Config).

Local Abbreviation State := (Generator.State Stats Unfulfilled).
Local Abbreviation System := (Generator.System Config Stats Unfulfilled).

(** X12.  A repair the solver refuses (or that fails in transit) leaves
    the variants and the selection as they were, clears the loading
    flag and reports the message behind a fixed prefix. *)
Theorem reset_failure_keeps_variants (teacher day slot : string)
    (st : State) (v : Api.Variant Stats Unfulfilled) (message : string) :
  Generator.timetables st !! Generator.currentTimetable st = Some v →
  Api.resetTeacher
    (Api.repair env
       {| Api.r_teacher := teacher; Api.r_day := day; Api.r_slot := slot;
          Api.r_inputData := inputData;
          Api.r_timetable := Api.timetable (Api.data v) |})
  = inl message →
  Generator.handleResetTeacher env inputData teacher day slot st
  = {| Generator.timetables := Generator.timetables st;
       Generator.currentTimetable := Generator.currentTimetable st;
       Generator.loading := false;
       Generator.error := Some ("Failed to reset teacher: " +:+ message);
       Generator.generationCount := Generator.generationCount st |}.
Proof.
  intros Hv Hreply. unfold Generator.handleResetTeacher.
  rewrite (resetStart_Some _ _ _ _ _ v Hv), Hreply. done.
Qed.

(** X13.  With no variant at the selected index the handler returns
    before any setter and before the request: the state is unchanged,
    whatever the solver would have answered, and no call is started. *)
Theorem reset_without_variant_is_noop (teacher day slot : string)
    (st : State) :
  Generator.timetables st !! Generator.currentTimetable st = None →
  Generator.handleResetTeacher env inputData teacher day slot st = st ∧
  Generator.resetStart inputData teacher day slot st = None ∧
  ∀ pending,
    Generator.step env inputData (Generator.ClickTeacher teacher day slot)
      {| Generator.ui := st; Generator.inFlight := pending |} = None.
Proof.
  intros Hv.
  assert (Hstart : Generator.resetStart inputData teacher day slot st = None).
  { unfold Generator.resetStart. rewrite Hv. by destruct (Generator.timetables st). }
  split_and!; [|done|].
  - unfold Generator.handleResetTeacher. by rewrite Hstart.
  - intros pending. simpl. rewrite Hstart. by destruct (Generator.offersTeacher _ _ _ _).
Qed.

Lemma handleResetTeacher_success (teacher day slot : string) (st : State)
    (v : Api.Variant Stats Unfulfilled)
    (resetResult : Api.TimetableData Stats Unfulfilled) :
  Generator.timetables st !! Generator.currentTimetable st = Some v →
  Api.resetTeacher
    (Api.repair env
       {| Api.r_teacher := teacher; Api.r_day := day; Api.r_slot := slot;
          Api.r_inputData := inputData;
          Api.r_timetable := Api.timetable (Api.data v) |})
  = inr resetResult →
  Generator.handleResetTeacher env inputData teacher day slot st
  = {| Generator.timetables :=
         <[Generator.currentTimetable st :=
             Generator.modified v resetResult]> (Generator.timetables st);
       Generator.currentTimetable := Generator.currentTimetable st;
       Generator.loading := false;
       Generator.error := Generator.error st;
       Generator.generationCount := Generator.generationCount st |}.
Proof.
  intros Hv Hreply. unfold Generator.handleResetTeacher.
  rewrite (resetStart_Some _ _ _ _ _ v Hv), Hreply. done.
Qed.

(** X14.  Repairs accumulate: after [n] repairs of the selected variant
    that all succeed its name carries [n] copies of " (Modified)", its
    id and time stamp are the original ones, and the list has the same
    length and the same variants at every other index. *)
Theorem repeated_repairs_stack_suffix (teacher day slot : string)
    (st : State) (v : Api.Variant Stats Unfulfilled) (n : nat) :
  (∀ request, ∃ resetResult,
     Api.resetTeacher (Api.repair env request) = inr resetResult) →
  Generator.timetables st !! Generator.currentTimetable st = Some v →
  let st' := Nat.iter n
               (Generator.handleResetTeacher env inputData teacher day slot)
               st in
  Generator.currentTimetable st' = Generator.currentTimetable st ∧
  length (Generator.timetables st') = length (Generator.timetables st) ∧
  (∀ j, j ≠ Generator.currentTimetable st →
        Generator.timetables st' !! j = Generator.timetables st !! j) ∧
  ∃ v', Generator.timetables st' !! Generator.currentTimetable st = Some v' ∧
        Api.name v' = Nat.iter n (λ s, s +:+ " (Modified)") (Api.name v) ∧
        Api.id v' = Api.id v ∧
        Api.generated_at v' = Api.generated_at v.
Proof.
  intros Hrepair Hv. induction n as [|n IH]; simpl.
  - split_and!; try done. by exists v.
  - destruct IH as (Hcur & Hlen & Hothers & v' & Hv' & Hname & Hid & Hat).
    set (st' := Nat.iter n _ st) in *.
    rewrite <- Hcur in Hv'.
    destruct (Hrepair
                {| Api.r_teacher := teacher; Api.r_day := day;
                   Api.r_slot := slot; Api.r_inputData := inputData;
                   Api.r_timetable := Api.timetable (Api.data v') |})
      as [resetResult Hreply].
    rewrite (handleResetTeacher_success _ _ _ _ v' resetResult Hv' Hreply).
    simpl. split_and!.
    + done.
    + by rewrite length_insert.
    + intros j Hj. rewrite list_lookup_insert_ne by congruence. by apply Hothers.
    + exists (Generator.modified v' resetResult). split_and!.
      * rewrite Hcur. apply list_lookup_insert_eq.
        rewrite <- Hcur. by eapply lookup_lt_Some.
      * simpl. by rewrite Hname.
      * done.
      * done.
Qed.

(** X15.  A generation replaces the list: afterwards the variants are
    exactly those of the new batch, so the previous ones are gone even
    when every request of the batch failed; the loading flag is clear
    and the chosen count kept; the first variant is selected when there
    is one, and the old index is kept when there is none. *)
Theorem generate_replaces_variants (config : Config) (st : State) :
  let batch := Api.generateMultipleTimetables env config
                 (Generator.generationCount st) in
  let st' := Generator.generateMultipleTimetables env (Some config) st in
  Generator.timetables st' = Api.results batch ∧
  Generator.loading st' = false ∧
  Generator.generationCount st' = Generator.generationCount st ∧
  (Api.results batch ≠ [] → Generator.currentTimetable st' = 0) ∧
  (Api.results batch = [] →
   Generator.currentTimetable st' = Generator.currentTimetable st).
Proof.
  intros batch st'. subst st'.
  unfold Generator.generateMultipleTimetables, Generator.generateFinish.
  simpl. fold batch. destruct (Api.results batch); simpl; split_and!; done.
Qed.





End GeneratorHandlers.

(** ** The name of an exported file *)

Lemma noWhiteSpace_app (s t : string) :
  Js.noWhiteSpace (s +:+ t) = Js.noWhiteSpace s && Js.noWhiteSpace t.
Proof.
  induction s as [|c s IH]; simpl; [done|]. rewrite IH.
  by rewrite andb_assoc.
Qed.

Lemma replaceRuns_noWhiteSpace (replacement : string) (inRun : bool)
    (s : string) :
  Js.noWhiteSpace replacement = true →
  Js.noWhiteSpace (Js.replaceRuns replacement inRun s) = true.
Proof.
  intros Hr. revert inRun. induction s as [|c s IH]; intros inRun; simpl;
    [done|].
  destruct (Js.isWhiteSpace c) eqn:Hc.
  - destruct inRun; [done|]. by rewrite noWhiteSpace_app, Hr, IH.
  - simpl. by rewrite Hc, IH.
Qed.

Lemma replaceRuns_id (replacement : string) (inRun : bool) (s : string) :
  Js.noWhiteSpace s = true → Js.replaceRuns replacement inRun s = s.
Proof.
  revert inRun. induction s as [|c s IH]; intros inRun; simpl; [done|].
  intros [Hc Hs]%andb_true_iff. apply negb_true_iff in Hc. rewrite Hc.
  by rewrite IH.
Qed.

(** X19.  The file name of an export contains no white space when the
    extension has none, whatever the variant's name; replacing is
    idempotent, and a name that has no white space is kept as it is. *)
Theorem download_name_has_no_white_space {Stats Unfulfilled : Type}
    (v : Api.Variant Stats Unfulfilled) (format : string) :
  Js.noWhiteSpace format = true →
  Js.noWhiteSpace (Generator.downloadName v format) = true ∧
  Js.replaceWhiteSpace "_" (Js.replaceWhiteSpace "_" (Api.name v))
  = Js.replaceWhiteSpace "_" (Api.name v) ∧
  (Js.noWhiteSpace (Api.name v) = true →
   Generator.downloadName v format
   = "timetable_" +:+ Api.name v +:+ "." +:+ format).
Proof.
  intros Hf. unfold Generator.downloadName, Js.replaceWhiteSpace.
  split_and!.
  - rewrite !noWhiteSpace_app, Hf, replaceRuns_noWhiteSpace by done. done.
  - apply replaceRuns_id. by apply replaceRuns_noWhiteSpace.
  - intros Hn. by rewrite replaceRuns_id.
Qed.

(** X20.  With overlapping repairs the Export button can be left without
    a variant: a repair started on a list of two returns after a batch
    of five has replaced the list and the fifth tab was chosen; the old
    list of two comes back, the index stays at the fifth tab, and the
    button, still rendered, throws when clicked. *)
Theorem stale_repair_breaks_export :
  ∃ s, Generator.run Sample.solver (Some tt) Sample.staleRepair
         Generator.start = Some s ∧
       length (Generator.timetables (Generator.ui s)) = 2 ∧
       Generator.currentTimetable (Generator.ui s) = 4 ∧
       Generator.clickExport (Generator.ui s) = Some None ∧
       ¬ Generator.Selected (Generator.ui s).
Proof.
  eexists. split; [by vm_compute|]. split_and!; try by vm_compute.
  unfold Generator.Selected. vm_compute. intros [?|?]; [done|lia].
Qed.

(** Witness for X12: the solver answers the repair with an error. *)
Lemma reset_failure_keeps_variants_witness :
  Generator.handleResetTeacher Sample.refusing (Some tt)
    "Dr.X" "Monday" "9:00-9:55" Sample.oneVariant
  = {| Generator.timetables := Generator.timetables Sample.oneVariant;
       Generator.currentTimetable := 0;
       Generator.loading := false;
       Generator.error := Some "Failed to reset teacher: Teacher not found";
       Generator.generationCount := 2 |}.
Proof.
  exact (reset_failure_keeps_variants Sample.refusing (Some tt)
           "Dr.X" "Monday" "9:00-9:55" Sample.oneVariant Sample.version1
           "Teacher not found" eq_refl eq_refl).
Defined.

(** Witness for X13: a repair before anything was generated. *)
Lemma reset_without_variant_is_noop_witness :
  Generator.handleResetTeacher Sample.solver (Some tt)
    "Dr.X" "Monday" "9:00-9:55" Generator.initialState
  = Generator.initialState.
Proof.
  exact (proj1 (reset_without_variant_is_noop Sample.solver (Some tt)
                  "Dr.X" "Monday" "9:00-9:55" Generator.initialState
                  eq_refl)).
Defined.

(** Witness for X14: the first variant repaired twice. *)
Lemma repeated_repairs_stack_suffix_witness :
  ∃ v', Generator.timetables
          (Nat.iter 2
             (Generator.handleResetTeacher Sample.solver (Some tt)
                "Dr.X" "Monday" "9:00-9:55") Sample.oneVariant)
        !! 0 = Some v' ∧
        Api.name v' = "Version 1 (Modified) (Modified)" ∧
        Api.id v' = 1.
Proof.
  destruct (repeated_repairs_stack_suffix Sample.solver (Some tt)
              "Dr.X" "Monday" "9:00-9:55" Sample.oneVariant Sample.version1 2
              (λ _, ex_intro _ (Sample.dataWith [Sample.entryAt "9:55-10:50"])
                      eq_refl)
              eq_refl)
    as (_ & _ & _ & v' & Hv' & Hname & Hid & _).
  exists v'. split; [exact Hv'|]. split; [exact Hname|exact Hid].
Defined.




(** Witness for X19: the file of "Version 1". *)
Lemma download_name_has_no_white_space_witness :
  Js.noWhiteSpace (Generator.downloadName Sample.version1 "json") = true.
Proof.
  exact (proj1 (download_name_has_no_white_space Sample.version1 "json"
                  eq_refl)).
Defined.

(** ** The timetable tables *)

Section Tables.

Context (inputData : Display.InputData).

Local Abbreviation step :=
  (λ (acc : Display.Outcome Display.Grouped) item,
     acc ≫= λ acc, Display.group acc item).

(** The entries a grouping holds for a cell. *)
Local Abbreviation held g section day slot :=
  (match (g : Display.Grouped) !! section with
   | Some byDay =>
       match byDay !! day with
       | Some bySlot => default [] (bySlot !! slot)
       | None => []
       end
   | None => []
   end).

(** The grouping after one more entry with plain names. *)
Local Abbreviation added acc item :=
  (<[Schedule.section item :=
       <[Schedule.day item :=
           <[Schedule.slot item :=
               held acc (Schedule.section item) (Schedule.day item)
                        (Schedule.slot item) ++ [item]]>
             (default ∅ (default ∅ ((acc : Display.Grouped)
                                      !! Schedule.section item)
                         !! Schedule.day item))]>
         (default ∅ (acc !! Schedule.section item))]> acc).

Lemma step_Throws (l : list Schedule.Entry) :
  foldl step Display.Throws l = Display.Throws.
Proof. by induction l. Qed.

Lemma step_Beyond (l : list Schedule.Entry) :
  foldl step Display.Beyond l = Display.Beyond.
Proof. by induction l. Qed.

Lemma getProp_plain {V} (o : gmap string V) (k : string) :
  Display.Plain k →
  Js.getProp o k = match o !! k with
                   | Some v => Js.Own v
                   | None => Js.Undefined
                   end.
Proof.
  intros Hk. unfold Js.getProp. destruct (o !! k); [done|].
  by rewrite decide_False.
Qed.

Lemma group_plain (acc : Display.Grouped) (item : Schedule.Entry) :
  Display.PlainEntry item →
  Display.group acc item = Display.Known (added acc item).
Proof.
  intros (Hs & Hd & Hsl). unfold Display.group, Display.ensured,
    Display.Grouped in *.
  rewrite (getProp_plain acc) by done.
  destruct (acc !! Schedule.section item) as [byDay|]; simpl.
  - rewrite (getProp_plain byDay) by done.
    destruct (byDay !! Schedule.day item) as [bySlot|]; simpl.
    + rewrite (getProp_plain bySlot) by done.
      by destruct (bySlot !! Schedule.slot item).
    + rewrite (getProp_plain ∅) by done. by rewrite lookup_empty.
  - rewrite (getProp_plain ∅) by done. rewrite lookup_empty. simpl.
    rewrite (getProp_plain ∅) by done. by rewrite lookup_empty.
Qed.

Lemma added_held (acc : Display.Grouped) (item : Schedule.Entry)
    (section day slot : string) :
  held (added acc item) section day slot
  = held acc section day slot ++
    (if decide (Display.InCell section day slot item) then [item] else []).
Proof.
  unfold Display.InCell, Display.Grouped in *.
  destruct (decide (Schedule.section item = section)) as [<-|Hs].
  - rewrite lookup_insert_eq.
    destruct (decide (Schedule.day item = day)) as [<-|Hd].
    + rewrite lookup_insert_eq.
      destruct (decide (Schedule.slot item = slot)) as [<-|Hsl].
      * rewrite lookup_insert_eq. rewrite decide_True by done. simpl.
        destruct (acc !! _) as [byDay|]; simpl; [|done].
        by destruct (byDay !! _) as [bySlot|].
      * rewrite lookup_insert_ne by done.
        rewrite decide_False by tauto. rewrite app_nil_r.
        destruct (acc !! _) as [byDay|]; simpl; [|done].
        by destruct (byDay !! _) as [bySlot|].
    + rewrite lookup_insert_ne by done.
      rewrite decide_False by tauto. rewrite app_nil_r.
      by destruct (acc !! _) as [byDay|].
  - rewrite lookup_insert_ne by done.
    rewrite decide_False by tauto. by rewrite app_nil_r.
Qed.

Lemma added_keys (acc : Display.Grouped) (item : Schedule.Entry)
    (k : string) :
  is_Some (added acc item !! k) ↔
  is_Some (acc !! k) ∨ Schedule.section item = k.
Proof.
  unfold Display.Grouped in *.
  destruct (decide (Schedule.section item = k)) as [<-|Hk].
  - rewrite lookup_insert_eq. split; [by right|by eexists].
  - rewrite lookup_insert_ne by done. tauto.
Qed.

Lemma foldl_group (l : list Schedule.Entry) (acc : Display.Grouped) :
  Forall Display.PlainEntry l →
  ∃ g, foldl step (Display.Known acc) l = Display.Known g ∧
       (∀ section day slot,
          held g section day slot
          = held acc section day slot ++
            filter (Display.InCell section day slot) l) ∧
       (∀ k, is_Some (g !! k) ↔
             is_Some (acc !! k) ∨
             ∃ item, item ∈ l ∧ Schedule.section item = k).
Proof.
  intros Hl. revert acc.
  induction Hl as [|item l Hitem _ IH]; intros acc; simpl.
  - exists acc. split_and!; [done| |].
    + intros. by rewrite app_nil_r.
    + intros k. split; [by left|]. intros [?|(? & []%elem_of_nil & _)]; done.
  - rewrite (group_plain acc item Hitem).
    destruct (IH (added acc item)) as (g & Hg & Hheld & Hkeys).
    exists g. split_and!; [done| |].
    + intros section day slot.
      rewrite Hheld, added_held, <- app_assoc. f_equal.
      unfold filter at 2. simpl. by case_decide.
    + intros k. rewrite Hkeys, added_keys. split.
      * intros [[?|<-]|(x & ? & ?)]; [by left|right..].
        -- exists item. split; [apply list_elem_of_here|done].
        -- exists x. split; [by apply list_elem_of_further|done].
      * intros [?|(x & [->|?]%elem_of_cons & ?)];
          [by left; left|by left; right|].
        right. by exists x.
Qed.

Lemma groupedData_plain (timetable : list Schedule.Entry) :
  Forall Display.PlainEntry timetable →
  ∃ g, Display.groupedData timetable = Display.Known g ∧
       (∀ section day slot,
          held g section day slot
          = filter (Display.InCell section day slot) timetable) ∧
       (∀ k, is_Some (g !! k) ↔
             ∃ item, item ∈ timetable ∧ Schedule.section item = k).
Proof.
  intros Hl. destruct (foldl_group timetable ∅ Hl) as (g & Hg & Hheld & Hkeys).
  exists g. unfold Display.Grouped in *. split_and!; [done| |].
  - intros section day slot. rewrite Hheld. by rewrite lookup_empty.
  - intros k. rewrite Hkeys, lookup_empty. split; [|by right].
    intros [[? [=]]|?]; done.
Qed.

Lemma slotItemsOf_plain (g : Display.Grouped) (section day slot : string) :
  Display.Plain section → Display.Plain day → Display.Plain slot →
  Display.slotItemsOf g section day slot
  = Display.Known (held g section day slot).
Proof.
  intros Hs Hd Hsl. unfold Display.slotItemsOf, Display.Grouped in *.
  rewrite (getProp_plain g) by done.
  destruct (g !! section) as [byDay|]; [|done].
  rewrite (getProp_plain byDay) by done.
  destruct (byDay !! day) as [bySlot|]; [|done].
  rewrite (getProp_plain bySlot) by done.
  by destruct (bySlot !! slot).
Qed.

(** X21.  Grouping is filtering, for a timetable in which no section,
    day or slot is named like a member of [Object.prototype]: the
    reduction returns, and the entries it holds for a section, a day and
    a slot that are not so named either are those of the timetable with
    that section, day and slot, in the order of the timetable. *)
Theorem grouped_cell_is_filter (timetable : list Schedule.Entry) :
  Forall Display.PlainEntry timetable →
  ∃ g, Display.groupedData timetable = Display.Known g ∧
       ∀ section day slot,
         Display.Plain section → Display.Plain day → Display.Plain slot →
         Display.slotItemsOf g section day slot
         = Display.Known (filter (Display.InCell section day slot) timetable).
Proof.
  intros (g & Hg & Hheld & _)%groupedData_plain. exists g. split; [done|].
  intros section day slot ???. rewrite slotItemsOf_plain by done.
  by rewrite Hheld.
Qed.

Lemma added_PlainKeys (acc : Display.Grouped) (item : Schedule.Entry) :
  Display.Plain (Schedule.slot item) →
  Display.PlainKeys acc → Display.PlainKeys (added acc item).
Proof.
  unfold Display.PlainKeys, Display.Grouped in *.
  intros Hitem Hacc section byDay day bySlot slot items H1 H2 H3.
  destruct (decide (Schedule.section item = section)) as [<-|Hs].
  - rewrite lookup_insert_eq in H1. injection H1 as <-.
    destruct (decide (Schedule.day item = day)) as [<-|Hd].
    + rewrite lookup_insert_eq in H2. injection H2 as <-.
      destruct (decide (Schedule.slot item = slot)) as [<-|Hsl]; [done|].
      rewrite lookup_insert_ne in H3 by done.
      destruct (acc !! Schedule.section item) as [byDay|] eqn:E1;
        simpl in H3; [|by rewrite lookup_empty in H3].
      destruct (byDay !! Schedule.day item) as [bySlot|] eqn:E2;
        simpl in H3; [|by rewrite lookup_empty in H3].
      by eapply Hacc.
    + rewrite lookup_insert_ne in H2 by done.
      destruct (acc !! Schedule.section item) as [byDay|] eqn:E1;
        simpl in H2; [|by rewrite lookup_empty in H2].
      by eapply Hacc.
  - rewrite lookup_insert_ne in H1 by done. by eapply Hacc.
Qed.

Lemma foldl_group_PlainKeys (l : list Schedule.Entry)
    (acc g : Display.Grouped) :
  Forall Display.PlainEntry l → Display.PlainKeys acc →
  foldl step (Display.Known acc) l = Display.Known g →
  Display.PlainKeys g.
Proof.
  intros Hl. revert acc.
  induction Hl as [|item l Hitem _ IH]; intros acc Hacc; simpl.
  - by intros [= <-].
  - rewrite (group_plain acc item Hitem). apply IH.
    apply added_PlainKeys; [|done]. by destruct Hitem as (_ & _ & ?).
Qed.

(** The first entry whose slot is named like a member of
    [Object.prototype], its section and day not being so named, makes
    the reduction throw: the member stands where the slot's array is
    expected, and has no [push]. *)
Lemma slot_named_like_a_member_throws
    (before after : list Schedule.Entry) (item : Schedule.Entry) :
  Forall Display.PlainEntry before →
  Display.Plain (Schedule.section item) → Display.Plain (Schedule.day item) →
  ¬ Display.Plain (Schedule.slot item) →
  Display.groupedData (before ++ item :: after) = Display.Throws.
Proof.
  intros Hbefore Hs Hd Hsl. unfold Display.groupedData.
  rewrite foldl_app.
  destruct (foldl_group before ∅ Hbefore) as (g & Hg & _).
  assert (Hkeys : Display.PlainKeys g).
  { eapply foldl_group_PlainKeys; [done| |done].
    intros section byDay day bySlot slot items H1.
    unfold Display.Grouped in *. by rewrite lookup_empty in H1. }
  rewrite Hg. simpl.
  assert (Hthrows : Display.group g item = Display.Throws);
    [|rewrite Hthrows; apply step_Throws].
  assert (Hin : Schedule.slot item ∈ Js.objectPrototype).
  { unfold Display.Plain in Hsl.
    by destruct (decide (Schedule.slot item ∈ Js.objectPrototype)). }
  assert (Hmember : ∀ bySlot : gmap string (list Schedule.Entry),
             bySlot !! Schedule.slot item = None →
             Js.getProp bySlot (Schedule.slot item) = Js.Inherited).
  { intros bySlot Hnone. unfold Js.getProp. rewrite Hnone.
    by rewrite decide_True. }
  unfold Display.group, Display.ensured, Display.Grouped in *.
  rewrite (getProp_plain g) by done.
  destruct (g !! Schedule.section item) as [byDay|] eqn:E1; simpl.
  - rewrite (getProp_plain byDay) by done.
    destruct (byDay !! Schedule.day item) as [bySlot|] eqn:E2; simpl.
    + rewrite Hmember; [done|].
      destruct (bySlot !! Schedule.slot item) as [items|] eqn:E3; [|done].
      destruct Hsl. by eapply Hkeys.
    + by rewrite Hmember by apply lookup_empty.
  - rewrite (getProp_plain ∅) by done. rewrite lookup_empty. simpl.
    by rewrite Hmember by apply lookup_empty.
Qed.

Lemma stringLe_total : Total Display.stringLe.
Proof. intros a b. apply String.leb_total. Qed.

Lemma sectionKeys_elem (g : Display.Grouped) (k : string) :
  k ∈ Display.sectionKeys g ↔ is_Some (g !! k).
Proof.
  unfold Display.sectionKeys, Js.keys.
  rewrite merge_sort_Permutation, list_elem_of_fmap. split.
  - intros ([k' v] & -> & Hin%elem_of_map_to_list). by eexists.
  - intros [v Hv]. exists (k, v). split; [done|].
    by apply elem_of_map_to_list.
Qed.

(** X22.  For a timetable in which no section, day or slot is named
    like a member of [Object.prototype], the section tabs are the
    sections that occur in the timetable, each once, in ascending order
    of code units. *)
Theorem section_tabs_sorted (timetable : list Schedule.Entry) :
  Forall Display.PlainEntry timetable →
  ∃ g, Display.groupedData timetable = Display.Known g ∧
       Sorted Display.stringLe (Display.sectionKeys g) ∧
       NoDup (Display.sectionKeys g) ∧
       ∀ k, k ∈ Display.sectionKeys g ↔
            ∃ item, item ∈ timetable ∧ Schedule.section item = k.
Proof.
  intros (g & Hg & _ & Hkeys)%groupedData_plain. exists g. split_and!.
  - done.
  - apply (@Sorted_merge_sort _ _ _ stringLe_total).
  - unfold Display.sectionKeys, Js.keys. rewrite merge_sort_Permutation.
    apply NoDup_fst_map_to_list.
  - intros k. by rewrite sectionKeys_elem, Hkeys.
Qed.

Lemma mapM_Known_cons {A B} (f : A → Display.Outcome B) x l y k :
  f x = Display.Known y → mapM f l = Display.Known k →
  mapM f (x :: l) = Display.Known (y :: k).
Proof. intros Hx Hl. cbn [mapM]. by rewrite Hx, Hl. Qed.

Lemma mapM_Known_inv {A B} (f : A → Display.Outcome B) x l k' :
  mapM f (x :: l) = Display.Known k' →
  ∃ y k, f x = Display.Known y ∧ mapM f l = Display.Known k ∧ k' = y :: k.
Proof.
  cbn [mapM]. destruct (f x) as [y| |]; [|done..].
  destruct (mapM f l) as [k| |]; [|done..].
  intros [= <-]. by exists y, k.
Qed.

Lemma mapM_Known_elem {A B} (f : A → Display.Outcome B) (l : list A)
    (k : list B) (x : A) :
  mapM f l = Display.Known k → x ∈ l →
  ∃ y, f x = Display.Known y ∧ y ∈ k.
Proof.
  revert k. induction l as [|x' l IH]; intros k' Hm Hx.
  - by apply elem_of_nil in Hx.
  - apply mapM_Known_inv in Hm as (y & k & Hy & Hk & ->).
    apply elem_of_cons in Hx as [->|Hx].
    + exists y. split; [done|]. apply list_elem_of_here.
    + destruct (IH k Hk Hx) as (y' & Hy' & Hin). exists y'.
      split; [done|]. by apply list_elem_of_further.
Qed.

Lemma mapM_Known_keyed {A B} (f : A → Display.Outcome (A * B))
    (l : list A) :
  (∀ x, x ∈ l → ∃ y, f x = Display.Known (x, y)) →
  ∃ k, mapM f l = Display.Known k ∧ k.*1 = l.
Proof.
  induction l as [|x l IH]; intros Hf.
  - by exists [].
  - destruct (Hf x) as [y Hy]; [apply list_elem_of_here|].
    destruct IH as (k & Hk & Hfst).
    { intros x' Hx'. apply Hf. by apply list_elem_of_further. }
    exists ((x, y) :: k). split; [by apply mapM_Known_cons|].
    by rewrite fmap_cons, Hfst.
Qed.

Lemma renderCell_shows (slotItems : list Schedule.Entry)
    (section day slot : string) (item : Schedule.Entry) :
  slot ≠ "Lunch Break" → item ∈ slotItems →
  ∃ labs nonLabs workshops moved,
    Display.renderCell inputData slotItems section day slot
    = Display.Entries labs nonLabs workshops moved ∧
    item ∈ labs ++ nonLabs ++ workshops.
Proof.
  intros Hslot Hin. unfold Display.renderCell.
  rewrite decide_False by done.
  destruct slotItems as [|x rest] eqn:E; [by apply elem_of_nil in Hin|].
  rewrite <- E in *. clear E. do 4 eexists. split; [done|].
  rewrite !elem_of_app, !list_elem_of_filter.
  destruct (decide (Schedule.subject item
                    ∈ Display.getSectionLabSubjects inputData section));
    [by left|].
  destruct (decide (Schedule.subject item = "Workshop")); [by right; right|].
  by right; left.
Qed.

Lemma cellAt_plain (timetable : list Schedule.Entry) (g : Display.Grouped)
    (section day slot : string) :
  (∀ section day slot,
     held g section day slot
     = filter (Display.InCell section day slot) timetable) →
  Display.Plain section → Display.Plain day → Display.Plain slot →
  Display.cellAt inputData g section day slot
  = Display.Known
      (Display.renderCell inputData
         (filter (Display.InCell section day slot) timetable)
         section day slot).
Proof.
  intros Hheld ???. unfold Display.cellAt.
  rewrite slotItemsOf_plain by done. by rewrite Hheld.
Qed.

(** The tables of a timetable, days, slots and selection with plain
    names. *)
Lemma render_plain (days slots : list string) (selectedSection : string)
    (timetable : list Schedule.Entry) :
  Forall Display.PlainEntry timetable →
  Forall Display.Plain days → Forall Display.Plain slots →
  Display.Plain selectedSection →
  ∃ g view,
    Display.groupedData timetable = Display.Known g ∧
    (∀ section day slot,
       held g section day slot
       = filter (Display.InCell section day slot) timetable) ∧
    (∀ k, is_Some (g !! k) ↔
          ∃ item, item ∈ timetable ∧ Schedule.section item = k) ∧
    Display.render inputData days slots selectedSection timetable
    = Display.Known view ∧
    view.*1 = Display.sectionsToDisplay g selectedSection ∧
    Forall (λ table, (table.2).*1 = days ∧
                     Forall (λ row, (row.2).*1 = slots) table.2) view.
Proof.
  intros Htt Hdays Hslots Hsel.
  destruct (groupedData_plain timetable Htt) as (g & Hg & Hheld & Hkeys).
  assert (Hsections : Forall Display.Plain
                        (Display.sectionsToDisplay g selectedSection)).
  { unfold Display.sectionsToDisplay. case_decide; [|by constructor].
    apply Forall_forall. intros k Hk.
    apply sectionKeys_elem, Hkeys in Hk as (item & Hitem & <-).
    rewrite Forall_forall in Htt. by destruct (Htt item Hitem). }
  exists g. unfold Display.render. rewrite Hg. simpl.
  set (cellsOf section day :=
         mapM (λ slot, cell ← Display.cellAt inputData g section day slot;
                       Display.Known (slot, cell)) slots).
  set (rowsOf section :=
         mapM (λ day, cells ← cellsOf section day; Display.Known (day, cells))
              days).
  assert (Hcells : ∀ section day,
             Display.Plain section → Display.Plain day →
             ∃ cells, cellsOf section day = Display.Known cells ∧
                      cells.*1 = slots).
  { intros section day Hsection Hday. unfold cellsOf.
    apply (mapM_Known_keyed
             (λ slot, cell ← Display.cellAt inputData g section day slot;
                      Display.Known (slot, cell))).
    intros slot Hslot. rewrite Forall_forall in Hslots.
    rewrite (cellAt_plain timetable) by auto. by eexists. }
  assert (Hrows : ∀ section,
             Display.Plain section →
             ∃ rows, rowsOf section = Display.Known rows ∧ rows.*1 = days ∧
                     Forall (λ row, (row.2).*1 = slots) rows).
  { intros section Hsection. unfold rowsOf. clear rowsOf.
    induction Hdays as [|day days Hday _ IH].
    - by exists [].
    - destruct IH as (rows & Hrows & Hfst & Hall).
      destruct (Hcells section day Hsection Hday) as (cells & Hcs & Hc).
      exists ((day, cells) :: rows). split_and!.
      + apply mapM_Known_cons; [|done]. by rewrite Hcs.
      + by rewrite fmap_cons, Hfst.
      + by constructor. }
  clear Hcells. subst rowsOf cellsOf.
  assert (Hview : ∃ view,
            mapM (λ section,
                    rows ← mapM (λ day,
                                   cells ← mapM (λ slot,
                                                   cell ← Display.cellAt
                                                            inputData g
                                                            section day slot;
                                                   Display.Known (slot, cell))
                                                slots;
                                   Display.Known (day, cells))
                                days;
                    Display.Known (section, rows))
                 (Display.sectionsToDisplay g selectedSection)
            = Display.Known view ∧
            view.*1 = Display.sectionsToDisplay g selectedSection ∧
            Forall (λ table, (table.2).*1 = days ∧
                             Forall (λ row, (row.2).*1 = slots) table.2)
                   view).
  { induction Hsections as [|section sections Hsection _ IH].
    - exists []. by split_and!.
    - destruct IH as (view & Hview & Hfst & Hall).
      destruct (Hrows section Hsection) as (rows & Hrs & Hr & Hall').
      exists ((section, rows) :: view). split_and!.
      + apply mapM_Known_cons; [|done]. by rewrite Hrs.
      + by rewrite fmap_cons, Hfst.
      + by constructor. }
  destruct Hview as (view & Hview & Hfst & Hall).
  exists view. by split_and!.
Qed.

(** X23.  When no section, day or slot involved (in the timetable, in
    the configured days and slots, in the selection) is named like a
    member of [Object.prototype], every entry of the timetable whose day
    and slot are among the configured ones, and whose slot is not the
    lunch break, is shown: in the table of its section (when all
    sections or that one are selected), in the row of its day and the
    cell of its slot, among the labs, the theory lessons or the
    workshops of that cell. *)
Theorem every_entry_is_shown (days slots : list string)
    (selectedSection : string) (timetable : list Schedule.Entry)
    (item : Schedule.Entry) :
  Forall Display.PlainEntry timetable →
  Forall Display.Plain days → Forall Display.Plain slots →
  Display.Plain selectedSection →
  item ∈ timetable →
  Schedule.day item ∈ days → Schedule.slot item ∈ slots →
  Schedule.slot item ≠ "Lunch Break" →
  selectedSection = "all" ∨ selectedSection = Schedule.section item →
  ∃ view rows cells labs nonLabs workshops moved,
    Display.render inputData days slots selectedSection timetable
    = Display.Known view ∧
    (Schedule.section item, rows) ∈ view ∧
    (Schedule.day item, cells) ∈ rows ∧
    (Schedule.slot item, Display.Entries labs nonLabs workshops moved)
    ∈ cells ∧
    item ∈ labs ++ nonLabs ++ workshops.
Proof.
  intros Htt Hdays Hslots Hplain Hitem Hday Hslot Hlunch Hsel.
  destruct (render_plain days slots selectedSection timetable)
    as (g & view & Hg & Hheld & Hkeys & Hrender & _); [done..|].
  exists view. pose proof Hrender as Hview.
  unfold Display.render in Hrender. rewrite Hg in Hrender.
  simpl in Hrender.
  assert (Hsec : Schedule.section item
                 ∈ Display.sectionsToDisplay g selectedSection).
  { unfold Display.sectionsToDisplay. case_decide as Hall.
    - apply sectionKeys_elem, Hkeys. by exists item.
    - destruct Hsel as [? | ->]; [done|]. apply list_elem_of_here. }
  destruct (mapM_Known_elem _ _ _ _ Hrender Hsec) as (table & Htable & Hin1).
  destruct (mapM _ days) as [rows| |] eqn:Hrows; [|done..].
  injection Htable as <-.
  destruct (mapM_Known_elem _ _ _ _ Hrows Hday) as (row & Hrow & Hin2).
  destruct (mapM _ slots) as [cells| |] eqn:Hcells; [|done..].
  injection Hrow as <-.
  destruct (mapM_Known_elem _ _ _ _ Hcells Hslot) as (cell & Hcell & Hin3).
  rewrite Forall_forall in Htt. destruct (Htt item Hitem) as (? & ? & ?).
  rewrite (cellAt_plain timetable) in Hcell by done.
  injection Hcell as <-.
  destruct (renderCell_shows
              (filter (Display.InCell (Schedule.section item)
                         (Schedule.day item) (Schedule.slot item)) timetable)
              (Schedule.section item) (Schedule.day item)
              (Schedule.slot item) item Hlunch)
    as (labs & nonLabs & workshops & moved & Hcell' & Hshown).
  { apply list_elem_of_filter. by split. }
  rewrite Hcell' in Hin3.
  by exists rows, cells, labs, nonLabs, workshops, moved.
Qed.

(** X24.  The component renders whenever no name involved is a member
    of [Object.prototype]: one table per displayed section, one row per
    day and one cell per slot in each. *)
Theorem render_of_plain_names (days slots : list string)
    (selectedSection : string) (timetable : list Schedule.Entry) :
  Forall Display.PlainEntry timetable →
  Forall Display.Plain days → Forall Display.Plain slots →
  Display.Plain selectedSection →
  ∃ g view,
    Display.groupedData timetable = Display.Known g ∧
    Display.render inputData days slots selectedSection timetable
    = Display.Known view ∧
    view.*1 = Display.sectionsToDisplay g selectedSection ∧
    Forall (λ table, (table.2).*1 = days ∧
                     Forall (λ row, (row.2).*1 = slots) table.2) view.
Proof.
  intros Htt Hdays Hslots Hsel.
  destruct (render_plain days slots selectedSection timetable)
    as (g & view & Hg & _ & _ & Hrender & Hfst & Hall); [done..|].
  by exists g, view.
Qed.

Lemma renderCell_Empty (slotItems : list Schedule.Entry)
    (section day slot : string) :
  slot ≠ "Lunch Break" →
  Display.renderCell inputData slotItems section day slot = Display.Empty ↔
  slotItems = [].
Proof.
  intros Hne. unfold Display.renderCell. rewrite decide_False by done.
  by destruct slotItems.
Qed.

(** X25.  For a timetable in which no section, day or slot is named
    like a member of [Object.prototype], and a section, day and slot
    that are not so named either: a cell in the lunch column shows no
    entry, scheduled there or not; any other cell is empty exactly when
    the timetable has no entry for it, so a selected section that does
    not occur in the timetable gives a table of empty cells. *)
Theorem lunch_and_empty_cells (timetable : list Schedule.Entry)
    (section day slot : string) :
  Forall Display.PlainEntry timetable →
  Display.Plain section → Display.Plain day → Display.Plain slot →
  ∃ g, Display.groupedData timetable = Display.Known g ∧
       (slot = "Lunch Break" →
        Display.cellAt inputData g section day slot
        = Display.Known Display.Lunch) ∧
       (slot ≠ "Lunch Break" →
        (Display.cellAt inputData g section day slot
         = Display.Known Display.Empty ↔
         filter (Display.InCell section day slot) timetable = [])) ∧
       (slot ≠ "Lunch Break" →
        section ∉ Display.sectionKeys g →
        Display.cellAt inputData g section day slot
        = Display.Known Display.Empty).
Proof.
  intros (g & Hg & Hheld & Hkeys)%groupedData_plain Hsection Hday Hslot.
  exists g. split; [done|].
  rewrite (cellAt_plain timetable) by done.
  split_and!.
  - intros ->. unfold Display.renderCell. by rewrite decide_True.
  - intros Hne. rewrite <- (renderCell_Empty _ section day slot Hne).
    split; [by intros [= ->]|by intros ->].
  - intros Hne Hsec. f_equal. apply renderCell_Empty; [done|].
    destruct (filter _ timetable) as [|item rest] eqn:Hf; [done|].
    assert (Hin : item ∈ filter (Display.InCell section day slot) timetable)
      by (rewrite Hf; apply list_elem_of_here).
    apply list_elem_of_filter in Hin as [(Hs & _ & _) Hin].
    destruct Hsec. apply sectionKeys_elem, Hkeys. by exists item.
Qed.

(** X26.  The lab subjects of a section are those of the first class
    one of whose full section names it is; a section that no class of
    the configuration names has none, and then a cell shows no labs:
    its entries are theory lessons, workshops apart. *)
Theorem lab_subjects_of_first_match (section : string) :
  (∀ before classInfo after,
     Display.classes inputData = Some (before ++ classInfo :: after) →
     Forall (λ c, section ∉ Display.fullSectionNames c) before →
     section ∈ Display.fullSectionNames classInfo →
     Display.getSectionLabSubjects inputData section
     = default [] (Display.lab_subjects classInfo)) ∧
  (Forall (λ c, section ∉ Display.fullSectionNames c)
          (default [] (Display.classes inputData)) →
   Display.getSectionLabSubjects inputData section = [] ∧
   ∀ slotItems day slot,
     slot ≠ "Lunch Break" → slotItems ≠ [] →
     ∃ moved,
       Display.renderCell inputData slotItems section day slot
       = Display.Entries []
           (filter (λ item, Schedule.subject item ≠ "Workshop") slotItems)
           (filter (λ item, Schedule.subject item = "Workshop") slotItems)
           moved).
Proof.
  unfold Display.getSectionLabSubjects. split.
  - intros before classInfo after -> Hbefore Hin. simpl.
    induction Hbefore as [|c before Hc _ IH]; simpl.
    + by rewrite decide_True.
    + by rewrite decide_False.
  - intros Hall.
    assert (Hnone : Display.labSubjectsIn
                      (default [] (Display.classes inputData)) section = []).
    { induction Hall as [|c cs Hc _ IH]; simpl; [done|].
      by rewrite decide_False. }
    split; [done|]. intros slotItems day slot Hslot Hne.
    unfold Display.renderCell, Display.getSectionLabSubjects.
    rewrite decide_False by done. rewrite Hnone.
    destruct slotItems as [|x rest] eqn:E; [done|]. rewrite <- E. clear E Hne.
    eexists. f_equal.
    + induction slotItems as [|y l IH]; [done|].
      rewrite filter_cons_False; [done|]. by intros ?%elem_of_nil.
    + apply list_filter_iff. intros y. split; [by intros [_ ?]|].
      intros ?. split; [by intros ?%elem_of_nil|done].
Qed.

End Tables.

(** Witness for X21: the workshop cell of the sample week. *)
Lemma grouped_cell_is_filter_witness :
  Display.slotItemsOf Sample.grouped "CSE - A" "Monday" "9:00-9:55"
  = Display.Known [Sample.workshopEntry].
Proof.
  destruct (grouped_cell_is_filter Sample.week) as (g & Hg & Hcells).
  - apply (bool_decide_unpack _). vm_compute. exact I.
  - assert (Hsame : g = Sample.grouped).
    { unfold Sample.grouped. by rewrite Hg. }
    rewrite <- Hsame, Hcells; [by vm_compute|..];
      apply (bool_decide_unpack _); vm_compute; exact I.
Defined.

(** Witness for X22: the two sections of the sample week. *)
Lemma section_tabs_sorted_witness :
  Sorted Display.stringLe (Display.sectionKeys Sample.grouped) ∧
  NoDup (Display.sectionKeys Sample.grouped).
Proof.
  destruct (section_tabs_sorted Sample.week) as (g & Hg & H1 & H2 & _).
  - apply (bool_decide_unpack _). vm_compute. exact I.
  - assert (Hsame : g = Sample.grouped).
    { unfold Sample.grouped. by rewrite Hg. }
    rewrite <- Hsame. split; [exact H1|exact H2].
Defined.

(** Witness for X23: the workshop of the sample week. *)
Lemma every_entry_is_shown_witness :
  ∃ view rows cells labs nonLabs workshops moved,
    Display.render Sample.workshopAsLab ["Monday"]
      ["9:00-9:55"; "Lunch Break"] "all" Sample.week = Display.Known view ∧
    ("CSE - A", rows) ∈ view ∧
    ("Monday", cells) ∈ rows ∧
    ("9:00-9:55", Display.Entries labs nonLabs workshops moved) ∈ cells ∧
    Sample.workshopEntry ∈ labs ++ nonLabs ++ workshops.
Proof.
  apply (every_entry_is_shown Sample.workshopAsLab ["Monday"]
           ["9:00-9:55"; "Lunch Break"] "all" Sample.week
           Sample.workshopEntry).
  - apply (bool_decide_unpack _). vm_compute. exact I.
  - apply (bool_decide_unpack _). vm_compute. exact I.
  - apply (bool_decide_unpack _). vm_compute. exact I.
  - apply (bool_decide_unpack _). vm_compute. exact I.
  - apply list_elem_of_here.
  - apply list_elem_of_here.
  - apply list_elem_of_here.
  - done.
  - by left.
Defined.

(** Witness for X24: the sample week renders. *)
Lemma render_of_plain_names_witness :
  ∃ g view,
    Display.groupedData Sample.week = Display.Known g ∧
    Display.render Sample.workshopAsLab ["Monday"]
      ["9:00-9:55"; "Lunch Break"] "all" Sample.week = Display.Known view ∧
    view.*1 = Display.sectionsToDisplay g "all".
Proof.
  destruct (render_of_plain_names Sample.workshopAsLab ["Monday"]
              ["9:00-9:55"; "Lunch Break"] "all" Sample.week)
    as (g & view & H1 & H2 & H3 & _).
  - apply (bool_decide_unpack _). vm_compute. exact I.
  - apply (bool_decide_unpack _). vm_compute. exact I.
  - apply (bool_decide_unpack _). vm_compute. exact I.
  - apply (bool_decide_unpack _). vm_compute. exact I.
  - exists g, view. split; [exact H1|]. split; [exact H2|exact H3].
Defined.

(** Witness for X25: the lesson scheduled during the lunch break. *)
Lemma lunch_and_empty_cells_witness :
  Display.cellAt Sample.workshopAsLab Sample.grouped
    "CS-A" "Monday" "Lunch Break" = Display.Known Display.Lunch.
Proof.
  destruct (lunch_and_empty_cells Sample.workshopAsLab Sample.week
              "CS-A" "Monday" "Lunch Break") as (g & Hg & Hlunch & _).
  - apply (bool_decide_unpack _). vm_compute. exact I.
  - apply (bool_decide_unpack _). vm_compute. exact I.
  - apply (bool_decide_unpack _). vm_compute. exact I.
  - apply (bool_decide_unpack _). vm_compute. exact I.
  - assert (Hsame : g = Sample.grouped).
    { unfold Sample.grouped. by rewrite Hg. }
    rewrite <- Hsame. by apply Hlunch.
Defined.

(** ** The application *)

Section Validation.

Context (positive : App.Json → option bool).

Lemma member_here k v fields :
  App.member k (App.object ((k, v) :: fields)) = Some v.
Proof. unfold App.member, App.object. simpl. apply lookup_insert_eq. Qed.

Lemma member_next k k' v fields :
  k ≠ k' →
  App.member k (App.object ((k', v) :: fields))
  = App.member k (App.object fields).
Proof.
  intros Hk. unfold App.member, App.object. simpl.
  by apply lookup_insert_ne.
Qed.

Lemma positive_length_array (l : list App.Json) :
  App.greaterThanZero positive (App.lengthOf (Some (App.JArray l)))
  = Some (bool_decide (l ≠ [])).
Proof. by destruct l. Qed.

Lemma positive_length_fmap {A} (f : A → App.Json) (l : list A) :
  App.greaterThanZero positive (App.lengthOf (Some (App.JArray (f <$> l))))
  = Some (bool_decide (l ≠ [])).
Proof. by destruct l. Qed.

Lemma positive_length_strings (l : list string) :
  App.greaterThanZero positive (App.lengthOf (Some (App.strings l)))
  = Some (bool_decide (l ≠ [])).
Proof. by destruct l. Qed.

Lemma validClass_object fields :
  App.validClass positive (App.object fields)
  = if match App.member "name" (App.object fields) with
       | Some name => App.truthy name
       | None => false
       end
    then
      sections ← App.greaterThanZero positive
                   (App.lengthOf (App.member "sections" (App.object fields)));
      if sections : bool
      then
        subjects ← App.greaterThanZero positive
                     (App.lengthOf
                        (App.member "subjects" (App.object fields)));
        if subjects : bool then Some true
        else App.greaterThanZero positive
               (App.lengthOf (App.member "lab_subjects" (App.object fields)))
      else Some false
    else Some false.
Proof. done. Qed.

Lemma truthy_string (s : string) :
  App.truthy (App.JString s) = bool_decide (s ≠ "").
Proof. by destruct s. Qed.

Lemma every_of_classes (toClass : Form.ClassItem → App.Json)
    (P : Form.ClassItem → Prop) `{!∀ c, Decision (P c)}
    (cs : list Form.ClassItem) :
  (∀ c, App.validClass positive (toClass c) = Some (bool_decide (P c))) →
  App.every positive (toClass <$> cs) = Some (bool_decide (Forall P cs)).
Proof.
  intros Hclass. induction cs as [|c cs IH]; simpl; [done|].
  change (list_fmap _ _ toClass cs) with (toClass <$> cs).
  - rewrite Hclass. destruct (decide (P c)) as [Hc|Hc].
    + rewrite bool_decide_true by done. rewrite IH.
      f_equal. apply bool_decide_ext. split; [by constructor|].
      by intros [_ ?]%Forall_cons.
    + rewrite bool_decide_false by done.
      rewrite bool_decide_false; [done|]. by intros [? _]%Forall_cons.
Qed.

(** X27.  For a configuration as the form holds it the validation
    returns, and accepts exactly when there is a class, every class has
    a name, a section and a theory or lab subject, and there are a day
    and a slot. *)
Theorem validation_of_form_documents (d : Form.InputData) :
  App.validate positive (App.toJson d)
  = Some (bool_decide (App.Complete d)).
Proof.
  unfold App.validate, App.toJson.
  rewrite member_here.
  rewrite !member_next by done. rewrite member_here.
  rewrite !member_next by done. rewrite member_here.
  rewrite positive_length_fmap, !positive_length_strings.
  rewrite (every_of_classes _
             (λ c, Form.name c ≠ "" ∧ Form.sections c ≠ [] ∧
                   (Form.subjects c ≠ [] ∨ Form.lab_subjects c ≠ []))).
  - simpl. unfold App.Complete.
    repeat case_bool_decide; simpl; f_equal; try done; tauto.
  - intros c. rewrite validClass_object.
    rewrite member_here.
    rewrite !member_next by done. rewrite member_here.
    rewrite !member_next by done. rewrite member_here.
    rewrite !member_next by done. rewrite member_here.
    rewrite positive_length_fmap, !positive_length_strings, truthy_string.
    repeat case_bool_decide; simpl; f_equal; try done; tauto.
Qed.

End Validation.

Section Session.

Context (validity : App.Json → option bool).

Lemma showInput_spec (st : App.State) :
  App.showInput validity st
  = Some {| App.inputData := App.inputData st; App.currentStep := App.Input;
            App.isValidInput := App.isValidInput st;
            App.form := Some (default Form.initialState (App.form st)) |}.
Proof. unfold App.showInput. simpl. by destruct (App.form st). Qed.

Lemma importConfig_spec (doc : App.Json) (st : App.State) :
  App.importConfig validity (Some doc) st
  = Some match validity doc with
         | Some valid =>
             {| App.inputData := doc; App.currentStep := App.Input;
                App.isValidInput := valid;
                App.form := Some (default Form.initialState (App.form st)) |}
         | None =>
             {| App.inputData := doc; App.currentStep := App.currentStep st;
                App.isValidInput := App.isValidInput st;
                App.form := App.form st |}
         end.
Proof.
  unfold App.importConfig, App.handleInputDataChange. simpl.
  destruct (validity doc); [|done]. by rewrite showInput_spec.
Qed.

Lemma formEvent_spec (e : Form.Event) (st st' : App.State) :
  App.formEvent validity e st = Some st' →
  App.currentStep st = App.Input ∧
  ∃ fs', st' = {| App.inputData := App.inputData st;
                  App.currentStep := App.Input;
                  App.isValidInput := App.isValidInput st;
                  App.form := Some fs' |}.
Proof.
  unfold App.formEvent.
  destruct (App.currentStep st) eqn:Hs; [|done].
  destruct (App.form st) as [fs|]; [|done].
  intros (fs' & _ & [= <-])%bind_Some.
  rewrite step_notifies_nobody. split; [done|]. by exists fs'.
Qed.


Lemma open_spec (saved : option (option App.Json)) :
  App.open validity saved
  = Some {| App.app :=
              App.loadSaved validity saved
                {| App.inputData := App.JNull; App.currentStep := App.Input;
                   App.isValidInput := false;
                   App.form := Some Form.initialState |};
            App.stored := saved |}.
Proof.
  unfold App.open, App.start. rewrite showInput_spec. simpl. do 2 f_equal.
  destruct saved as [[doc|]|]; try done.
  unfold App.loadSaved, App.handleInputDataChange, App.autosave. simpl.
  destruct (validity doc); simpl;
    by destruct doc as [|[]|[|?|?]|[|? ?]|l|o].
Qed.

Lemma session_invariant (P : App.Session → Prop) :
  (∀ e s s', P s → App.step validity e s = Some s' → P s') →
  ∀ es s s', P s → App.run validity es s = Some s' → P s'.
Proof.
  intros Hstep es. induction es as [|e es IH]; intros s s' HP; simpl.
  - by intros [= <-].
  - intros (s1 & H1 & Hrun)%bind_Some. eapply IH; [|done]. by eapply Hstep.
Qed.

(** X28.  When the validation throws on an imported document (its
    [classes] member is no array, or starts with [null]), the document
    replaces the configuration while the validity flag and the screen
    stay as they were: on the generation screen the generator is handed
    the document although it was never validated. *)
Theorem import_with_throwing_validation (positive : App.Json → option bool)
    (doc classes : App.Json) (st : App.State) :
  App.member "classes" doc = Some classes →
  App.Throwing classes →
  App.validate positive doc = None ∧
  App.importConfig (App.validate positive) (Some doc) st
  = Some {| App.inputData := doc; App.currentStep := App.currentStep st;
            App.isValidInput := App.isValidInput st;
            App.form := App.form st |} ∧
  App.generatorInput
    {| App.inputData := doc; App.currentStep := App.currentStep st;
       App.isValidInput := App.isValidInput st; App.form := App.form st |}
  = Some doc.
Proof.
  intros Hclasses Hthrow.
  assert (Hv : App.validate positive doc = None).
  { unfold App.validate. rewrite Hclasses.
    destruct (App.greaterThanZero positive (App.lengthOf (Some classes)));
      [simpl|done].
    destruct classes as [| | | |[|[] l]|]; done. }
  split_and!; [done| |].
  - unfold App.importConfig, App.handleInputDataChange. simpl.
    by rewrite Hv.
  - unfold App.generatorInput. simpl. by destruct doc.
Qed.

(** X29.  After any events: the generation screen is shown only with
    the validity flag set and the form unmounted, and the configuration
    screen always has the form mounted; if the validation never throws,
    a set flag means that the current configuration passed it; in any
    case a set flag means that the validation did not reject the current
    configuration: it accepted it, or threw on it. *)
Theorem session_screens (saved : option (option App.Json))
    (es : list App.Event) (s0 s : App.Session) :
  App.open validity saved = Some s0 →
  App.run validity es s0 = Some s →
  App.Screens (App.app s) ∧
  ((∀ doc, validity doc ≠ None) →
   App.isValidInput (App.app s) = true →
   validity (App.inputData (App.app s)) = Some true) ∧
  (App.isValidInput (App.app s) = true →
   validity (App.inputData (App.app s)) ≠ Some false).
Proof.
  intros Hopen Hrun.
  assert (Hinv : App.Screens (App.app s) ∧
                 (App.isValidInput (App.app s) = true →
                  validity (App.inputData (App.app s)) ≠ Some false)).
  { revert Hrun.
    apply (session_invariant
             (λ s, App.Screens (App.app s) ∧
                   (App.isValidInput (App.app s) = true →
                    validity (App.inputData (App.app s)) ≠ Some false))).
    - clear. intros e s s' [HS HV]. unfold App.Screens in *.
      destruct e as [[doc|]| | | |e]; cbn [App.step].
      + rewrite importConfig_spec. intros [= <-]. simpl.
        destruct (validity doc) as [valid|] eqn:Hdoc; simpl.
        * split; [by eexists|]. intros ->. by rewrite Hdoc.
        * split; [done|]. intros _. by rewrite Hdoc.
      + by intros [= <-].
      + destruct (App.currentStep (App.app s)) eqn:Hstep; [|done].
        destruct (App.isValidInput (App.app s)) eqn:Hvalid; [|done].
        intros [= <-]. unfold App.goToGeneration. rewrite Hvalid. simpl.
        split; [done|]. intros _. by apply HV.
      + destruct (App.currentStep (App.app s)) eqn:Hstep; [done|].
        unfold App.goToInput. rewrite showInput_spec. intros [= <-]. simpl.
        split; [by eexists|]. done.
      + unfold App.clearAll. rewrite showInput_spec. intros [= <-]. simpl.
        split; [by eexists|]. done.
      + intros (st' & (Hstep & fs' & ->)%formEvent_spec & [= <-])%bind_Some.
        simpl. split; [by eexists|]. done.
    - rewrite open_spec in Hopen. injection Hopen as <-. simpl.
      unfold App.Screens.
      destruct saved as [[doc|]|]; simpl; try (split; [by eexists|done]).
      unfold App.handleInputDataChange. simpl.
      destruct (validity doc) as [valid|] eqn:Hdoc; simpl.
      + split; [by eexists|]. intros ->. by rewrite Hdoc.
      + split; [by eexists|]. done. }
  destruct Hinv as [HS HV]. split_and!; [done| |done].
  intros Hno Hflag. specialize (HV Hflag).
  specialize (Hno (App.inputData (App.app s))).
  by destruct (validity (App.inputData (App.app s))) as [[]|].
Qed.


End Session.

(** Witness for X28: a document whose classes are [[null]], imported on
    the generation screen. *)
Lemma import_with_throwing_validation_witness :
  App.importConfig (App.validate (λ _, Some false)) (Some Sample.nullClass)
    Sample.generating
  = Some {| App.inputData := Sample.nullClass;
            App.currentStep := App.Generate;
            App.isValidInput := true; App.form := None |}.
Proof.
  refine (proj1 (proj2 (import_with_throwing_validation (λ _, Some false)
                          Sample.nullClass (App.JArray [App.JNull])
                          Sample.generating _ _))).
  - by vm_compute.
  - exact I.
Defined.

(** Witness for X29: the sample session on the generation screen. *)
Lemma session_screens_witness :
  App.Screens (App.app Sample.visited).
Proof.
  refine (proj1 (session_screens Sample.accepting None Sample.visit
                   Sample.opened Sample.visited _ _)).
  - by vm_compute.
  - by vm_compute.
Defined.

